(** * Wallet reconciliation and alerting engine of the Saros DLMM bot

    A shallow embedding of the bot's polling loop, faucet handler, wallet
    import handler and airdrop retry helper, together with the properties
    that the engine's specification states about them.

    Layout: the ECMAScript built-ins the code relies on ([toFixed],
    [JSON.stringify], [Array.prototype.includes] ...), the bs58 decoder, the
    data model, a state-and-exception monad for the handlers, the handlers
    themselves, and finally the theorems. *)

From Stdlib Require Import ZArith QArith Qround Qpower Lqa String Ascii List Lia.
From Stdlib Require Import Floats.SpecFloat.
From stdpp Require Import gmap strings list fin_maps pretty.

Local Open Scope Z_scope.

(* ===================================================================== *)
(** * ECMAScript numbers *)
(* ===================================================================== *)

(** A JavaScript [number] is an IEEE-754 binary64 value.  [spec_float]
    gives the sign, the integer mantissa [m] and the exponent [e] of a
    finite value [m * 2^e], besides the zeros, the infinities and NaN. *)
Definition number : Type := spec_float.

Definition prec : Z := 53.
Definition emax : Z := 1024.

(** The double nearest to an integer (integer literals such as [1e9]). *)
Definition ofZ (z : Z) : number := binary_normalize prec emax z 0 false.

(** [x / y] on numbers: correctly rounded binary64 division. *)
Definition jsdiv (x y : number) : number := SFdiv prec emax x y.

Definition isFinite (x : number) : bool :=
  match x with
  | S754_zero _ | S754_finite _ _ _ => true
  | _ => false
  end.

Definition isNegative (x : number) : bool :=
  match x with
  | S754_finite s _ _ => s
  | _ => false
  end.

(** The magnitude of a finite number as an exact rational. *)
Definition magnitude (x : number) : Q :=
  match x with
  | S754_finite _ m e => (inject_Z (Z.pos m) * 2 ^ e)%Q
  | _ => 0%Q
  end.

(** The integer [n] for which [n / 10^f - x] is as close to zero as
    possible, the larger one when there are two (step 11.a of
    [Number.prototype.toFixed]); [x] is the magnitude. *)
Definition roundHalfUp (f : nat) (x : Q) : Z :=
  Qfloor (x * inject_Z (10 ^ Z.of_nat f) + (1 # 2))%Q.

Definition zeros (k : nat) : string := String.concat EmptyString (repeat "0"%string k).

(** Steps 11.b and 11.c of [toFixed]: the digits of [n], padded on the
    left to [f + 1] characters, with a point before the last [f]. *)
Definition fixedDigits (f : nat) (n : Z) : string :=
  let m := pretty (Z.to_N n) in
  if (f =? 0)%nat then m
  else
    let k := String.length m in
    let m := if (k <=? f)%nat then (zeros (f + 1 - k) +:+ m)%string else m in
    let k := String.length m in
    (substring 0 (k - f) m +:+ "." +:+ substring (k - f) f m)%string.

Definition tenTo21 : Q := inject_Z (10 ^ 21).

(** ** Strings *)

Definition chr (n : nat) : ascii := ascii_of_nat n.
Definition str1 (c : ascii) : string := String c EmptyString.

Definition dquote : ascii := chr 34.
Definition backslash : ascii := chr 92.
Definition nl : string := str1 (chr 10).

(** [String.prototype.startsWith]. *)
Definition startsWith (s p : string) : bool := String.prefix p s.

(** White space removed by [String.prototype.trim], on 8-bit code units:
    tab, line feed, vertical tab, form feed, carriage return, space and
    the no-break space. *)
Definition isWhiteSpace (c : ascii) : bool :=
  let n := nat_of_ascii c in
  ((9 <=? n) && (n <=? 13) || (n =? 32) || (n =? 160))%nat.

Fixpoint trimStart (s : string) : string :=
  match s with
  | String c s' => if isWhiteSpace c then trimStart s' else s
  | EmptyString => EmptyString
  end.

Fixpoint trimEnd (s : string) : string :=
  match s with
  | String c s' =>
      match trimEnd s' with
      | EmptyString => if isWhiteSpace c then EmptyString else str1 c
      | t => String c t
      end
  | EmptyString => EmptyString
  end.

Definition trim (s : string) : string := trimEnd (trimStart s).

(** ** Texts of messages

    The text of a Telegram message is a JavaScript string, a sequence of
    UTF-16 code units; [length], [startsWith] and [trim] count and
    compare code units. *)
Definition Text : Type := list N.

(** The text whose code units are the characters of [s]. *)
Definition codeUnits (s : string) : Text := map N_of_ascii (list_ascii_of_string s).

(** [text.length]. *)
Definition Text_length (t : Text) : nat := length t.

(** [text.startsWith(p)]. *)
Fixpoint Text_startsWith (t p : Text) : bool :=
  match p, t with
  | [], _ => true
  | u :: p', v :: t' => (u =? v)%N && Text_startsWith t' p'
  | _ :: _, [] => false
  end.

(** The code units [String.prototype.trim] strips, [WhiteSpace] and
    [LineTerminator] of ECMAScript: U+0009 to U+000D, U+0020, U+00A0,
    U+1680, U+2000 to U+200A, U+2028, U+2029, U+202F, U+205F, U+3000 and
    U+FEFF. *)
Definition isWhiteSpaceUnit (u : N) : bool :=
  ((9 <=? u) && (u <=? 13) || (u =? 32) || (u =? 160) || (u =? 5760)
   || (8192 <=? u) && (u <=? 8202) || (u =? 8232) || (u =? 8233)
   || (u =? 8239) || (u =? 8287) || (u =? 12288) || (u =? 65279))%N.

Fixpoint Text_trimStart (t : Text) : Text :=
  match t with
  | u :: t' => if isWhiteSpaceUnit u then Text_trimStart t' else t
  | [] => []
  end.

Fixpoint Text_trimEnd (t : Text) : Text :=
  match t with
  | u :: t' =>
      match Text_trimEnd t' with
      | [] => if isWhiteSpaceUnit u then [] else [u]
      | r => u :: r
      end
  | [] => []
  end.

(** [text.trim()]. *)
Definition Text_trim (t : Text) : Text := Text_trimEnd (Text_trimStart t).

(** The string of 8-bit characters with the code units of [t], when none
    of them is above 255. *)
Fixpoint asLatin1 (t : Text) : option string :=
  match t with
  | [] => Some EmptyString
  | u :: t' =>
      if (u <? 256)%N then String (ascii_of_N u) <$> asLatin1 t' else None
  end.

(** [Array.prototype.includes] and [Array.prototype.some] on arrays of
    strings; [includes] compares with SameValueZero, which on strings is
    equality of the code-unit sequences. *)
Definition includes (arr : list string) (x : string) : bool :=
  existsb (String.eqb x) arr.

Definition some {A : Type} (arr : list A) (f : A -> bool) : bool :=
  existsb f arr.

(** [escapeMarkdownV2]: every reserved character gets a backslash in
    front ([text.replace(/([_*[\]()~`>#+\-=|{}.!\\/])/g, '\\$1')]). *)
Definition reservedMarkdownV2 : string := "_*[]()~`>#+-=|{}.!\/".

Fixpoint memChar (c : ascii) (s : string) : bool :=
  match s with
  | EmptyString => false
  | String d s' => Ascii.eqb c d || memChar c s'
  end.

Fixpoint escapeMarkdownV2 (text : string) : string :=
  match text with
  | EmptyString => EmptyString
  | String c rest =>
      if memChar c reservedMarkdownV2
      then String (chr 92) (String c (escapeMarkdownV2 rest))
      else String c (escapeMarkdownV2 rest)
  end.

(** ** JSON text *)

Definition hexDigit (n : nat) : ascii :=
  if (n <? 10)%nat then chr (48 + n) else chr (87 + n).

(** [UnicodeEscape] of a code unit below 256. *)
Definition UnicodeEscape (c : ascii) : string :=
  let n := nat_of_ascii c in
  String backslash
    (String "u" (String "0" (String "0"
      (String (hexDigit (n / 16)) (str1 (hexDigit (n mod 16))))))).

(** One code unit of [QuoteJSONString]. *)
Definition quoteChar (c : ascii) : string :=
  let n := nat_of_ascii c in
  if (n =? 8)%nat then String backslash "b"
  else if (n =? 9)%nat then String backslash "t"
  else if (n =? 10)%nat then String backslash "n"
  else if (n =? 12)%nat then String backslash "f"
  else if (n =? 13)%nat then String backslash "r"
  else if (n =? 34)%nat then String backslash (str1 dquote)
  else if (n =? 92)%nat then String backslash (str1 backslash)
  else if (n <? 32)%nat then UnicodeEscape c
  else str1 c.

Fixpoint quoteBody (s : string) : string :=
  match s with
  | EmptyString => EmptyString
  | String c s' => (quoteChar c +:+ quoteBody s')%string
  end.

Definition QuoteJSONString (s : string) : string :=
  String dquote (quoteBody s +:+ str1 dquote)%string.

(** The values the bot serialises: strings, numbers, arrays and objects
    with their properties in creation order. *)
#[warnings="-register-all"]
Inductive JSValue : Type :=
| JString (s : string)
| JNumber (x : number)
| JArray (items : list JSValue)
| JObject (props : list (string * JSValue)).

Section Builtins.

(** [Number::toString] (radix 10) of ECMA-262, the shortest decimal text
    that reads back as the same double.  It is a built-in of the runtime,
    not code of the repository; the model takes it as a parameter. *)
Variable NumberToString : number -> string.

(** [Number.prototype.toFixed(f)]. *)
Definition toFixed (x : number) (f : nat) : string :=
  if negb (isFinite x) then NumberToString x
  else
    let s := if isNegative x then "-"%string else EmptyString in
    let x' := magnitude x in
    if Qle_bool tenTo21 x' then (s +:+ NumberToString (SFabs x))%string
    else (s +:+ fixedDigits f (roundHalfUp f x'))%string.

(** [JSON.stringify] without indentation: a number that is not finite
    is written [null]. *)
Fixpoint JSON_stringify (v : JSValue) : string :=
  match v with
  | JString s => QuoteJSONString s
  | JNumber x => if isFinite x then NumberToString x else "null"%string
  | JArray items =>
      ("[" +:+ String.concat "," (map JSON_stringify items) +:+ "]")%string
  | JObject props =>
      ("{" +:+ String.concat ","
         (map (fun kv => let '(k, v') := kv in
                 (QuoteJSONString k +:+ ":" +:+ JSON_stringify v')%string)
              props) +:+ "}")%string
  end.

End Builtins.

(* ===================================================================== *)
(** * bs58 *)
(* ===================================================================== *)

Module bs58.

Definition ALPHABET : string :=
  "123456789ABCDEFGHJKLMNPQRSTUVWXYZabcdefghijkmnopqrstuvwxyz".

Fixpoint indexOf (c : ascii) (s : string) (i : Z) : option Z :=
  match s with
  | EmptyString => None
  | String d s' => if Ascii.eqb c d then Some i else indexOf c s' (i + 1)
  end.

(** The value of a character in the alphabet ([BASE_MAP]). *)
Definition digit (c : ascii) : option Z := indexOf c ALPHABET 0.

Fixpoint leadingOnes (s : string) : nat * string :=
  match s with
  | String c s' =>
      if Ascii.eqb c "1" then let '(n, r) := leadingOnes s' in (S n, r)
      else (O, s)
  | EmptyString => (O, EmptyString)
  end.

(** The base-58 number spelled by the characters, most significant
    first; [None] at a character outside the alphabet. *)
Fixpoint value (s : string) (acc : Z) : option Z :=
  match s with
  | EmptyString => Some acc
  | String c s' =>
      match digit c with
      | Some d => value s' (acc * 58 + d)
      | None => None
      end
  end.

Definition byteOfZ (z : Z) : Byte.byte :=
  match Byte.of_N (Z.to_N (z mod 256)) with
  | Some b => b
  | None => Byte.x00
  end.

(** The base-256 digits of [z], most significant first, none for zero. *)
Fixpoint bytesOf (fuel : nat) (z : Z) (acc : list Byte.byte) : list Byte.byte :=
  match fuel with
  | O => acc
  | S fuel' =>
      if z <=? 0 then acc
      else bytesOf fuel' (z / 256) (byteOfZ z :: acc)
  end.

(** [decodeUnsafe] of base-x: the leading ['1']s give as many zero bytes,
    the remaining characters a big-endian number. *)
Definition decodeUnsafe (source : string) : option (list Byte.byte) :=
  let '(zeroes, rest) := leadingOnes source in
  match value rest 0 with
  | Some z =>
      Some (repeat Byte.x00 zeroes ++ bytesOf (String.length rest) z [])
  | None => None
  end.

End bs58.

(* ===================================================================== *)
(** * Data model *)
(* ===================================================================== *)

Record WalletData : Type := mkWalletData {
  publicKey : string;
  privateKey : string
}.

Record PositionData : Type := mkPositionData {
  pool : string;
  lowerBin : number;
  upperBin : number;
  liquidity : number;
  feesEarned : number
}.

(** [lastFaucetTime] holds a value of [Date.now()], an integral number of
    milliseconds, or is absent. *)
Record UserState : Type := mkUserState {
  lastBalance : number;
  lastPositions : list PositionData;
  lastSignatures : list string;
  network : string;
  lastFaucetTime : option Z
}.

(** The session of a chat: [wallet] is absent until one is created,
    imported or restored; an absent [waitingForWalletImport] reads as
    false. *)
Record Session : Type := mkSession {
  wallet : option WalletData;
  waitingForWalletImport : bool
}.

Definition emptySession : Session := mkSession None false.

(** JavaScript [Error] values, told apart by their message. *)
Record Error : Type := mkError { message : string }.

Inductive Result (A : Type) : Type :=
| Ok (a : A)
| Throw (e : Error).
Arguments Ok {A} a.
Arguments Throw {A} e.

(** The two RPC connections: [connection] on [RPC_URL] and the one the
    faucet handler opens on [FALLBACK_RPC_URL]. *)
Inductive Endpoint : Type := Primary | Fallback.

Definition PublicKey : Type := list Byte.byte.

(** What a handler answers to the chat; the wording of the messages is
    left out, the data they carry is kept. *)
Inductive Reply : Type :=
| ReplyWalletMissing
| ReplyRateLimited (remainingTime : Z)
| ReplyRequesting
| ReplyAirdropSuccess (signature : string)
| ReplyAirdropUnavailable (err : Error)
| ReplyImportPrompt
| ReplyWalletImported (publicKey : string) (balance : string)
| ReplyImportError (errorMessage : string).

Inductive LogEntry : Type :=
| LogAirdropAttempt (attempt : Z) (conn : Endpoint) (err : Error)
| LogPrimaryFailed
| LogRequestTokensError (userId : Z) (err : Error)
| LogImportError (userId : Z) (err : Error)
| LogPollingError (userId : Z) (err : Error).

(** The observable effects of a run, in the order they happen. *)
Inductive Event : Type :=
| EGetBalance (conn : Endpoint) (address : PublicKey)
| EGetSignatures (conn : Endpoint) (address : PublicKey) (limit : Z)
| EGetPositions (address : PublicKey)
| ERequestAirdrop (conn : Endpoint) (address : PublicKey) (lamports : Z)
| EConfirmTransaction (conn : Endpoint) (signature : string)
| ESleep (ms : Z)
| ESendMessage (userId : Z) (text : string)
| EAnswerCbQuery (userId : Z)
| EReply (userId : Z) (r : Reply)
| ELog (entry : LogEntry).

(** The world outside the bot.  Every remote call is answered by an
    oracle that is asked with the number of remote calls made before it,
    so a service may fail now and answer later. *)
Record Env : Type := mkEnv {
  getBalance : nat -> Endpoint -> PublicKey -> Result number;
  getSignaturesForAddress :
    nat -> Endpoint -> PublicKey -> Z -> Result (list string);
  getUserPositions : nat -> PublicKey -> Result (list PositionData);
  requestAirdrop : nat -> Endpoint -> PublicKey -> Z -> Result string;
  confirmTransaction : nat -> Endpoint -> string -> Result (option string);
  sendMessage : nat -> Z -> string -> Result unit;
  answerCbQuery : nat -> Z -> Result unit;
  Date_now : nat -> Z;
  Keypair_fromSecretKey : list Byte.byte -> Result string
}.

(** The two global registries, the chat sessions, the count of remote
    calls and the effects observed so far. *)
Record World : Type := mkWorld {
  wallets : gmap Z WalletData;
  states : gmap Z UserState;
  sessions : gmap Z Session;
  tick : nat;
  trace : list Event
}.

Definition setWallets (f : gmap Z WalletData -> gmap Z WalletData) (w : World) : World :=
  mkWorld (f (wallets w)) (states w) (sessions w) (tick w) (trace w).
Definition setStates (f : gmap Z UserState -> gmap Z UserState) (w : World) : World :=
  mkWorld (wallets w) (f (states w)) (sessions w) (tick w) (trace w).
Definition setSessions (f : gmap Z Session -> gmap Z Session) (w : World) : World :=
  mkWorld (wallets w) (states w) (f (sessions w)) (tick w) (trace w).
Definition emit (e : Event) (w : World) : World :=
  mkWorld (wallets w) (states w) (sessions w) (tick w) (trace w ++ [e]).
Definition called (e : Event) (w : World) : World :=
  mkWorld (wallets w) (states w) (sessions w) (S (tick w)) (trace w ++ [e]).

(* ===================================================================== *)
(** * Handlers as state-and-exception computations *)
(* ===================================================================== *)

Definition M (A : Type) : Type := World -> Result A * World.

Definition ret {A : Type} (a : A) : M A := fun w => (Ok a, w).

Definition bind {A B : Type} (m : M A) (k : A -> M B) : M B :=
  fun w =>
    match m w with
    | (Ok a, w') => k a w'
    | (Throw e, w') => (Throw e, w')
    end.

Definition throw {A : Type} (e : Error) : M A := fun w => (Throw e, w).

(** [try { m } catch (e) { h e }]. *)
Definition tryCatch {A : Type} (m : M A) (h : Error -> M A) : M A :=
  fun w =>
    match m w with
    | (Ok a, w') => (Ok a, w')
    | (Throw e, w') => h e w'
    end.

Definition get : M World := fun w => (Ok w, w).
Definition modify (f : World -> World) : M unit := fun w => (Ok tt, f w).

Declare Scope bot_scope.
Delimit Scope bot_scope with bot.
Notation "'let*' x ':=' m 'in' k" := (bind m (fun x => k))
  (at level 10, x name, m at level 100, k at level 200) : bot_scope.
Notation "m '>>' k" := (bind m (fun _ => k))
  (at level 90, right associativity) : bot_scope.

Local Open Scope bot_scope.

(** An awaited remote call: the oracle answers for the current count of
    calls, the call is recorded and counted. *)
Definition remote {A : Type} (e : Event) (answer : nat -> Result A) : M A :=
  fun w => (answer (tick w), called e w).

Definition log (entry : LogEntry) : M unit := modify (emit (ELog entry)).
Definition reply (userId : Z) (r : Reply) : M unit := modify (emit (EReply userId r)).

(** [await new Promise(resolve => setTimeout(resolve, ms))]. *)
Definition sleep (ms : Z) : M unit := modify (emit (ESleep ms)).

(** [bs58.decode]: throws at a character outside the alphabet. *)
Definition bs58_decode (s : string) : M (list Byte.byte) :=
  match bs58.decodeUnsafe s with
  | Some buffer => ret buffer
  | None => throw (mkError "Non-base58 character")
  end.

(** [new PublicKey(value)] for a string: the decoded text must have 32
    bytes. *)
Definition PublicKey_new (value : string) : M PublicKey :=
  let* decoded := bs58_decode value in
  if (length decoded =? 32)%nat then ret decoded
  else throw (mkError "Invalid public key input").

Definition e9 : number := ofZ 1000000000.

(** The projection the poll compares positions by:
    [{ p: p.pool, l: p.lowerBin, u: p.upperBin, liq: p.liquidity }]. *)
Definition projection (p : PositionData) : JSValue :=
  JObject [("p"%string, JString (pool p));
           ("l"%string, JNumber (lowerBin p));
           ("u"%string, JNumber (upperBin p));
           ("liq"%string, JNumber (liquidity p))].

(** The snapshot a never-seen owner starts from in the poll. *)
Definition pollInitialState : UserState :=
  mkUserState (S754_zero false) [] [] "devnet" None.

(** The one position [MockDLMM.getUserPositions] answers with, after
    [DlmmService.getPositions] has turned its fields into numbers. *)
Definition mockPosition : PositionData :=
  mkPositionData "mockPoolAddress" (ofZ 100) (ofZ 200) (ofZ 1000) (ofZ 10).

Definition MockDLMM_getUserPositions (t : nat) (user : PublicKey) : Result (list PositionData) :=
  Ok [mockPosition].

Section Bot.

Variable NumberToString : number -> string.
Variable env : Env.

(** ** [requestAirdropWithRetry] *)

(** One pass of the [try] block: request, wait for the confirmation,
    throw when the confirmation carries an error. *)
Definition airdropOnce (conn : Endpoint) (publicKey : PublicKey) (lamports : Z) : M string :=
  let* signature :=
    remote (ERequestAirdrop conn publicKey lamports)
           (fun t => requestAirdrop env t conn publicKey lamports) in
  let* confirmation :=
    remote (EConfirmTransaction conn signature)
           (fun t => confirmTransaction env t conn signature) in
  match confirmation with
  | Some err => throw (mkError ("Transaction failed to confirm: " +:+ err))
  | None => ret signature
  end.

(** The [for (attempt = 1; attempt <= retries; attempt++)] loop; [fuel]
    is the number of iterations left, [retries - attempt + 1]. *)
Fixpoint airdropLoop (conn : Endpoint) (publicKey : PublicKey) (lamports : Z)
    (retries delayMs : Z) (fuel : nat) (attempt : Z) : M string :=
  match fuel with
  | O => throw (mkError "Airdrop failed after all retries.")
  | S fuel' =>
      tryCatch (airdropOnce conn publicKey lamports)
        (fun err =>
           log (LogAirdropAttempt attempt conn err) >>
           if attempt =? retries then throw err
           else
             sleep (delayMs * 2 ^ (attempt - 1)) >>
             airdropLoop conn publicKey lamports retries delayMs fuel' (attempt + 1))
  end.

Definition requestAirdropWithRetry (conn : Endpoint) (publicKey : PublicKey)
    (lamports : Z) (retries delayMs : Z) : M string :=
  airdropLoop conn publicKey lamports retries delayMs (Z.to_nat retries) 1.

(** The default arguments [retries = 3, delayMs = 2000]. *)
Definition requestAirdropWithRetry_default (conn : Endpoint) (publicKey : PublicKey)
    (lamports : Z) : M string :=
  requestAirdropWithRetry conn publicKey lamports 3 2000.

(** ** Middleware and small handlers *)

Definition getSession (userId : Z) : M Session :=
  fun w => (Ok (default emptySession (sessions w !! userId)), w).

Definition putSession (userId : Z) (s : Session) : M unit :=
  modify (setSessions (insert userId s)).

(** The wallet loading middleware: restore [ctx.session.wallet] from
    [wallets] when the session has none. *)
Definition loadWallet (userId : Z) : M unit :=
  if userId =? 0 then ret tt
  else
    let* w := get in
    let* session := getSession userId in
    match wallets w !! userId, wallet session with
    | Some walletData, None =>
        putSession userId (mkSession (Some walletData) (waitingForWalletImport session))
    | _, _ => putSession userId session
    end.

(** [await ctx.answerCbQuery()]: the acknowledgement of a button press,
    an awaited call to Telegram that may be refused. *)
Definition ctx_answerCbQuery (userId : Z) : M unit :=
  remote (EAnswerCbQuery userId) (fun t => answerCbQuery env t userId).


(** ** [bot.on('text')]: wallet import *)

(** The [try] block of the import for a text given by the string of its
    code units, none of which is above 255. *)
Definition importBody (userId : Z) (privateKeyText : string) : M unit :=
  let privateKeyBase58 := trim privateKeyText in
  let* secretKey := bs58_decode privateKeyBase58 in
  if negb (length secretKey =? 64)%nat then
    throw (mkError "Invalid private key length (must be 64 bytes).")
  else
    let* publicKey :=
      (fun w => (Keypair_fromSecretKey env secretKey, w)) in
    let walletData := mkWalletData publicKey privateKeyBase58 in
    putSession userId (mkSession (Some walletData) false) >>
    modify (setWallets (insert userId walletData)) >>
    let* address := PublicKey_new publicKey in
    let* lamports :=
      remote (EGetBalance Primary address)
             (fun t => getBalance env t Primary address) in
    let balance := jsdiv lamports e9 in
    reply userId (ReplyWalletImported publicKey (toFixed NumberToString balance 4)).

(** The text handler, behind the wallet loading middleware, for a text
    given by the string of its code units, none of which is above 255;
    [bot_on_text] is the handler for every text. *)
Definition onText (userId : Z) (text : string) : M unit :=
  loadWallet userId >>
  let* session := getSession userId in
  let privateKeyText := text in
  if waitingForWalletImport session
     && (startsWith privateKeyText "dev" || (80 <? String.length privateKeyText)%nat)
  then
    tryCatch (importBody userId privateKeyText)
      (fun error =>
         log (LogImportError userId error) >>
         let errorMessage :=
           if String.eqb (message error) EmptyString then "Invalid key or unknown error"%string
           else message error in
         reply userId (ReplyImportError errorMessage))
  else if startsWith privateKeyText "/" then
    match wallet session with
    | None => reply userId ReplyWalletMissing
    | Some _ => ret tt
    end
  else ret tt.

(** The [try] block of the import for the text of a message.
    [bs58.decode] throws at a code unit that is no character of its
    alphabet, so at every code unit above 255; a key that decodes is made
    of characters of the alphabet and is stored as the string of these
    characters. *)
Definition importText (userId : Z) (privateKeyText : Text) : M unit :=
  let privateKeyBase58 := Text_trim privateKeyText in
  let* key :=
    match asLatin1 privateKeyBase58 with
    | Some key => ret key
    | None => throw (mkError "Non-base58 character")
    end in
  let* secretKey := bs58_decode key in
  if negb (length secretKey =? 64)%nat then
    throw (mkError "Invalid private key length (must be 64 bytes).")
  else
    let* publicKey :=
      (fun w => (Keypair_fromSecretKey env secretKey, w)) in
    let walletData := mkWalletData publicKey key in
    putSession userId (mkSession (Some walletData) false) >>
    modify (setWallets (insert userId walletData)) >>
    let* address := PublicKey_new publicKey in
    let* lamports :=
      remote (EGetBalance Primary address)
             (fun t => getBalance env t Primary address) in
    let balance := jsdiv lamports e9 in
    reply userId (ReplyWalletImported publicKey (toFixed NumberToString balance 4)).

(** [bot.on('text')] for the text of a message, behind the wallet
    loading middleware. *)
Definition bot_on_text (userId : Z) (text : Text) : M unit :=
  loadWallet userId >>
  let* session := getSession userId in
  let privateKeyText := text in
  if waitingForWalletImport session
     && (Text_startsWith privateKeyText (codeUnits "dev")
         || (80 <? Text_length privateKeyText)%nat)
  then
    tryCatch (importText userId privateKeyText)
      (fun error =>
         log (LogImportError userId error) >>
         let errorMessage :=
           if String.eqb (message error) EmptyString then "Invalid key or unknown error"%string
           else message error in
         reply userId (ReplyImportError errorMessage))
  else if Text_startsWith privateKeyText (codeUnits "/") then
    match wallet session with
    | None => reply userId ReplyWalletMissing
    | Some _ => ret tt
    end
  else ret tt.

(** ** [bot.action('request_tokens')]: the faucet *)

(** The snapshot a never-seen owner starts from in the faucet handler. *)
Definition faucetInitialState : UserState :=
  mkUserState (S754_zero false) [] [] "devnet" (Some 0).

Definition hourlyLimitSeconds : Q := inject_Z (60 * 60).

(** [(now - (state.lastFaucetTime || 0)) / 1000], in seconds. *)
Definition timeSinceLastFaucet (now : Z) (state : UserState) : Q :=
  let last := default 0 (lastFaucetTime state) in
  (inject_Z (now - last) / inject_Z 1000)%Q.

(** [Math.ceil((hourlyLimitSeconds - timeSinceLastFaucet) / 60)]. *)
Definition remainingTime (elapsed : Q) : Z :=
  Qceiling ((hourlyLimitSeconds - elapsed) / inject_Z 60)%Q.

Definition withLastFaucetTime (state : UserState) (now : Z) : UserState :=
  mkUserState (lastBalance state) (lastPositions state) (lastSignatures state)
              (network state) (Some now).

(** The statements of the handler after the wallet check. *)
Definition requestTokensBody (userId : Z) (walletData : WalletData) : M unit :=
  let* w := get in
  (match states w !! userId with
   | Some _ => ret tt
   | None => modify (setStates (insert userId faucetInitialState))
   end) >>
  let* w := get in
  match states w !! userId with
  | None => throw (mkError "Cannot read properties of undefined")
  | Some state =>
      let now := Date_now env (tick w) in
      let elapsed := timeSinceLastFaucet now state in
      if Qlt_le_dec elapsed hourlyLimitSeconds then
        reply userId (ReplyRateLimited (remainingTime elapsed))
      else
        reply userId ReplyRequesting >>
        let* pubkey := PublicKey_new (publicKey walletData) in
        let* signature :=
          tryCatch (requestAirdropWithRetry_default Primary pubkey 2000000000)
            (fun primaryError =>
               log LogPrimaryFailed >>
               requestAirdropWithRetry_default Fallback pubkey 2000000000) in
        modify (setStates (insert userId (withLastFaucetTime state now))) >>
        reply userId (ReplyAirdropSuccess signature)
  end.

(** The handler from its [try] statement on, behind the wallet loading
    middleware: what a request does once its button press has been
    acknowledged.  [bot_action_request_tokens] is the whole handler. *)
Definition request_tokens (userId : Z) : M unit :=
  loadWallet userId >>
  tryCatch
    (let* session := getSession userId in
     match wallet session with
     | None => reply userId ReplyWalletMissing
     | Some walletData => requestTokensBody userId walletData
     end)
    (fun error =>
       log (LogRequestTokensError userId error) >>
       reply userId (ReplyAirdropUnavailable error)).

(** [bot.action('request_tokens')], behind the wallet loading
    middleware: the acknowledgement of the button press, then the [try]
    statement. *)
Definition bot_action_request_tokens (userId : Z) : M unit :=
  loadWallet userId >>
  ctx_answerCbQuery userId >>
  tryCatch
    (let* session := getSession userId in
     match wallet session with
     | None => reply userId ReplyWalletMissing
     | Some walletData => requestTokensBody userId walletData
     end)
    (fun error =>
       log (LogRequestTokensError userId error) >>
       reply userId (ReplyAirdropUnavailable error)).

(** ** The poll for alerts ([setInterval], every 300000 ms) *)

(** The two retry loops of the poll,
    [for (attempt = 0; attempt < 3; attempt++) { try { x = await op; break }
       catch (err) { if (attempt === 2) throw err; await sleep(2000) } }];
    [fuel] is the number of iterations left and [current] the value the
    variable holds before the loop. *)
Fixpoint pollRetry {A : Type} (op : M A) (fuel : nat) (attempt : Z) (current : A) : M A :=
  match fuel with
  | O => ret current
  | S fuel' =>
      tryCatch op
        (fun err =>
           if attempt =? 2 then throw err
           else sleep 2000 >> pollRetry op fuel' (attempt + 1) current)
  end.

(** [dlmmService.init] followed by [dlmmService.getPositions]: an error
    of the position source is thrown again under a new message. *)
Definition DlmmService_getPositions (userPublicKey : PublicKey) : M (list PositionData) :=
  tryCatch
    (remote (EGetPositions userPublicKey)
            (fun t => getUserPositions env t userPublicKey))
    (fun error => throw (mkError ("Failed to fetch positions: " +:+ message error))).

(** [await connection.getBalance(userPublicKey) / 1e9]. *)
Definition fetchBalance (userPublicKey : PublicKey) : M number :=
  let* lamports :=
    remote (EGetBalance Primary userPublicKey)
           (fun t => getBalance env t Primary userPublicKey) in
  ret (jsdiv lamports e9).

(** [await connection.getSignaturesForAddress(userPublicKey, { limit: 5 })],
    mapped to the signature strings. *)
Definition fetchSignatures (userPublicKey : PublicKey) : M (list string) :=
  remote (EGetSignatures Primary userPublicKey 5)
         (fun t => getSignaturesForAddress env t Primary userPublicKey 5).

Definition balanceChanged (state : UserState) (currentBalance : number) : bool :=
  let oldBalanceStr := toFixed NumberToString (lastBalance state) 4 in
  let newBalanceStr := toFixed NumberToString currentBalance 4 in
  negb (String.eqb newBalanceStr oldBalanceStr).

Definition positionsChanged (state : UserState) (currentPositions : list PositionData) : bool :=
  negb (String.eqb
          (JSON_stringify NumberToString (JArray (map projection currentPositions)))
          (JSON_stringify NumberToString (JArray (map projection (lastPositions state))))).

Definition signaturesChanged (state : UserState) (currentSignatures : list string) : bool :=
  some currentSignatures (fun sig => negb (includes (lastSignatures state) sig)).

(** Step 4 of the poll: the text of the alert, empty when nothing
    changed. *)
Definition alertLogic (state : UserState) (currentBalance : number)
    (currentPositions : list PositionData) (currentSignatures : list string) : string :=
  let alert := EmptyString in
  let oldBalanceStr := toFixed NumberToString (lastBalance state) 4 in
  let newBalanceStr := toFixed NumberToString currentBalance 4 in
  let alert :=
    if balanceChanged state currentBalance
    then (alert +:+ "Balance changed: " +:+ oldBalanceStr +:+ " to "
                +:+ newBalanceStr +:+ " SOL" +:+ nl)%string
    else alert in
  let alert :=
    if positionsChanged state currentPositions
    then (alert +:+ "Your DLMM positions have updated (new position or range change)!"
                +:+ nl)%string
    else alert in
  let alert :=
    if signaturesChanged state currentSignatures
    then (alert +:+ "New activity detected in your wallet (new transaction signature)!"
                +:+ nl)%string
    else alert in
  alert.

Definition alertMessage (alert : string) : string :=
  escapeMarkdownV2 ("🚨 Hey! Something changed:" +:+ nl +:+ alert).

(** The body of the [try] block for one owner. *)
Definition pollBody (userId : Z) (walletData : WalletData) : M unit :=
  let* w := get in
  match states w !! userId with
  | None => throw (mkError "Cannot read properties of undefined")
  | Some state =>
      let* userPublicKey := PublicKey_new (publicKey walletData) in
      let* currentBalance :=
        pollRetry (fetchBalance userPublicKey) 3 0 (lastBalance state) in
      let* currentPositions := DlmmService_getPositions userPublicKey in
      let* currentSignatures :=
        pollRetry (fetchSignatures userPublicKey) 3 0 (lastSignatures state) in
      let alert := alertLogic state currentBalance currentPositions currentSignatures in
      (if String.eqb alert EmptyString then ret tt
       else remote (ESendMessage userId (alertMessage alert))
                   (fun t => sendMessage env t userId (alertMessage alert))) >>
      modify (setStates (insert userId
        (mkUserState currentBalance currentPositions currentSignatures
                     (network state) (lastFaucetTime state))))
  end.

(** One iteration of the [for ... of Object.entries(wallets)] loop. *)
Definition pollOwner (entry : Z * WalletData) : M unit :=
  let '(userId, walletData) := entry in
  let* w := get in
  (match states w !! userId with
   | Some _ => ret tt
   | None => modify (setStates (insert userId pollInitialState))
   end) >>
  tryCatch (pollBody userId walletData)
    (fun error => log (LogPollingError userId error)).

Fixpoint forEach {A : Type} (xs : list A) (body : A -> M unit) : M unit :=
  match xs with
  | [] => ret tt
  | x :: rest => body x >> forEach rest body
  end.

(** [Object.entries(wallets)], read once when the loop starts.  The
    order of the entries is the one of the map; nothing proved below
    depends on it. *)
Definition Object_entries (w : World) : list (Z * WalletData) :=
  map_to_list (wallets w).

(** One tick of the poll. *)
Definition poll : M unit :=
  let* w := get in
  forEach (Object_entries w) pollOwner.

End Bot.

(* ===================================================================== *)
(** * Vocabulary of the properties *)
(* ===================================================================== *)

(** ** Numbers and their texts *)

(** The value of a decimal digit. *)
Definition digitVal (c : ascii) : N := (N_of_ascii c - 48)%N.

(** The number a string of decimal digits spells. *)
Fixpoint decVal (s : string) : N :=
  match s with
  | EmptyString => 0%N
  | String c s' => (digitVal c * 10 ^ N.of_nat (String.length s') + decVal s')%N
  end.

(** The balances [toFixed] writes with digits: finite, not negative,
    below 1e21. *)
Definition balanceInRange (x : number) : bool :=
  isFinite x && negb (isNegative x) && negb (Qle_bool tenTo21 (magnitude x)).

(** A balance rounded to 4 decimals, in units of 0.0001. *)
Definition rounded4 (x : number) : Z := roundHalfUp 4 (magnitude x).

(** The number a decimal literal denotes: [decimal 100004 5] is the
    double nearest to 1.00004. *)
Definition decimal (digits : Z) (scale : Z) : number :=
  jsdiv (ofZ digits) (ofZ (10 ^ scale)).

(** A snapshot with the given balance. *)
Definition stateWithBalance (b : number) : UserState :=
  mkUserState b [] [] "devnet" None.

(** The padded digits of [fixedDigits]. *)
Definition paddedDigits (f : nat) (n : Z) : string :=
  let m := pretty (Z.to_N n) in
  if (String.length m <=? f)%nat then (zeros (f + 1 - String.length m) +:+ m)%string else m.

(** ** Positions *)

(** A position without its fees. *)
Definition structural (p : PositionData) : string * number * number * number :=
  (pool p, lowerBin p, upperBin p, liquidity p).

(** Minus zero, which [Number::toString] writes as zero does. *)
Definition isNegativeZero (x : number) : bool :=
  match x with S754_zero true => true | _ => false end.

(** A finite double in canonical form, other than minus zero. *)
Definition wellFormedNumber (x : number) : bool :=
  isFinite x && valid_binary prec emax x && negb (isNegativeZero x).

(** A position whose bins and liquidity are such numbers. *)
Definition wellFormedPosition (p : PositionData) : bool :=
  wellFormedNumber (lowerBin p) && wellFormedNumber (upperBin p)
  && wellFormedNumber (liquidity p).

(** Every character of [s] passes [f]. *)
Fixpoint allChars (f : ascii -> bool) (s : string) : bool :=
  match s with
  | EmptyString => true
  | String c s' => f c && allChars f s'
  end.

(** The characters of the text of a finite number. *)
Definition isNumberChar (c : ascii) : bool := memChar c "0123456789+-.e".
Definition isDigitChar (c : ascii) : bool := memChar c "0123456789".

(** What is used of [Number::toString]: on finite numbers it writes in
    the alphabet of numbers, and two numbers with the same text are the
    same number. *)
Record NumberToStringSpec (nts : number -> string) : Prop := {
  nts_chars : forall x, wellFormedNumber x = true -> allChars isNumberChar (nts x) = true;
  nts_inj : forall x y, wellFormedNumber x = true -> wellFormedNumber y = true ->
                        nts x = nts y -> x = y
}.

(** The value of a lower case hexadecimal digit. *)
Definition hexVal (c : ascii) : nat :=
  let n := nat_of_ascii c in if (n <? 58)%nat then (n - 48)%nat else (n - 87)%nat.

(** The inverse of [quoteChar] at the head of a text. *)
Definition unquoteChar (s : string) : option (ascii * string) :=
  match s with
  | String h t =>
      if Ascii.eqb h backslash then
        match t with
        | String k t' =>
            if Ascii.eqb k "b" then Some (chr 8, t')
            else if Ascii.eqb k "t" then Some (chr 9, t')
            else if Ascii.eqb k "n" then Some (chr 10, t')
            else if Ascii.eqb k "f" then Some (chr 12, t')
            else if Ascii.eqb k "r" then Some (chr 13, t')
            else if Ascii.eqb k dquote then Some (dquote, t')
            else if Ascii.eqb k backslash then Some (backslash, t')
            else
              match t' with
              | String _ (String _ (String x (String y t''))) =>
                  Some (chr (16 * hexVal x + hexVal y), t'')
              | _ => None
              end
        | EmptyString => None
        end
      else if Ascii.eqb h dquote then None
      else Some (h, t)
  | EmptyString => None
  end.

(** A number as [JSON.stringify] writes it. *)
Definition jsonNumber (nts : number -> string) (x : number) : string :=
  if isFinite x then nts x else "null"%string.

(** The fixed parts of the text of one projected position. *)
Definition keyP : string :=
  String "{" (String dquote (String "p" (String dquote (String ":" (str1 dquote))))).

Definition keyL : string :=
  String dquote (String "," (String dquote (String "l" (String dquote ":")))).

Definition keyU : string :=
  String "," (String dquote (String "u" (String dquote ":"))).

Definition keyLiq : string :=
  String "," (String dquote (String "l" (String "i" (String "q" (String dquote ":"))))).

(** The text of one projected position, followed by [rest]. *)
Definition itemText (nts : number -> string) (p : PositionData) (rest : string) : string :=
  (keyP +:+ quoteBody (pool p) +:+ keyL +:+ jsonNumber nts (lowerBin p) +:+ keyU
   +:+ jsonNumber nts (upperBin p) +:+ keyLiq +:+ jsonNumber nts (liquidity p)
   +:+ String "}" rest)%string.

(** The items of the array after the opening bracket. *)
Fixpoint itemsText (nts : number -> string) (ps : list PositionData) : string :=
  match ps with
  | [] => "]"%string
  | p :: rest =>
      itemText nts p (match rest with [] => "]"%string | _ => String "," (itemsText nts rest) end)
  end.

(** A printer of finite numbers that is injective, used to instantiate
    [NumberToStringSpec]: sign, mantissa, [e], exponent. *)
Definition exactToString (x : number) : string :=
  match x with
  | S754_zero _ => "0"
  | S754_infinity s => if s then "-Infinity" else "Infinity"
  | S754_nan => "NaN"
  | S754_finite s m e =>
      ((if s then "-" else EmptyString) +:+ pretty (N.pos m) +:+ String "e" (pretty e))
  end%string.

(** A position with other fees. *)
Definition setFeesEarned (p : PositionData) (fees : number) : PositionData :=
  mkPositionData (pool p) (lowerBin p) (upperBin p) (liquidity p) fees.

(** A snapshot with the given positions. *)
Definition stateWithPositions (ps : list PositionData) : UserState :=
  mkUserState (S754_zero false) ps [] "devnet" None.

(** ** Signatures *)

(** The set of new signatures in the words of the specification: the
    elements of [new] that are not present in [old].  The poll itself
    only computes whether there is one, see [signaturesChanged]. *)
Definition newSignatures (old new : list string) : list string :=
  List.filter (fun sig => negb (includes old sig)) new.

(** A snapshot with the given signatures. *)
Definition stateWithSignatures (sigs : list string) : UserState :=
  mkUserState (S754_zero false) [] sigs "devnet" None.

(** The line of the alert for a new signature. *)
Definition newActivityLine : string :=
  ("New activity detected in your wallet (new transaction signature)!" +:+ nl)%string.

(** ** Worlds and traces *)

(** Only the call count and the trace differ. *)
Definition sameStores (w w' : World) : Prop :=
  wallets w' = wallets w /\ states w' = states w /\ sessions w' = sessions w.

(** The registries agree outside owner [A]. *)
Definition sameOthers (A : Z) (w w' : World) : Prop :=
  wallets w' = wallets w /\ forall B, B <> A -> states w' !! B = states w !! B.

(** The trace grew by events that all satisfy [P]. *)
Definition traceGrows (P : Event -> Prop) (w w' : World) : Prop :=
  exists evs, trace w' = trace w ++ evs /\ Forall P evs.

(** The endpoint a remote call went to. *)
Definition endpointOf (e : Event) : option Endpoint :=
  match e with
  | EGetBalance c _ | EGetSignatures c _ _ | ERequestAirdrop c _ _
  | EConfirmTransaction c _ => Some c
  | _ => None
  end.

(** Not a call to the fallback endpoint. *)
Definition onPrimary (e : Event) : Prop := endpointOf e <> Some Fallback.

(** Not a message to owner [A]. *)
Definition notSentTo (A : Z) (e : Event) : Prop :=
  match e with ESendMessage B _ => B <> A | _ => True end.

(** The delays slept and the airdrops requested among some events. *)
Fixpoint sleeps (evs : list Event) : list Z :=
  match evs with
  | [] => []
  | ESleep ms :: rest => ms :: sleeps rest
  | _ :: rest => sleeps rest
  end.

Fixpoint airdropRequests (evs : list Event) : list Endpoint :=
  match evs with
  | [] => []
  | ERequestAirdrop c _ _ :: rest => c :: airdropRequests rest
  | _ :: rest => airdropRequests rest
  end.

(** [m] relates every world to the one it leaves, whatever its result. *)
Definition preserves (I : World -> World -> Prop) {A : Type} (m : M A) : Prop :=
  forall w, I w (snd (m w)).

(** [m] always throws, and relates the worlds. *)
Definition throwsWith (I : World -> World -> Prop) {A : Type} (m : M A) : Prop :=
  forall w, exists e w', m w = (Throw e, w') /\ I w w'.

(** When [m] throws, the worlds are related. *)
Definition keepsOnThrow (I : World -> World -> Prop) {A : Type} (m : M A) : Prop :=
  forall w e w', m w = (Throw e, w') -> I w w'.

(** A preorder on worlds that emitting or calling with an event of
    class [P] respects. *)
Record Frame (I : World -> World -> Prop) (P : Event -> Prop) : Prop := mkFrame {
  frame_refl : forall w, I w w;
  frame_trans : forall a b c, I a b -> I b c -> I a c;
  frame_emit : forall e w, P e -> I w (emit e w);
  frame_called : forall e w, P e -> I w (called e w)
}.

(** The events one iteration of the poll for owner [B] may produce:
    nothing on the fallback endpoint, no message to another owner. *)
Definition pollEvent (B : Z) (e : Event) : Prop :=
  onPrimary e /\ forall C, C <> B -> notSentTo C e.

(** No constraint on the events. *)
Definition anyEvent (e : Event) : Prop := True.

(** The wallet a handler finds in the session once the wallet loading
    middleware has run. *)
Definition walletSeen (w : World) (userId : Z) : option WalletData :=
  match wallet (default emptySession (sessions w !! userId)) with
  | Some walletData => Some walletData
  | None => wallets w !! userId
  end.

(** The state the faucet handler reads for an owner. *)
Definition faucetStateSeen (w : World) (userId : Z) : UserState :=
  default faucetInitialState (states w !! userId).

(** The delays of the airdrop path before attempts [2 .. n + 1]:
    [delayMs * 2^(attempt - 1)] for [attempt = first .. first + n - 1]. *)
Definition backoffDelays (delayMs : Z) (first : Z) (n : nat) : list Z :=
  map (fun k => delayMs * 2 ^ (first - 1 + Z.of_nat k)) (seq 0 n).

(** One of the three fetches of the poll fails at every call for the
    address [pk]. *)
Definition fetchFails (env : Env) (pk : PublicKey) : Prop :=
  (forall t, exists e, getBalance env t Primary pk = Throw e)
  \/ (forall t, exists e, getUserPositions env t pk = Throw e)
  \/ (forall t, exists e, getSignaturesForAddress env t Primary pk 5 = Throw e).

(** The events of the fetches: reads on the primary endpoint and the
    sleeps between them. *)
Definition readEvent (e : Event) : Prop :=
  match e with
  | EGetBalance Primary _ | EGetPositions _ | EGetSignatures Primary _ _
  | ESleep _ => True
  | _ => False
  end.

(** The state the poll reads for an owner. *)
Definition pollStateSeen (w : World) (userId : Z) : UserState :=
  default pollInitialState (states w !! userId).

(** The world in which the [try] block of an owner starts. *)
Definition withInitialState (userId : Z) (w : World) : World :=
  match states w !! userId with
  | Some _ => w
  | None => setStates (insert userId pollInitialState) w
  end.

Global Instance WalletData_eq_dec : EqDecision WalletData.
Proof. solve_decision. Defined.

(** The registry of states once the faucet handler has made sure that
    the owner has an entry. *)
Definition withFaucetState (userId : Z) (w : World) : gmap Z UserState :=
  match states w !! userId with
  | Some _ => states w
  | None => <[userId := faucetInitialState]> (states w)
  end.

(** The airdrop with failover, as the faucet handler runs it. *)
Definition airdropWithFailover (env : Env) (pubkey : PublicKey) : M string :=
  tryCatch (requestAirdropWithRetry_default env Primary pubkey 2000000000)
    (fun primaryError =>
       log LogPrimaryFailed >>
       requestAirdropWithRetry_default env Fallback pubkey 2000000000).


(** The session a handler works with once the wallet loading middleware
    has run. *)
Definition sessionSeen (w : World) (userId : Z) : Session :=
  mkSession (walletSeen w userId)
            (waitingForWalletImport (default emptySession (sessions w !! userId))).

(** The test of the text handler that lets a message through to the
    import, for a text given by the string of its code units. *)
Definition importGate (session : Session) (text : string) : bool :=
  waitingForWalletImport session
  && (startsWith text "dev" || (80 <? String.length text)%nat).

(** The test of the text handler that lets the text of a message through
    to the import. *)
Definition textGate (session : Session) (text : Text) : bool :=
  waitingForWalletImport session
  && (Text_startsWith text (codeUnits "dev") || (80 <? Text_length text)%nat).

(** The bytes [bs58.decode] gives for the trimmed text of a message, if
    it gives any. *)
Definition decodedKey (text : Text) : option (list Byte.byte) :=
  match asLatin1 (Text_trim text) with
  | Some key => bs58.decodeUnsafe key
  | None => None
  end.


(** The line of the alert for a balance change. *)
Definition balanceLine (oldBalanceStr newBalanceStr : string) : string :=
  ("Balance changed: " +:+ oldBalanceStr +:+ " to " +:+ newBalanceStr +:+ " SOL" +:+ nl)%string.

(** What the import does once the key pair is known: read the balance
    and answer. *)
Definition importAnswer (nts : number -> string) (env : Env) (A : Z) (pk : string) : M unit :=
  let* address := PublicKey_new pk in
  let* lamports :=
    remote (EGetBalance Primary address)
           (fun t => getBalance env t Primary address) in
  reply A (ReplyWalletImported pk (toFixed nts (jsdiv lamports e9) 4)).

(** ** Concrete keys, environments and worlds *)

(** Two addresses of 32 bytes, a 32-byte key and a 64-byte key in
    base 58. *)
Definition keyA : string := "11111111111111111111111111111111".
Definition keyB : string := "11111111111111111111111111111112".
Definition key64 : string :=
  "dev111111111111111111111111111111111111111111111111111111111111111111111111111111111111".

(** The bytes a base 58 text decodes to. *)
Definition addressOf (key : string) : PublicKey := default [] (bs58.decodeUnsafe key).

(** Tells the address of [keyB] from that of [keyA]. *)
Definition endsWithOne (pk : PublicKey) : bool :=
  match last pk with Some Byte.x01 => true | _ => false end.

(** An environment in which the balance of [keyA] cannot be read while
    [keyB] is served, the primary endpoint refuses airdrops and the
    fallback grants them. *)
Definition testEnv : Env :=
  mkEnv
    (fun t c pk => if endsWithOne pk then Ok (ofZ 1500000000)
                   else Throw (mkError "balance unavailable"))
    (fun t c pk limit => Ok ["5sig"%string])
    MockDLMM_getUserPositions
    (fun t c pk lamports =>
       match c with
       | Primary => Throw (mkError "primary down")
       | Fallback => Ok "fallbackSignature"%string
       end)
    (fun t c sig => Ok None)
    (fun t userId text => Ok tt)
    (fun t userId => Ok tt)
    (fun t => 1700000000000 + 1000 * Z.of_nat t)
    (fun secretKey => Ok keyB).

(** An environment in which every call succeeds; wallets hold one
    lamport and have neither positions nor signatures. *)
Definition dustEnv : Env :=
  mkEnv
    (fun t c pk => Ok (ofZ 1))
    (fun t c pk limit => Ok [])
    (fun t pk => Ok [])
    (fun t c pk lamports => Ok "primarySignature"%string)
    (fun t c sig => Ok None)
    (fun t userId text => Ok tt)
    (fun t userId => Ok tt)
    (fun t => 1700000000000 + 1000 * Z.of_nat t)
    (fun secretKey => Ok keyB).

(** Nobody registered. *)
Definition emptyWorld : World := mkWorld ∅ ∅ ∅ O [].

(** Owners 7 and 8 registered, never polled. *)
Definition twoOwners : World :=
  mkWorld (<[7 := mkWalletData keyA "secretA"]> (<[8 := mkWalletData keyB "secretB"]> ∅))
          ∅ ∅ O [].

(** Owner 7 drew from the faucet one second before the clock of
    [testEnv] starts. *)
Definition justFunded : World :=
  mkWorld (<[7 := mkWalletData keyA "secretA"]> ∅)
          (<[7 := mkUserState (S754_zero false) [] [] "devnet" (Some 1699999999000)]> ∅)
          ∅ O [].

(** Owner 7 was asked for a private key. *)
Definition awaitingImport : World :=
  mkWorld ∅ ∅ (<[7 := mkSession None true]> ∅) O [].

(** A message sent by the poll. *)
Definition isSendMessage (e : Event) : bool :=
  match e with ESendMessage _ _ => true | _ => false end.

(** Owner 7 registered, never polled. *)
Definition oneOwner : World :=
  mkWorld (<[7 := mkWalletData keyA "secretA"]> ∅) ∅ ∅ O [].

(** The record of owner 7. *)
Definition walletA : WalletData := mkWalletData keyA "secretA".

(** The error of the primary endpoint of [testEnv]. *)
Definition primaryDown (t : nat) : Error := mkError "primary down".

(** An environment in which Telegram refuses every acknowledgement of a
    button press and every other call succeeds. *)
Definition staleQueryEnv : Env :=
  mkEnv
    (fun t c pk => Ok (ofZ 1500000000))
    (fun t c pk limit => Ok [])
    (fun t pk => Ok [])
    (fun t c pk lamports => Ok "primarySignature"%string)
    (fun t c sig => Ok None)
    (fun t userId text => Ok tt)
    (fun t userId => Throw (mkError "query is too old"))
    (fun t => 1700000000000 + 1000 * Z.of_nat t)
    (fun secretKey => Ok keyB).


(** The text of [key64] followed by a no-break space, U+00A0. *)
Definition key64nbsp : Text := codeUnits key64 ++ [160%N].

(* ===================================================================== *)
(** * Further code of the bot and vocabulary of its properties *)
(* ===================================================================== *)

(** An attempt of the airdrop made at call count [t] comes back confirmed
    with [signature]. *)
Definition airdropConfirmed (env : Env) (conn : Endpoint) (pk : PublicKey) (lamports : Z)
    (t : nat) (signature : string) : Prop :=
  requestAirdrop env t conn pk lamports = Ok signature
  /\ confirmTransaction env (S t) conn signature = Ok None.

(** An attempt of the airdrop made at call count [t] fails with [e]: the
    request is refused, or the confirmation is, or the confirmation
    carries an error. *)
Definition airdropFailure (env : Env) (conn : Endpoint) (pk : PublicKey) (lamports : Z)
    (t : nat) (e : Error) : Prop :=
  requestAirdrop env t conn pk lamports = Throw e
  \/ exists signature,
       requestAirdrop env t conn pk lamports = Ok signature
       /\ (confirmTransaction env (S t) conn signature = Throw e
           \/ exists err,
                confirmTransaction env (S t) conn signature = Ok (Some err)
                /\ e = mkError ("Transaction failed to confirm: " +:+ err)).

(** The delays slept before attempts [2 .. n]. *)
Definition delaysBefore (delayMs : Z) (n : nat) : list Z :=
  map (fun attempt => delayMs * 2 ^ (attempt - 1)) (map Z.of_nat (seq 1 (n - 1))).

(** What a cycle of the poll keeps of the world: the wallet registry, the
    sessions, and of every snapshot that exists its network and the time
    of the last faucet grant. *)
Definition pollKeeps (w w' : World) : Prop :=
  wallets w' = wallets w
  /\ sessions w' = sessions w
  /\ forall B st, states w !! B = Some st ->
       exists st', states w' !! B = Some st'
                   /\ network st' = network st
                   /\ lastFaucetTime st' = lastFaucetTime st.

(** The snapshot of owner [A] in [w'] was written from three answers
    given between the call counts of [w] and [w']. *)
Definition freshSnapshot (env : Env) (A : Z) (pk : PublicKey) (w w' : World) : Prop :=
  exists (t1 t2 t3 : nat) lamports positions signatures,
    (tick w <= t1 < t2)%nat /\ (t2 < t3 < tick w')%nat
    /\ getBalance env t1 Primary pk = Ok lamports
    /\ getUserPositions env t2 pk = Ok positions
    /\ getSignaturesForAddress env t3 Primary pk 5 = Ok signatures
    /\ states w'
       = <[A := mkUserState (jsdiv lamports e9) positions signatures
                 (network (pollStateSeen w A)) (lastFaucetTime (pollStateSeen w A))]>
           (states w).

(** The events of a read that is made [S k] times with a pause of 2000
    before each repetition. *)
Definition retriedRead (ev : Event) (k : nat) : list Event :=
  ev :: concat (repeat [ESleep 2000; ev] k).

(** The answer that reports a granted airdrop. *)
Definition isAirdropSuccess (r : Reply) : bool :=
  match r with ReplyAirdropSuccess _ => true | _ => false end.

(** One of the three tests of the poll reports a change. *)
Definition somethingChanged (nts : number -> string) (state : UserState)
    (currentBalance : number) (currentPositions : list PositionData)
    (currentSignatures : list string) : bool :=
  balanceChanged nts state currentBalance
  || positionsChanged nts state currentPositions
  || signaturesChanged state currentSignatures.

(** The three reads of an iteration that succeeds at once. *)
Definition pollReads (pk : PublicKey) : list Event :=
  [EGetBalance Primary pk; EGetPositions pk; EGetSignatures Primary pk 5].

(** The text an import error is answered with. *)
Definition importErrorText (error : Error) : string :=
  if String.eqb (message error) EmptyString then "Invalid key or unknown error"%string
  else message error.

(** A text in which every reserved character of MarkdownV2 stands behind
    a backslash, and every backslash in front of a reserved character. *)
Fixpoint wellEscaped (s : string) : bool :=
  match s with
  | EmptyString => true
  | String c rest =>
      if Ascii.eqb c backslash then
        match rest with
        | String d rest' => memChar d reservedMarkdownV2 && wellEscaped rest'
        | EmptyString => false
        end
      else negb (memChar c reservedMarkdownV2) && wellEscaped rest
  end.

(** What a reader of MarkdownV2 makes of the escapes: the backslash goes,
    the character behind it stays. *)
Fixpoint unescapeMarkdownV2 (s : string) : string :=
  match s with
  | EmptyString => EmptyString
  | String c rest =>
      if Ascii.eqb c backslash then
        match rest with
        | String d rest' => String d (unescapeMarkdownV2 rest')
        | EmptyString => str1 c
        end
      else String c (unescapeMarkdownV2 rest)
  end.

(** The number of reserved characters of a text. *)
Fixpoint countReserved (s : string) : nat :=
  match s with
  | EmptyString => O
  | String c rest =>
      ((if memChar c reservedMarkdownV2 then 1 else 0) + countReserved rest)%nat
  end.

(** ** The shared helpers of the handlers *)

(** [(error as Error).message || 'an unknown error occurred']. *)
Definition errorMessageOr (error : Error) : string :=
  if String.eqb (message error) EmptyString then "an unknown error occurred"%string
  else message error.

(** The text [DlmmService.suggestRebalance] answers with, its three
    escapes included. *)
Definition suggestRebalance : string :=
  "Suggestion: Shift 20% liquidity to lower bins for better yield\. The market is moving in your favor\! No action needed at this time\.".

Section Helpers.

Variable NumberToString : number -> string.

(** [PublicKey.prototype.toString], the base 58 text of the address; a
    method of the Solana library, taken as a parameter. *)
Variable PublicKey_toString : PublicKey -> string.

Variable env : Env.

(** One position of [getPositions]; [i] is its index in the array. *)
Definition positionText (i : nat) (p : PositionData) : string :=
  ("*Position " +:+ NumberToString (ofZ (Z.of_nat i + 1)) +:+ "*" +:+ nl
   +:+ "Pool: " +:+ escapeMarkdownV2 (pool p) +:+ nl
   +:+ "Range: " +:+ NumberToString (lowerBin p) +:+ " to " +:+ NumberToString (upperBin p)
   +:+ nl
   +:+ "Liquidity: " +:+ escapeMarkdownV2 (toFixed NumberToString (liquidity p) 4)
   +:+ " SOL" +:+ nl
   +:+ "Fees: " +:+ escapeMarkdownV2 (toFixed NumberToString (feesEarned p) 4)
   +:+ " SOL")%string.

Fixpoint positionTexts (i : nat) (ps : list PositionData) : list string :=
  match ps with
  | [] => []
  | p :: rest => positionText i p :: positionTexts (S i) rest
  end.

(** [getPositions]: the text of the positions, or of what went wrong.
    The [console.error] of the [catch] block leaves no event. *)
Definition getPositions (userWallet : PublicKey) : M string :=
  tryCatch
    (let* positions := DlmmService_getPositions env userWallet in
     match positions with
     | [] =>
         ret (escapeMarkdownV2 "You don't have any positions yet. Try adding some liquidity!")
     | _ :: _ => ret (String.concat (nl +:+ nl) (positionTexts 0 positions))
     end)
    (fun error =>
       ret (escapeMarkdownV2
              ("Sorry, we couldn’t check your positions right now. Error: "
               +:+ errorMessageOr error +:+ ". Try again later."))).

(** [getRebalanceSuggestion]: the suggestion for the first position. *)
Definition getRebalanceSuggestion (userWallet : PublicKey) : M string :=
  tryCatch
    (let* positions := DlmmService_getPositions env userWallet in
     match positions with
     | [] =>
         ret (escapeMarkdownV2
                "You don’t have any positions to rebalance. Add liquidity first!")
     | _ :: _ => ret suggestRebalance
     end)
    (fun error =>
       ret (escapeMarkdownV2
              ("Sorry, we couldn’t suggest a rebalance right now. Error: "
               +:+ errorMessageOr error +:+ ". Try again later."))).

(** One pool of [getWalletOverview]. *)
Definition poolLine (p : PositionData) : string :=
  let safePool := escapeMarkdownV2 (pool p) in
  let safeLiquidity := escapeMarkdownV2 (toFixed NumberToString (liquidity p) 4) in
  ("Pool: " +:+ safePool +:+ ", Range: " +:+ NumberToString (lowerBin p) +:+ " to "
   +:+ NumberToString (upperBin p) +:+ ", Liquidity: " +:+ safeLiquidity +:+ " SOL")%string.

Definition poolDetails (positions : list PositionData) : string :=
  match positions with
  | [] => "No pools yet. Add liquidity to join one!"%string
  | _ :: _ => String.concat nl (map poolLine positions)
  end.

(** The template of the overview, before it is escaped as a whole. *)
Definition overviewBody (address escapedBalance pools : string) : string :=
  ("Your Wallet Info" +:+ nl
   +:+ "Address: " +:+ address +:+ nl
   +:+ "Balance: " +:+ escapedBalance +:+ " SOL" +:+ nl
   +:+ "Pools:" +:+ nl +:+ pools)%string.

(** [getWalletOverview]. *)
Definition getWalletOverview (userWallet : PublicKey) : M string :=
  tryCatch
    (let* lamports :=
       remote (EGetBalance Primary userWallet)
              (fun t => getBalance env t Primary userWallet) in
     let balance := jsdiv lamports e9 in
     let escapedBalance := escapeMarkdownV2 (toFixed NumberToString balance 4) in
     let address := escapeMarkdownV2 (PublicKey_toString userWallet) in
     let* positions := DlmmService_getPositions env userWallet in
     ret (escapeMarkdownV2 (overviewBody address escapedBalance (poolDetails positions))))
    (fun error =>
       ret (escapeMarkdownV2
              ("Sorry, we couldn’t load your wallet info. Error: "
               +:+ errorMessageOr error +:+ ". Try again later."))).

End Helpers.

(** ** [launchBotWithRetry] *)

Section Launch.

(** [bot.launch()], answered like the remote calls: by the number of
    calls made before it. *)
Variable launch : nat -> Result unit.

(** [await bot.launch()]: the call is counted; the trace has no event
    for it. *)
Definition launchOnce : M unit :=
  fun w => (launch (tick w),
            mkWorld (wallets w) (states w) (sessions w) (S (tick w)) (trace w)).

(** The [for (attempt = 1; attempt <= maxRetries; attempt++)] loop;
    [fuel] is the number of iterations left.  The console lines leave no
    event. *)
Fixpoint launchLoop (maxRetries delayMs : Z) (fuel : nat) (attempt : Z) : M unit :=
  match fuel with
  | O => throw (mkError "Bot launch failed after all retries.")
  | S fuel' =>
      tryCatch launchOnce
        (fun error =>
           if attempt =? maxRetries then throw error
           else sleep delayMs >> launchLoop maxRetries delayMs fuel' (attempt + 1))
  end.

(** The loop of [launchBotWithRetry]; the HTTP server that the function
    starts before the loop is outside the world of the model. *)
Definition launchBotWithRetry (maxRetries delayMs : Z) : M unit :=
  launchLoop maxRetries delayMs (Z.to_nat maxRetries) 1.

(** The default arguments [maxRetries = 5, delayMs = 5000]. *)
Definition launchBotWithRetry_default : M unit := launchBotWithRetry 5 5000.

End Launch.

(** The messages sent among some events, with their receivers. *)
Fixpoint sentMessages (evs : list Event) : list (Z * string) :=
  match evs with
  | [] => []
  | ESendMessage userId text :: rest => (userId, text) :: sentMessages rest
  | _ :: rest => sentMessages rest
  end.

(** What one iteration of the poll for owner [A] may cost: at most 8
    remote calls, at most 4 pauses of 2000, at most one message, to [A]. *)
Definition iterationBounds (A : Z) (w w' : World) (evs : list Event) : Prop :=
  trace w' = trace w ++ evs
  /\ (tick w <= tick w' <= tick w + 8)%nat
  /\ (exists n, (n <= 4)%nat /\ sleeps evs = repeat 2000 n)
  /\ (sentMessages evs = [] \/ exists text, sentMessages evs = [(A, text)]).

(** ** More environments *)

(** An environment in which every read succeeds, wallets hold 1.5 SOL,
    and no message can be delivered. *)
Definition mutedEnv : Env :=
  mkEnv
    (fun t c pk => Ok (ofZ 1500000000))
    (fun t c pk limit => Ok ["5sig"%string])
    MockDLMM_getUserPositions
    (fun t c pk lamports => Ok "primarySignature"%string)
    (fun t c sig => Ok None)
    (fun t userId text => Throw (mkError "chat not found"))
    (fun t userId => Ok tt)
    (fun t => 1700000000000 + 1000 * Z.of_nat t)
    (fun secretKey => Ok keyB).

(** An environment in which no balance can be read. *)
Definition offlineEnv : Env :=
  mkEnv
    (fun t c pk => Throw (mkError "fetch failed"))
    (fun t c pk limit => Ok [])
    (fun t pk => Ok [])
    (fun t c pk lamports => Ok "primarySignature"%string)
    (fun t c sig => Ok None)
    (fun t userId text => Ok tt)
    (fun t userId => Ok tt)
    (fun t => 1700000000000 + 1000 * Z.of_nat t)
    (fun secretKey => Ok keyA).

(** The error of [mutedEnv]. *)
Definition chatNotFound (t : nat) : Error := mkError "chat not found".

(** A launch that fails twice and then succeeds. *)
Definition launchAfterTwo (t : nat) : Result unit :=
  if (t <? 2)%nat then Throw (mkError "ETIMEDOUT") else Ok tt.

(* ===================================================================== *)
(** * Properties *)
(* ===================================================================== *)

(** ** Strings *)

Lemma append_cons (c : ascii) (a b : string) :
  (String c a +:+ b)%string = String c (a +:+ b).
Proof. reflexivity. Qed.

Lemma append_nil_l (b : string) : (EmptyString +:+ b)%string = b.
Proof. reflexivity. Qed.

Lemma length_append (a b : string) :
  String.length (a +:+ b) = (String.length a + String.length b)%nat.
Proof.
  induction a as [|c a IH]; [reflexivity|].
  rewrite append_cons. simpl. now rewrite IH.
Qed.

Lemma append_assoc (a b c : string) : ((a +:+ b) +:+ c = a +:+ (b +:+ c))%string.
Proof.
  induction a as [|x a IH]; [reflexivity|].
  rewrite !append_cons. now rewrite IH.
Qed.

Lemma append_nil_r (a : string) : (a +:+ EmptyString = a)%string.
Proof.
  induction a as [|x a IH]; [reflexivity|].
  rewrite append_cons. now rewrite IH.
Qed.

(** Two concatenations with left parts of the same length agree part by
    part. *)
Lemma append_eq_length (a a' b b' : string) :
  String.length a = String.length a' ->
  (a +:+ b = a' +:+ b')%string -> a = a' /\ b = b'.
Proof.
  revert a'; induction a as [|c a IH]; intros [|c' a'] Hlen H; simpl in *;
    try discriminate; [now split|].
  rewrite !append_cons in H. injection H as -> H. injection Hlen as Hlen.
  destruct (IH _ Hlen H) as [-> ->]. now split.
Qed.

Lemma substring_all (m : nat) (s : string) :
  String.length s = m -> substring 0 m s = s.
Proof.
  revert s; induction m as [|m IH]; intros [|c s] Hlen; simpl in *;
    try discriminate; try reflexivity.
  injection Hlen as Hlen. now rewrite IH.
Qed.

Lemma substring_split (n m : nat) (s : string) :
  String.length s = (n + m)%nat ->
  (substring 0 n s +:+ substring n m s)%string = s.
Proof.
  revert s; induction n as [|n IH]; intros s Hlen.
  - simpl in Hlen. rewrite (substring_all m s Hlen).
    destruct s; reflexivity.
  - destruct s as [|c s]; simpl in *; [discriminate|].
    injection Hlen as Hlen. rewrite append_cons. now rewrite IH.
Qed.

Lemma length_substring (n m : nat) (s : string) :
  (n + m <= String.length s)%nat -> String.length (substring n m s) = m.
Proof.
  revert s; induction n as [|n IH]; intros s Hlen; simpl.
  - revert s Hlen; induction m as [|m IHm]; intros [|c s] Hlen; simpl in *;
      try reflexivity; try lia.
    rewrite IHm; [reflexivity | lia].
  - destruct s as [|c s]; simpl in *; [lia|]. apply IH. lia.
Qed.

(** ** Decimal digits *)

Lemma digitVal_pretty_N_char (x : N) : (x < 10)%N -> digitVal (pretty_N_char x) = x.
Proof.
  intros H.
  assert (x = 0 \/ x = 1 \/ x = 2 \/ x = 3 \/ x = 4 \/ x = 5 \/ x = 6 \/ x = 7
          \/ x = 8 \/ x = 9)%N as Hx by lia.
  repeat (destruct Hx as [-> | Hx]; [reflexivity|]). now subst.
Qed.

Lemma decVal_pretty_N_go (x : N) (s : string) :
  decVal (pretty_N_go x s) = (x * 10 ^ N.of_nat (String.length s) + decVal s)%N.
Proof.
  revert s. induction (N.lt_wf_0 x) as [x _ IH]; intros s.
  destruct (N.eq_dec x 0%N) as [-> | Hx].
  - rewrite pretty_N_go_0. lia.
  - rewrite pretty_N_go_step by lia.
    rewrite IH by (apply N.div_lt; lia).
    cbn [decVal String.length].
    rewrite digitVal_pretty_N_char by (apply N.mod_lt; lia).
    rewrite Nat2N.inj_succ, N.pow_succ_r by lia.
    pose proof (N.div_mod x 10 ltac:(lia)) as Hdm.
    nia.
Qed.

Lemma decVal_pretty (n : N) : decVal (pretty n) = n.
Proof.
  unfold pretty, pretty_N. destruct (decide (n = 0%N)) as [-> | Hn].
  - reflexivity.
  - rewrite decVal_pretty_N_go. simpl. lia.
Qed.

Lemma decVal_zeros (k : nat) (s : string) : decVal (zeros k +:+ s) = decVal s.
Proof.
  assert (Hz : forall j, zeros (S j) = String "0" (zeros j)).
  { intros j. unfold zeros. simpl. destruct j; reflexivity. }
  induction k as [|k IH]; [reflexivity|].
  rewrite Hz, append_cons. simpl. rewrite IH. reflexivity.
Qed.

Lemma length_zeros (k : nat) : String.length (zeros k) = k.
Proof.
  assert (Hz : forall j, zeros (S j) = String "0" (zeros j)).
  { intros j. unfold zeros. simpl. destruct j; reflexivity. }
  induction k as [|k IH]; [reflexivity|]. rewrite Hz. simpl. now rewrite IH.
Qed.

Lemma paddedDigits_length (f : nat) (n : Z) :
  (f + 1 <= String.length (paddedDigits f n))%nat.
Proof.
  unfold paddedDigits. destruct (Nat.leb_spec (String.length (pretty (Z.to_N n))) f).
  - rewrite length_append, length_zeros. lia.
  - lia.
Qed.

Lemma decVal_paddedDigits (f : nat) (n : Z) : decVal (paddedDigits f n) = Z.to_N n.
Proof.
  unfold paddedDigits. destruct (_ <=? _)%nat.
  - now rewrite decVal_zeros, decVal_pretty.
  - apply decVal_pretty.
Qed.

Lemma fixedDigits_padded (f : nat) (n : Z) :
  f <> O ->
  fixedDigits f n =
    let m := paddedDigits f n in
    let k := String.length m in
    (substring 0 (k - f) m +:+ "." +:+ substring (k - f) f m)%string.
Proof.
  intros Hf. unfold fixedDigits, paddedDigits.
  destruct (Nat.eqb_spec f O); [contradiction | reflexivity].
Qed.

Lemma fixedDigits_inj (f : nat) (n n' : Z) :
  fixedDigits f n = fixedDigits f n' -> Z.to_N n = Z.to_N n'.
Proof.
  destruct (Nat.eq_dec f O) as [-> | Hf].
  - unfold fixedDigits. simpl. apply pretty_N_inj.
  - rewrite !fixedDigits_padded by assumption. cbv zeta.
    pose proof (paddedDigits_length f n) as Hk.
    pose proof (paddedDigits_length f n') as Hk'.
    set (m := paddedDigits f n) in *. set (m' := paddedDigits f n') in *.
    intros Heq.
    assert (Hlen : String.length m = String.length m').
    { apply (f_equal String.length) in Heq.
      rewrite !length_append, !length_substring in Heq by lia. simpl in Heq. lia. }
    apply append_eq_length in Heq as [Ha Hb].
    2:{ rewrite !length_substring by lia. lia. }
    rewrite !append_cons, !append_nil_l in Hb. injection Hb as Hb.
    assert (Hm : m = m').
    { rewrite <- (substring_split (String.length m - f) f m) by lia.
      rewrite <- (substring_split (String.length m' - f) f m') by lia.
      now rewrite Ha, Hb. }
    rewrite <- (decVal_paddedDigits f n), <- (decVal_paddedDigits f n').
    fold m m'. now rewrite Hm.
Qed.

(** ** [toFixed] and the balance test *)

Lemma magnitude_nonneg (x : number) : (0 <= magnitude x)%Q.
Proof.
  destruct x as [s | s | | s m e]; simpl; try apply Qle_refl.
  apply Qmult_le_0_compat.
  - unfold Qle. simpl. lia.
  - apply Qpower_0_le. unfold Qle. simpl. lia.
Qed.

Lemma roundHalfUp_nonneg (f : nat) (x : Q) : (0 <= x)%Q -> 0 <= roundHalfUp f x.
Proof.
  intros Hx. unfold roundHalfUp.
  change 0 with (Qfloor 0). apply Qfloor_resp_le.
  apply (Qle_trans _ (0 + 0)%Q); [apply Qle_refl|].
  apply Qplus_le_compat.
  - apply Qmult_le_0_compat; [assumption|].
    unfold Qle. simpl. lia.
  - unfold Qle. simpl. lia.
Qed.

(** [roundHalfUp] picks the multiple of [10^-f] nearest to [x]: the
    scaled value lies within one half of it, the upper half excluded. *)
Lemma roundHalfUp_nearest (f : nat) (x : Q) :
  let n := inject_Z (roundHalfUp f x) in
  let scaled := (x * inject_Z (10 ^ Z.of_nat f))%Q in
  (n - (1 # 2) <= scaled)%Q /\ (scaled < n + (1 # 2))%Q.
Proof.
  cbv zeta. unfold roundHalfUp.
  set (y := (x * inject_Z (10 ^ Z.of_nat f))%Q).
  pose proof (Qfloor_le (y + (1 # 2))) as Hlo.
  pose proof (Qlt_floor (y + (1 # 2))) as Hhi.
  set (n := Qfloor (y + (1 # 2))) in *.
  rewrite inject_Z_plus in Hhi.
  change (inject_Z 1) with 1%Q in Hhi.
  split; lra.
Qed.

Lemma toFixed_inRange (nts : number -> string) (x : number) (f : nat) :
  balanceInRange x = true ->
  toFixed nts x f = fixedDigits f (roundHalfUp f (magnitude x)).
Proof.
  unfold balanceInRange, toFixed. intros H.
  apply andb_prop in H as [H H3]. apply andb_prop in H as [H1 H2].
  rewrite H1. apply negb_true_iff in H2, H3. rewrite H2, H3. reflexivity.
Qed.

Lemma balanceChanged_rounded (nts : number -> string) (state : UserState) (cur : number) :
  balanceInRange (lastBalance state) = true ->
  balanceInRange cur = true ->
  balanceChanged nts state cur = true <-> rounded4 (lastBalance state) <> rounded4 cur.
Proof.
  intros Hold Hcur. unfold balanceChanged, rounded4.
  rewrite !toFixed_inRange by assumption.
  rewrite negb_true_iff, String.eqb_neq.
  pose proof (roundHalfUp_nonneg 4 _ (magnitude_nonneg (lastBalance state))) as H1.
  pose proof (roundHalfUp_nonneg 4 _ (magnitude_nonneg cur)) as H2.
  split.
  - intros Hne Heq. apply Hne. now rewrite Heq.
  - intros Hne Heq. apply Hne. apply fixedDigits_inj in Heq. lia.
Qed.

(** C1: for two balances that [toFixed] writes with digits (finite, not
    negative, below 1e21), the poll reports a balance change exactly when
    the balances differ once each is rounded to 4 decimals.  1.00004
    against 1.00009 is a change; 1.000041 against 1.000044 is none. *)
Theorem balanceChanged_iff_rounded_differ (nts : number -> string) :
  (forall (state : UserState) (currentBalance : number),
      balanceInRange (lastBalance state) = true ->
      balanceInRange currentBalance = true ->
      balanceChanged nts state currentBalance = true
      <-> rounded4 (lastBalance state) <> rounded4 currentBalance)
  /\ balanceChanged nts (stateWithBalance (decimal 100004 5)) (decimal 100009 5) = true
  /\ balanceChanged nts (stateWithBalance (decimal 1000041 6)) (decimal 1000044 6) = false.
Proof.
  split; [|split].
  - intros state cur. apply balanceChanged_rounded.
  - assert (H1 : balanceInRange (lastBalance (stateWithBalance (decimal 100004 5))) = true)
      by (vm_compute; reflexivity).
    assert (H2 : balanceInRange (decimal 100009 5) = true) by (vm_compute; reflexivity).
    apply (proj2 (balanceChanged_rounded nts _ _ H1 H2)).
    vm_compute. discriminate.
  - assert (H1 : balanceInRange (lastBalance (stateWithBalance (decimal 1000041 6))) = true)
      by (vm_compute; reflexivity).
    assert (H2 : balanceInRange (decimal 1000044 6) = true) by (vm_compute; reflexivity).
    apply not_true_is_false. intros H.
    apply (proj1 (balanceChanged_rounded nts _ _ H1 H2) H).
    vm_compute. reflexivity.
Qed.

(** C1 at 2.5 against 3.0001. *)
Lemma balanceChanged_iff_rounded_differ_witness :
  balanceInRange (lastBalance (stateWithBalance (decimal 25 1))) = true
  /\ balanceInRange (decimal 30001 4) = true
  /\ (balanceChanged (fun _ => EmptyString) (stateWithBalance (decimal 25 1)) (decimal 30001 4) = true
      <-> rounded4 (lastBalance (stateWithBalance (decimal 25 1))) <> rounded4 (decimal 30001 4)).
Proof.
  assert (H1 : balanceInRange (lastBalance (stateWithBalance (decimal 25 1))) = true)
    by (vm_compute; reflexivity).
  assert (H2 : balanceInRange (decimal 30001 4) = true) by (vm_compute; reflexivity).
  split; [exact H1 | split; [exact H2 |]].
  exact (proj1 (balanceChanged_iff_rounded_differ (fun _ => EmptyString))
               (stateWithBalance (decimal 25 1)) (decimal 30001 4) H1 H2).
Defined.

(** ** [JSON.stringify] and the positions test *)

Lemma string_cons_inj (c c' : ascii) (a b : string) :
  String c a = String c' b -> c = c' /\ a = b.
Proof. intros [= -> ->]. now split. Qed.

Lemma unquoteChar_quoteChar (c : ascii) (r : string) :
  unquoteChar (quoteChar c +:+ r) = Some (c, r).
Proof.
  destruct c as [[] [] [] [] [] [] [] []]; reflexivity.
Qed.

Lemma unquoteChar_dquote (r : string) : unquoteChar (String dquote r) = None.
Proof. reflexivity. Qed.

Lemma quoteBody_inj (s s' r r' : string) :
  (quoteBody s +:+ String dquote r)%string = (quoteBody s' +:+ String dquote r')%string ->
  s = s' /\ r = r'.
Proof.
  revert s'; induction s as [|c s IH]; intros [|c' s'] H; simpl in H.
  - rewrite !append_nil_l in H. injection H as ->. now split.
  - rewrite append_nil_l, append_assoc in H.
    apply (f_equal unquoteChar) in H.
    rewrite unquoteChar_quoteChar, unquoteChar_dquote in H. discriminate.
  - rewrite append_nil_l, append_assoc in H.
    apply (f_equal unquoteChar) in H.
    rewrite unquoteChar_quoteChar, unquoteChar_dquote in H. discriminate.
  - rewrite !append_assoc in H.
    pose proof (f_equal unquoteChar H) as Hu.
    rewrite !unquoteChar_quoteChar in Hu. injection Hu as -> Hrest.
    destruct (IH _ Hrest) as [-> ->]. now split.
Qed.

(** A run of characters of one class, ended by a character outside the
    class, is determined by the text it starts. *)
Lemma span_inj (f : ascii -> bool) (a a' : string) (d d' : ascii) (r r' : string) :
  allChars f a = true -> allChars f a' = true ->
  f d = false -> f d' = false ->
  (a +:+ String d r)%string = (a' +:+ String d' r')%string ->
  a = a' /\ d = d' /\ r = r'.
Proof.
  intros Ha Ha' Hd Hd'. revert a' Ha'.
  induction a as [|c a IH]; intros [|c' a'] Ha' H; simpl in *;
    rewrite ?append_nil_l, ?append_cons in H.
  - injection H as -> ->. now repeat split.
  - injection H as -> _. apply andb_prop in Ha' as [Hc _]. congruence.
  - injection H as -> _. apply andb_prop in Ha as [Hc _]. congruence.
  - injection H as -> H.
    apply andb_prop in Ha as [_ Ha]. apply andb_prop in Ha' as [_ Ha'].
    destruct (IH Ha _ Ha' H) as (-> & -> & ->). now repeat split.
Qed.

Section PositionsJSON.

Variable nts : number -> string.
Hypothesis nts_ok : NumberToStringSpec nts.

Lemma stringify_projection (p : PositionData) (rest : string) :
  (JSON_stringify nts (projection p) +:+ rest)%string = itemText nts p rest.
Proof.
  unfold projection, itemText, jsonNumber. cbn [JSON_stringify map String.concat].
  unfold QuoteJSONString, str1. cbn [quoteBody].
  change (quoteChar "p") with "p"%string.
  change (quoteChar "l") with "l"%string.
  change (quoteChar "u") with "u"%string.
  change (quoteChar "i") with "i"%string.
  change (quoteChar "q") with "q"%string.
  unfold keyP, keyL, keyU, keyLiq, str1.
  repeat (rewrite ?append_assoc, ?append_cons, ?append_nil_l).
  reflexivity.
Qed.

Lemma jsonNumber_chars (x : number) :
  wellFormedNumber x = true -> allChars isNumberChar (jsonNumber nts x) = true.
Proof.
  intros H. unfold jsonNumber.
  assert (isFinite x = true) as ->.
  { unfold wellFormedNumber in H. destruct (isFinite x); [reflexivity | discriminate]. }
  now apply nts_chars.
Qed.

Lemma jsonNumber_inj (x y : number) :
  wellFormedNumber x = true -> wellFormedNumber y = true ->
  jsonNumber nts x = jsonNumber nts y -> x = y.
Proof.
  intros Hx Hy. unfold jsonNumber.
  assert (isFinite x = true) as ->.
  { unfold wellFormedNumber in Hx. destruct (isFinite x); [reflexivity | discriminate]. }
  assert (isFinite y = true) as ->.
  { unfold wellFormedNumber in Hy. destruct (isFinite y); [reflexivity | discriminate]. }
  now apply nts_inj.
Qed.

Lemma itemText_inj (p p' : PositionData) (r r' : string) :
  wellFormedPosition p = true -> wellFormedPosition p' = true ->
  itemText nts p r = itemText nts p' r' -> structural p = structural p' /\ r = r'.
Proof.
  unfold wellFormedPosition. intros Hp Hp' H.
  apply andb_prop in Hp as [Hp Hq3]. apply andb_prop in Hp as [Hq1 Hq2].
  apply andb_prop in Hp' as [Hp' Hq3']. apply andb_prop in Hp' as [Hq1' Hq2'].
  unfold itemText, keyP, keyL, keyU, keyLiq, str1 in H.
  rewrite ?append_cons, ?append_nil_l in H. injection H as H.
  apply quoteBody_inj in H as [Hpool H].
  injection H as H.
  apply span_inj with (f := isNumberChar) in H as (Hl & _ & H);
    [| now apply jsonNumber_chars | now apply jsonNumber_chars | reflexivity | reflexivity].
  injection H as H.
  apply span_inj with (f := isNumberChar) in H as (Hu & _ & H);
    [| now apply jsonNumber_chars | now apply jsonNumber_chars | reflexivity | reflexivity].
  injection H as H.
  apply span_inj with (f := isNumberChar) in H as (Hliq & _ & H);
    [| now apply jsonNumber_chars | now apply jsonNumber_chars | reflexivity | reflexivity].
  apply jsonNumber_inj in Hl, Hu, Hliq; try assumption.
  unfold structural. now rewrite Hpool, Hl, Hu, Hliq.
Qed.

Lemma stringify_positions (ps : list PositionData) :
  JSON_stringify nts (JArray (map projection ps)) = String "[" (itemsText nts ps).
Proof.
  cbn [JSON_stringify]. rewrite append_cons, append_nil_l. f_equal.
  rewrite map_map.
  induction ps as [|p ps IH]; [reflexivity|].
  cbn [map String.concat itemsText].
  destruct ps as [|q ps].
  - cbn [map]. apply stringify_projection.
  - cbn [map] in *. rewrite !append_assoc. rewrite stringify_projection.
    f_equal. rewrite append_cons, append_nil_l. f_equal. exact IH.
Qed.

Lemma itemText_head (p : PositionData) (r : string) :
  exists t, itemText nts p r = String "{" t.
Proof. unfold itemText, keyP. rewrite append_cons. eexists. reflexivity. Qed.

Lemma itemsText_inj (ps ps' : list PositionData) :
  forallb wellFormedPosition ps = true -> forallb wellFormedPosition ps' = true ->
  itemsText nts ps = itemsText nts ps' -> map structural ps = map structural ps'.
Proof.
  revert ps'. induction ps as [|p ps IH]; intros [|p' ps'] Hw Hw' H.
  - reflexivity.
  - simpl in H. destruct (itemText_head p' (match ps' with [] => "]"%string | _ => String "," (itemsText nts ps') end)) as [t Ht].
    rewrite Ht in H. discriminate.
  - simpl in H. destruct (itemText_head p (match ps with [] => "]"%string | _ => String "," (itemsText nts ps) end)) as [t Ht].
    rewrite Ht in H. discriminate.
  - simpl in Hw, Hw'. apply andb_prop in Hw as [Hp Hw]. apply andb_prop in Hw' as [Hp' Hw'].
    cbn [itemsText] in H.
    apply itemText_inj in H as [Hs H]; try assumption.
    cbn [map]. rewrite Hs. f_equal.
    destruct ps as [|q ps], ps' as [|q' ps']; try discriminate.
    + reflexivity.
    + apply string_cons_inj in H as [_ H]. now apply IH.
Qed.

Lemma projection_structural (p p' : PositionData) :
  structural p = structural p' -> projection p = projection p'.
Proof. unfold structural, projection. intros [= -> -> -> ->]. reflexivity. Qed.

Lemma itemsText_structural (ps qs : list PositionData) :
  map structural ps = map structural qs -> itemsText nts ps = itemsText nts qs.
Proof.
  revert qs. induction ps as [|p ps IH]; intros [|q qs] Heq; try discriminate.
  - reflexivity.
  - cbn [map] in Heq.
    assert (Hp : structural p = structural q) by congruence.
    assert (Hps : map structural ps = map structural qs) by congruence.
    specialize (IH _ Hps). cbn [itemsText]. unfold itemText.
    unfold structural in Hp.
    assert (pool p = pool q) as -> by congruence.
    assert (lowerBin p = lowerBin q) as -> by congruence.
    assert (upperBin p = upperBin q) as -> by congruence.
    assert (liquidity p = liquidity q) as -> by congruence.
    destruct ps, qs; try discriminate; [reflexivity|].
    now rewrite IH.
Qed.

Lemma positionsChanged_structural (state : UserState) (currentPositions : list PositionData) :
  forallb wellFormedPosition (lastPositions state) = true ->
  forallb wellFormedPosition currentPositions = true ->
  positionsChanged nts state currentPositions = true
  <-> map structural currentPositions <> map structural (lastPositions state).
Proof.
  intros Hold Hcur. unfold positionsChanged.
  rewrite negb_true_iff, String.eqb_neq, !stringify_positions.
  split.
  - intros Hne Heq. apply Hne. f_equal. now apply itemsText_structural.
  - intros Hne Heq. apply Hne. apply string_cons_inj in Heq as [_ Heq].
    now apply itemsText_inj.
Qed.

End PositionsJSON.

Lemma isDigitChar_pretty_N_char (x : N) : isDigitChar (pretty_N_char x) = true.
Proof. unfold pretty_N_char. repeat case_match; reflexivity. Qed.

Lemma allChars_pretty_N_go (x : N) (s : string) :
  allChars isDigitChar s = true -> allChars isDigitChar (pretty_N_go x s) = true.
Proof.
  revert s. induction (N.lt_wf_0 x) as [x _ IH]; intros s Hs.
  destruct (N.eq_dec x 0%N) as [-> | Hx].
  - now rewrite pretty_N_go_0.
  - rewrite pretty_N_go_step by lia. apply IH; [apply N.div_lt; lia|].
    simpl. now rewrite isDigitChar_pretty_N_char, Hs.
Qed.

Lemma allChars_pretty_N (n : N) : allChars isDigitChar (pretty n) = true.
Proof.
  unfold pretty, pretty_N. case_decide; [reflexivity|].
  now apply allChars_pretty_N_go.
Qed.

Lemma allChars_weaken (f g : ascii -> bool) (s : string) :
  (forall c, f c = true -> g c = true) -> allChars f s = true -> allChars g s = true.
Proof.
  intros Hfg. induction s as [|c s IH]; simpl; [reflexivity|].
  intros H. apply andb_prop in H as [Hc Hs]. now rewrite (Hfg _ Hc), IH.
Qed.

Lemma allChars_append (f : ascii -> bool) (a b : string) :
  allChars f (a +:+ b) = allChars f a && allChars f b.
Proof.
  induction a as [|c a IH]; [reflexivity|].
  rewrite append_cons. simpl. now rewrite IH, andb_assoc.
Qed.

Lemma isDigitChar_isNumberChar (c : ascii) : isDigitChar c = true -> isNumberChar c = true.
Proof.
  unfold isDigitChar, isNumberChar. simpl. rewrite !orb_false_r.
  intros H. repeat (apply orb_prop in H as [H | H]; [rewrite H; rewrite ?orb_true_r; reflexivity|]).
  rewrite H. now rewrite ?orb_true_r.
Qed.

Lemma pretty_pos_head (m : positive) :
  exists c t, pretty (N.pos m) = String c t /\ isDigitChar c = true.
Proof.
  pose proof (allChars_pretty_N (N.pos m)) as Hall.
  pose proof (decVal_pretty (N.pos m)) as Hval.
  destruct (pretty (N.pos m)) as [|c t]; [discriminate|].
  simpl in Hall. apply andb_prop in Hall as [Hc _]. eauto.
Qed.

Lemma exactToString_spec : NumberToStringSpec exactToString.
Proof.
  split.
  - intros [s | s | | s m e] Hx; try discriminate; [reflexivity|].
    clear Hx. simpl. rewrite !allChars_append.
      assert (allChars isNumberChar (pretty (N.pos m)) = true) as ->.
      { eapply allChars_weaken; [apply isDigitChar_isNumberChar | apply allChars_pretty_N]. }
      assert (allChars isNumberChar (String "e" (pretty e)) = true) as ->.
      { simpl. destruct e as [|e|e]; simpl.
        - reflexivity.
        - eapply allChars_weaken; [apply isDigitChar_isNumberChar | apply (allChars_pretty_N (N.pos e))].
        - rewrite append_nil_l.
          eapply allChars_weaken; [apply isDigitChar_isNumberChar | apply (allChars_pretty_N (N.pos e))]. }
      destruct s; reflexivity.
  - intros x y Hx Hy.
    destruct x as [s | s | | s m e]; try discriminate;
      destruct y as [s' | s' | | s' m' e']; try discriminate.
    + destruct s, s'; try discriminate. reflexivity.
    + simpl. destruct (pretty_pos_head m') as (c & t & -> & Hc).
      destruct s'; rewrite ?append_cons, ?append_nil_l; intros [= ? Ht]; subst.
      destruct t; discriminate.
    + simpl. destruct (pretty_pos_head m) as (c & t & -> & Hc).
      destruct s; rewrite ?append_cons, ?append_nil_l; intros [= ? Ht]; subst.
      destruct t; discriminate.
    + simpl. intros H.
      assert (Hs : s = s').
      { destruct (pretty_pos_head m) as (c & t & Hm & Hc).
        destruct (pretty_pos_head m') as (c' & t' & Hm' & Hc').
        rewrite Hm, Hm' in H.
        destruct s, s'; try reflexivity; rewrite ?append_cons, ?append_nil_l in H;
          injection H as H _; subst; discriminate. }
      subst s'.
      assert (H' : (pretty (N.pos m) +:+ String "e" (pretty e))%string
                   = (pretty (N.pos m') +:+ String "e" (pretty e'))%string).
      { destruct s; rewrite ?append_cons, ?append_nil_l in H; [now injection H | exact H]. }
      apply span_inj with (f := isDigitChar) in H' as (Hm & _ & He);
        [| apply allChars_pretty_N | apply allChars_pretty_N | reflexivity | reflexivity].
      apply pretty_N_inj in Hm. apply pretty_Z_inj in He. congruence.
Qed.

(** C2: the poll reports a change of positions exactly when the lists of
    (pool, lowerBin, upperBin, liquidity), in list order and without
    feesEarned, differ; the numbers are finite doubles other than minus
    zero, and [Number::toString] is taken one-to-one on them.  Changing
    only feesEarned is no change; changing lowerBin or liquidity of any
    position is one. *)
Theorem positionsChanged_iff_projection_differs (nts : number -> string) :
  NumberToStringSpec nts ->
  (forall (state : UserState) (currentPositions : list PositionData),
      forallb wellFormedPosition (lastPositions state) = true ->
      forallb wellFormedPosition currentPositions = true ->
      positionsChanged nts state currentPositions = true
      <-> map structural currentPositions <> map structural (lastPositions state))
  /\ (forall (state : UserState) (fees : PositionData -> number),
         positionsChanged nts state
           (map (fun p => setFeesEarned p (fees p)) (lastPositions state)) = false)
  /\ (forall (state : UserState) (before after : list PositionData) (p p' : PositionData),
         lastPositions state = before ++ p :: after ->
         forallb wellFormedPosition (before ++ p :: after) = true ->
         forallb wellFormedPosition (before ++ p' :: after) = true ->
         lowerBin p' <> lowerBin p \/ liquidity p' <> liquidity p ->
         positionsChanged nts state (before ++ p' :: after) = true).
Proof.
  intros Hnts. split; [|split].
  - intros state cur. now apply positionsChanged_structural.
  - intros state fees. unfold positionsChanged.
    rewrite negb_false_iff, String.eqb_eq, !stringify_positions. f_equal.
    apply itemsText_structural. rewrite map_map. reflexivity.
  - intros state before after p p' Hlast Hw Hw' Hdiff.
    apply positionsChanged_structural; rewrite ?Hlast; try assumption.
    rewrite !map_app. cbn [map]. intros Heq.
    apply List.app_inv_head in Heq.
    assert (Hs : structural p' = structural p) by congruence.
    unfold structural in Hs.
    assert (lowerBin p' = lowerBin p) by congruence.
    assert (liquidity p' = liquidity p) by congruence.
    tauto.
Qed.

(** C2 at the mock position with its lower bin moved from 100 to 101,
    with [exactToString] for [Number::toString]. *)
Lemma positionsChanged_iff_projection_differs_witness :
  NumberToStringSpec exactToString
  /\ positionsChanged exactToString (stateWithPositions [mockPosition])
       [mkPositionData "mockPoolAddress" (ofZ 101) (ofZ 200) (ofZ 1000) (ofZ 10)] = true.
Proof.
  split; [exact exactToString_spec|].
  apply (proj1 (positionsChanged_iff_projection_differs exactToString exactToString_spec)
               (stateWithPositions [mockPosition])).
  - vm_compute. reflexivity.
  - vm_compute. reflexivity.
  - vm_compute. discriminate.
Defined.

(** ** The signatures test *)

Lemma includes_In (arr : list string) (x : string) : includes arr x = true <-> In x arr.
Proof.
  unfold includes. rewrite existsb_exists. split.
  - intros (y & Hy & Heq). apply String.eqb_eq in Heq. now subst.
  - intros H. exists x. split; [assumption | apply String.eqb_refl].
Qed.

Lemma newSignatures_In (old new : list string) (sig : string) :
  In sig (newSignatures old new) <-> In sig new /\ ~ In sig old.
Proof.
  unfold newSignatures. rewrite filter_In, negb_true_iff.
  pose proof (includes_In old sig) as Hinc.
  destruct (includes old sig); intuition congruence.
Qed.

Lemma signaturesChanged_newSignatures (state : UserState) (currentSignatures : list string) :
  signaturesChanged state currentSignatures = true
  <-> newSignatures (lastSignatures state) currentSignatures <> [].
Proof.
  unfold signaturesChanged, some, newSignatures.
  induction currentSignatures as [|sig sigs IH]; simpl.
  - split; [discriminate | congruence].
  - destruct (negb (includes (lastSignatures state) sig)); simpl.
    + split; [discriminate | reflexivity].
    + exact IH.
Qed.

Lemma newSignatures_old_content (old old' new : list string) :
  (forall sig, In sig old <-> In sig old') ->
  newSignatures old new = newSignatures old' new.
Proof.
  intros Hsame. unfold newSignatures. apply filter_ext. intros sig. f_equal.
  destruct (includes old sig) eqn:H1, (includes old' sig) eqn:H2; try reflexivity.
  - apply includes_In, Hsame, includes_In in H1. congruence.
  - apply includes_In, Hsame, includes_In in H2. congruence.
Qed.

Lemma signaturesChanged_same (state : UserState) :
  signaturesChanged state (lastSignatures state) = false.
Proof.
  apply not_true_is_false. intros H.
  apply signaturesChanged_newSignatures in H. apply H.
  destruct (newSignatures (lastSignatures state) (lastSignatures state)) as [|sig rest] eqn:Hn;
    [reflexivity|].
  assert (Hin : In sig (newSignatures (lastSignatures state) (lastSignatures state)))
    by (rewrite Hn; now left).
  apply newSignatures_In in Hin. tauto.
Qed.

Lemma alertLogic_signatures (nts : number -> string) (state : UserState)
    (currentBalance : number) (currentPositions : list PositionData)
    (currentSignatures : list string) :
  alertLogic nts state currentBalance currentPositions currentSignatures
  = (alertLogic nts state currentBalance currentPositions (lastSignatures state)
     +:+ match newSignatures (lastSignatures state) currentSignatures with
         | [] => EmptyString
         | _ :: _ => newActivityLine
         end)%string.
Proof.
  unfold alertLogic. rewrite signaturesChanged_same.
  pose proof (signaturesChanged_newSignatures state currentSignatures) as Hiff.
  destruct (signaturesChanged state currentSignatures).
  - destruct (newSignatures (lastSignatures state) currentSignatures);
      [exfalso; now apply (proj1 Hiff)|].
    reflexivity.
  - destruct (newSignatures (lastSignatures state) currentSignatures) as [|sig rest];
      [now rewrite append_nil_r|].
    exfalso. assert (false = true) by (apply (proj2 Hiff); discriminate). discriminate.
Qed.

(** C3: the new signatures are the elements of the new list that are
    not in the old one, by equality of strings; the order of the old list
    plays no part and reordering the new list reorders the result; for
    old = [a,b,c] and new = [d,a,b] the result is [d]; the poll reports
    new activity, and adds its line to the alert, exactly when there is a
    new signature. *)
Theorem signaturesChanged_iff_newSignatures :
  (forall (old new : list string) (sig : string),
      In sig (newSignatures old new) <-> In sig new /\ ~ In sig old)
  /\ (forall old old' new : list string,
         (forall sig, In sig old <-> In sig old') ->
         newSignatures old new = newSignatures old' new)
  /\ (forall old new new' : list string,
         Permutation new new' ->
         Permutation (newSignatures old new) (newSignatures old new'))
  /\ newSignatures ["a"; "b"; "c"]%string ["d"; "a"; "b"]%string = ["d"%string]
  /\ (forall (state : UserState) (currentSignatures : list string),
         signaturesChanged state currentSignatures = true
         <-> newSignatures (lastSignatures state) currentSignatures <> [])
  /\ (forall (nts : number -> string) (state : UserState) (currentBalance : number)
             (currentPositions : list PositionData) (currentSignatures : list string),
         alertLogic nts state currentBalance currentPositions currentSignatures
         = (alertLogic nts state currentBalance currentPositions (lastSignatures state)
            +:+ match newSignatures (lastSignatures state) currentSignatures with
                | [] => EmptyString
                | _ :: _ => newActivityLine
                end)%string).
Proof.
  split; [|split; [|split; [|split; [|split]]]].
  - apply newSignatures_In.
  - apply newSignatures_old_content.
  - intros old new new' Hperm. unfold newSignatures.
    induction Hperm; simpl; repeat case_match; eauto using Permutation.
  - reflexivity.
  - apply signaturesChanged_newSignatures.
  - apply alertLogic_signatures.
Qed.

(** ** What the handlers preserve *)

Section Preservation.

Variable I : World -> World -> Prop.
Hypothesis I_refl : forall w, I w w.
Hypothesis I_trans : forall a b c, I a b -> I b c -> I a c.

Lemma preserves_ret {A : Type} (a : A) : preserves I (ret a).
Proof. intros w. apply I_refl. Qed.

Lemma preserves_throw {A : Type} (e : Error) : preserves I (@throw A e).
Proof. intros w. apply I_refl. Qed.

Lemma preserves_get : preserves I get.
Proof. intros w. apply I_refl. Qed.

Lemma preserves_bind {A B : Type} (m : M A) (k : A -> M B) :
  preserves I m -> (forall a, preserves I (k a)) -> preserves I (bind m k).
Proof.
  intros Hm Hk w. unfold bind. specialize (Hm w).
  destruct (m w) as [[a | e] w1]; simpl in *.
  - eapply I_trans; [exact Hm | apply Hk].
  - exact Hm.
Qed.

Lemma preserves_tryCatch {A : Type} (m : M A) (h : Error -> M A) :
  preserves I m -> (forall e, preserves I (h e)) -> preserves I (tryCatch m h).
Proof.
  intros Hm Hh w. unfold tryCatch. specialize (Hm w).
  destruct (m w) as [[a | e] w1]; simpl in *.
  - exact Hm.
  - eapply I_trans; [exact Hm | apply Hh].
Qed.

Lemma preserves_modify (f : World -> World) :
  (forall w, I w (f w)) -> preserves I (modify f).
Proof. intros Hf w. apply Hf. Qed.

Lemma preserves_remote {A : Type} (e : Event) (answer : nat -> Result A) :
  (forall w, I w (called e w)) -> preserves I (remote e answer).
Proof. intros Hf w. apply Hf. Qed.

Lemma preserves_pure {A : Type} (f : World -> Result A) :
  preserves I (fun w => (f w, w)).
Proof. intros w. apply I_refl. Qed.

Lemma preserves_forEach {A : Type} (xs : list A) (body : A -> M unit) :
  (forall x, In x xs -> preserves I (body x)) -> preserves I (forEach xs body).
Proof.
  induction xs as [|x xs IH]; intros Hbody; simpl.
  - apply preserves_ret.
  - apply preserves_bind; [apply Hbody; now left|].
    intros _. apply IH. intros y Hy. apply Hbody. now right.
Qed.

Lemma throwsWith_throw {A : Type} (e : Error) : throwsWith I (@throw A e).
Proof. intros w. exists e, w. split; [reflexivity | apply I_refl]. Qed.

Lemma throwsWith_bind_l {A B : Type} (m : M A) (k : A -> M B) :
  throwsWith I m -> throwsWith I (bind m k).
Proof.
  intros Hm w. destruct (Hm w) as (e & w' & Heq & HI).
  exists e, w'. unfold bind. rewrite Heq. now split.
Qed.

Lemma throwsWith_bind_r {A B : Type} (m : M A) (k : A -> M B) :
  preserves I m -> (forall a, throwsWith I (k a)) -> throwsWith I (bind m k).
Proof.
  intros Hm Hk w. unfold bind. specialize (Hm w).
  destruct (m w) as [[a | e] w1]; simpl in *.
  - destruct (Hk a w1) as (e & w' & Heq & HI).
    exists e, w'. split; [exact Heq | eapply I_trans; eassumption].
  - exists e, w1. now split.
Qed.

Lemma throwsWith_tryCatch {A : Type} (m : M A) (h : Error -> M A) :
  throwsWith I m -> (forall e, throwsWith I (h e)) -> throwsWith I (tryCatch m h).
Proof.
  intros Hm Hh w. destruct (Hm w) as (e & w1 & Heq & HI).
  unfold tryCatch. rewrite Heq.
  destruct (Hh e w1) as (e' & w' & Heq' & HI').
  exists e', w'. split; [exact Heq' | eapply I_trans; eassumption].
Qed.

End Preservation.

(** The three relations are preorders. *)

Lemma sameStores_refl (w : World) : sameStores w w.
Proof. now repeat split. Qed.

Lemma sameStores_trans (a b c : World) : sameStores a b -> sameStores b c -> sameStores a c.
Proof. unfold sameStores. intros (? & ? & ?) (? & ? & ?). repeat split; congruence. Qed.

Lemma sameOthers_refl (A : Z) (w : World) : sameOthers A w w.
Proof. split; [reflexivity | intros; reflexivity]. Qed.

Lemma sameOthers_trans (A : Z) (a b c : World) :
  sameOthers A a b -> sameOthers A b c -> sameOthers A a c.
Proof.
  intros [H1 H2] [H3 H4]. split; [congruence|].
  intros B HB. rewrite H4, H2 by assumption. reflexivity.
Qed.

Lemma traceGrows_refl (P : Event -> Prop) (w : World) : traceGrows P w w.
Proof. exists []. split; [now rewrite app_nil_r | constructor]. Qed.

Lemma traceGrows_trans (P : Event -> Prop) (a b c : World) :
  traceGrows P a b -> traceGrows P b c -> traceGrows P a c.
Proof.
  intros (e1 & H1 & F1) (e2 & H2 & F2). exists (e1 ++ e2). split.
  - rewrite H2, H1. now rewrite app_assoc.
  - apply Forall_app. now split.
Qed.

Lemma traceGrows_emit (P : Event -> Prop) (e : Event) (w : World) :
  P e -> traceGrows P w (emit e w).
Proof. intros He. exists [e]. split; [reflexivity | now repeat constructor]. Qed.

Lemma traceGrows_called (P : Event -> Prop) (e : Event) (w : World) :
  P e -> traceGrows P w (called e w).
Proof. intros He. exists [e]. split; [reflexivity | now repeat constructor]. Qed.

Lemma traceGrows_stores (P : Event -> Prop) (w w' : World) :
  trace w' = trace w -> traceGrows P w w'.
Proof. intros H. exists []. split; [now rewrite app_nil_r | constructor]. Qed.

Lemma sameStores_Frame : Frame sameStores anyEvent.
Proof.
  split; [apply sameStores_refl | apply sameStores_trans | |]; intros; now repeat split.
Qed.

Lemma sameOthers_Frame (A : Z) : Frame (sameOthers A) anyEvent.
Proof.
  split; [apply sameOthers_refl | apply sameOthers_trans | |]; intros;
    (split; [reflexivity | intros; reflexivity]).
Qed.

Lemma traceGrows_Frame (P : Event -> Prop) : Frame (traceGrows P) P.
Proof.
  split; [apply traceGrows_refl | apply traceGrows_trans
         | apply traceGrows_emit | apply traceGrows_called].
Qed.

Section FrameLemmas.

Variable nts : number -> string.
Variable env : Env.
Variable I : World -> World -> Prop.
Variable P : Event -> Prop.
Hypothesis F : Frame I P.

Let Irefl := frame_refl I P F.
Let Itrans := frame_trans I P F.

Ltac frame_step :=
  lazymatch goal with
  | |- preserves _ (bind _ _) => apply preserves_bind; [exact Itrans | | intros ?]
  | |- preserves _ (tryCatch _ _) => apply preserves_tryCatch; [exact Itrans | | intros ?]
  | |- preserves _ (ret _) => apply preserves_ret; exact Irefl
  | |- preserves _ (throw _) => apply preserves_throw; exact Irefl
  | |- preserves _ get => apply preserves_get; exact Irefl
  | |- preserves _ (fun w => (_, w)) => apply preserves_pure; exact Irefl
  | |- preserves _ (modify (emit _)) =>
      apply preserves_modify; intros ?; apply (frame_emit I P F)
  | |- preserves _ (remote _ _) =>
      apply preserves_remote; intros ?; apply (frame_called I P F)
  | |- preserves _ (modify _) => apply preserves_modify; intros ?
  | |- preserves _ (match ?x with _ => _ end) => destruct x
  end.

Ltac frame :=
  repeat (unfold log, reply, sleep, getSession, putSession, bs58_decode,
            PublicKey_new, airdropOnce, DlmmService_getPositions, loadWallet,
            fetchBalance, fetchSignatures;
          frame_step).

Lemma pollRetry_preserves {A : Type} (op : M A) (fuel : nat) (attempt : Z) (current : A) :
  P (ESleep 2000) -> preserves I op -> preserves I (pollRetry op fuel attempt current).
Proof.
  intros Hsleep Hop. revert attempt.
  induction fuel as [|fuel IH]; intros attempt; simpl.
  - frame.
  - apply preserves_tryCatch; [exact Itrans | assumption | intros err].
    frame; [assumption | apply IH].
Qed.

Lemma pollBody_preserves (B : Z) (walletData : WalletData) :
  (forall e, pollEvent B e -> P e) ->
  (forall st w, I w (setStates (insert B st) w)) ->
  preserves I (pollBody nts env B walletData).
Proof.
  intros HP Hset. unfold pollBody. frame.
  - apply pollRetry_preserves; [apply HP; now split | frame].
    apply HP. now split.
  - apply HP. now split.
  - apply pollRetry_preserves; [apply HP; now split | frame].
    apply HP. now split.
  - apply HP. split; [discriminate | intros C HC; simpl; congruence].
  - apply Hset.
Qed.

Lemma pollOwner_preserves (B : Z) (walletData : WalletData) :
  (forall e, pollEvent B e -> P e) ->
  (forall st w, I w (setStates (insert B st) w)) ->
  preserves I (pollOwner nts env (B, walletData)).
Proof.
  intros HP Hset. unfold pollOwner. frame.
  - apply Hset.
  - now apply pollBody_preserves.
  - apply HP. now split.
Qed.

Lemma airdropLoop_preserves (conn : Endpoint) (pk : PublicKey) (lamports retries delayMs : Z)
    (fuel : nat) (attempt : Z) :
  (forall e, P e) ->
  preserves I (airdropLoop env conn pk lamports retries delayMs fuel attempt).
Proof.
  intros HP. revert attempt. induction fuel as [|fuel IH]; intros attempt; simpl.
  - frame.
  - frame; try apply HP. apply IH.
Qed.

Lemma request_tokens_preserves (A : Z) :
  (forall e, P e) ->
  (forall st w, I w (setStates (insert A st) w)) ->
  (forall s w, I w (setSessions (insert A s) w)) ->
  preserves I (request_tokens env A).
Proof.
  intros HP Hstates Hsessions. unfold request_tokens, requestTokensBody.
  unfold requestAirdropWithRetry_default, requestAirdropWithRetry.
  frame; try apply HP; try apply Hstates; try apply Hsessions;
    try (apply airdropLoop_preserves; exact HP).
Qed.

End FrameLemmas.

(** Runs the monadic operations of a handler on a world. *)
Ltac run :=
  repeat (progress (unfold bind, tryCatch, remote, ret, throw, modify, get, log,
                      reply, sleep, getSession, putSession;
                    cbv beta iota;
                    cbn [setStates setWallets setSessions emit called
                         wallets states sessions tick trace fst snd
                         wallet waitingForWalletImport])).

(** ** The rate limit of the faucet *)

Section Faucet.
Variable env : Env.

Lemma loadWallet_run (A : Z) (w : World) :
  A <> 0 ->
  exists ss,
    loadWallet A w = (Ok tt, mkWorld (wallets w) (states w) ss (tick w) (trace w))
    /\ wallet (default emptySession (ss !! A)) = walletSeen w A.
Proof.
  intros HA. unfold loadWallet, walletSeen.
  destruct (Z.eqb_spec A 0) as [|_]; [contradiction|].
  run. destruct (wallets w !! A) as [wd|] eqn:Hw;
    destruct (wallet (default emptySession (sessions w !! A))) as [wd'|] eqn:Hs; run;
    eexists; (split; [reflexivity|]); rewrite lookup_insert_eq; simpl; congruence.
Qed.

Lemma remainingTime_minutes (elapsed : Q) :
  let m := remainingTime elapsed in
  (inject_Z (60 * (m - 1)) < hourlyLimitSeconds - elapsed)%Q
  /\ (hourlyLimitSeconds - elapsed <= inject_Z (60 * m))%Q.
Proof.
  cbv zeta. unfold remainingTime.
  set (x := ((hourlyLimitSeconds - elapsed) / inject_Z 60)%Q).
  pose proof (Qle_ceiling x) as Hhi. pose proof (Qceiling_lt x) as Hlo.
  assert (Hx : (hourlyLimitSeconds - elapsed == x * 60)%Q).
  { unfold x. change (inject_Z 60) with 60%Q. field. }
  rewrite !inject_Z_mult. rewrite Hx. change (inject_Z 60) with 60%Q.
  unfold Z.sub in Hlo |- *. rewrite inject_Z_plus in Hlo |- *.
  change (inject_Z (-1)) with (-1)%Q in *. split; lra.
Qed.

Lemma faucet_rate_limited (A : Z) (w : World) (walletData : WalletData) :
  A <> 0 ->
  walletSeen w A = Some walletData ->
  let now := Date_now env (tick w) in
  let elapsed := timeSinceLastFaucet now (faucetStateSeen w A) in
  (elapsed < hourlyLimitSeconds)%Q ->
  exists w',
    request_tokens env A w = (Ok tt, w')
    /\ trace w' = trace w ++ [EReply A (ReplyRateLimited (remainingTime elapsed))]
    /\ tick w' = tick w
    /\ wallets w' = wallets w
    /\ (is_Some (states w !! A) -> states w' = states w)
    /\ (3600000 <= now -> states w' = states w).
Proof.
  intros HA Hwallet now elapsed Hlt.
  unfold request_tokens.
  destruct (loadWallet_run A w HA) as (ss & Hload & Hss).
  unfold bind at 1. rewrite Hload.
  unfold tryCatch, bind at 1, getSession. run. rewrite Hss, Hwallet.
  unfold requestTokensBody. run.
  unfold elapsed, now, faucetStateSeen in *.
  destruct (states w !! A) as [st|] eqn:Hst; run.
  - rewrite Hst. simpl in Hlt.
    destruct (Qlt_le_dec _ _) as [_ | Hge]; [| exfalso; eapply Qlt_not_le; eassumption].
    run. eexists. split; [reflexivity|]. simpl. repeat split; reflexivity.
  - rewrite lookup_insert_eq. simpl in Hlt.
    destruct (Qlt_le_dec _ _) as [_ | Hge]; [| exfalso; eapply Qlt_not_le; eassumption].
    run. eexists. split; [reflexivity|]. simpl. repeat split; try reflexivity.
    + intros [? ?]. discriminate.
    + intros Hnow. exfalso.
      unfold timeSinceLastFaucet, hourlyLimitSeconds, faucetInitialState in Hlt.
      simpl in Hlt. unfold Qlt, Qdiv, Qmult, Qinv in Hlt. simpl in Hlt. lia.
Qed.

End Faucet.

(** ** Retries *)

Lemma sleeps_app (a b : list Event) : sleeps (a ++ b) = sleeps a ++ sleeps b.
Proof.
  induction a as [|e a IH]; [reflexivity|].
  destruct e; simpl; rewrite ?IH; reflexivity.
Qed.

Lemma airdropRequests_app (a b : list Event) :
  airdropRequests (a ++ b) = airdropRequests a ++ airdropRequests b.
Proof.
  induction a as [|e a IH]; [reflexivity|].
  destruct e; simpl; rewrite ?IH; reflexivity.
Qed.

Lemma backoffDelays_S (delayMs first : Z) (n : nat) :
  backoffDelays delayMs first (S n)
  = delayMs * 2 ^ (first - 1) :: backoffDelays delayMs (first + 1) n.
Proof.
  unfold backoffDelays. simpl. f_equal.
  - f_equal. f_equal. lia.
  - rewrite <- seq_shift, map_map. apply map_ext. intros k. f_equal. f_equal. lia.
Qed.

Section Retry.
Variable env : Env.

Lemma airdropOnce_fails (conn : Endpoint) (pk : PublicKey) (lamports : Z) (e : Error) (w : World) :
  requestAirdrop env (tick w) conn pk lamports = Throw e ->
  airdropOnce env conn pk lamports w
  = (Throw e, called (ERequestAirdrop conn pk lamports) w).
Proof. intros H. unfold airdropOnce. run. now rewrite H. Qed.

Lemma airdropOnce_succeeds (conn : Endpoint) (pk : PublicKey) (lamports : Z)
    (sig : string) (w : World) :
  requestAirdrop env (tick w) conn pk lamports = Ok sig ->
  confirmTransaction env (S (tick w)) conn sig = Ok None ->
  airdropOnce env conn pk lamports w
  = (Ok sig, called (EConfirmTransaction conn sig)
                    (called (ERequestAirdrop conn pk lamports) w)).
Proof. intros H1 H2. unfold airdropOnce. run. rewrite H1. run. now rewrite H2. Qed.

Lemma airdropLoop_S (conn : Endpoint) (pk : PublicKey) (lamports retries delayMs : Z)
    (fuel : nat) (attempt : Z) :
  airdropLoop env conn pk lamports retries delayMs (S fuel) attempt
  = tryCatch (airdropOnce env conn pk lamports)
      (fun err =>
         log (LogAirdropAttempt attempt conn err) >>
         if attempt =? retries then throw err
         else
           sleep (delayMs * 2 ^ (attempt - 1)) >>
           airdropLoop env conn pk lamports retries delayMs fuel (attempt + 1)).
Proof. reflexivity. Qed.

(** Every submission fails: the loop makes all its attempts, sleeps with
    doubling delays between them and throws the error of the last one. *)
Lemma airdropLoop_all_fail (conn : Endpoint) (pk : PublicKey) (lamports retries delayMs : Z)
    (err : nat -> Error) :
  (forall t, requestAirdrop env t conn pk lamports = Throw (err t)) ->
  forall (n : nat) (attempt : Z) (w : World),
    attempt + Z.of_nat n = retries ->
    exists w' evs,
      airdropLoop env conn pk lamports retries delayMs (S n) attempt w
      = (Throw (err (tick w + n)%nat), w')
      /\ sameStores w w'
      /\ tick w' = (tick w + S n)%nat
      /\ trace w' = trace w ++ evs
      /\ sleeps evs = backoffDelays delayMs attempt n
      /\ airdropRequests evs = repeat conn (S n).
Proof.
  intros Hfail n. induction n as [|n IH]; intros attempt w Hn.
  - rewrite airdropLoop_S. unfold tryCatch. rewrite (airdropOnce_fails _ _ _ _ _ (Hfail _)).
    run. assert ((attempt =? retries) = true) as -> by lia. run.
    do 2 eexists. split; [rewrite Nat.add_0_r; reflexivity|].
    split; [now repeat split|]. split; [simpl; lia|].
    split; [simpl; rewrite <- app_assoc; reflexivity|]. split; reflexivity.
  - rewrite airdropLoop_S. unfold tryCatch. rewrite (airdropOnce_fails _ _ _ _ _ (Hfail _)).
    run. assert ((attempt =? retries) = false) as -> by lia. run.
    match goal with |- context [airdropLoop _ _ _ _ _ _ _ _ ?w1] =>
      destruct (IH (attempt + 1) w1 ltac:(lia)) as (w' & evs & Hrun & Hst & Htick & Htr & Hsl & Hreq)
    end.
    rewrite Hrun. simpl in Htick, Htr.
    do 2 eexists. split; [f_equal; f_equal; f_equal; simpl; lia|].
    split.
    { destruct Hst as (? & ? & ?). now repeat split. }
    split; [lia|]. split.
    { rewrite Htr, <- !app_assoc. reflexivity. }
    split.
    + simpl. rewrite Hsl. now rewrite backoffDelays_S.
    + simpl. now rewrite Hreq.
Qed.

(** The first [k] submissions fail and the next one goes through. *)
Lemma airdropLoop_first_success (conn : Endpoint) (pk : PublicKey)
    (lamports retries delayMs : Z) (sig : string) :
  forall (k n : nat) (attempt : Z) (w : World),
    (k <= n)%nat ->
    attempt + Z.of_nat n = retries ->
    (forall j, (j < k)%nat -> exists e,
       requestAirdrop env (tick w + j)%nat conn pk lamports = Throw e) ->
    requestAirdrop env (tick w + k)%nat conn pk lamports = Ok sig ->
    confirmTransaction env (S (tick w + k)) conn sig = Ok None ->
    exists w' evs,
      airdropLoop env conn pk lamports retries delayMs (S n) attempt w = (Ok sig, w')
      /\ sameStores w w'
      /\ tick w' = (tick w + k + 2)%nat
      /\ trace w' = trace w ++ evs
      /\ sleeps evs = backoffDelays delayMs attempt k
      /\ airdropRequests evs = repeat conn (S k).
Proof.
  induction k as [|k IH]; intros n attempt w Hk Hn Hfail Hok Hconf.
  - rewrite Nat.add_0_r in Hok, Hconf.
    rewrite airdropLoop_S. unfold tryCatch. rewrite (airdropOnce_succeeds _ _ _ _ _ Hok Hconf).
    do 2 eexists. split; [reflexivity|]. split; [now repeat split|].
    split; [simpl; lia|]. split; [simpl; rewrite <- app_assoc; reflexivity|].
    split; reflexivity.
  - destruct n as [|n]; [lia|].
    destruct (Hfail O ltac:(lia)) as [e He]. rewrite Nat.add_0_r in He.
    rewrite airdropLoop_S. unfold tryCatch. rewrite (airdropOnce_fails _ _ _ _ _ He).
    run. assert ((attempt =? retries) = false) as -> by lia. run.
    match goal with |- context [airdropLoop _ _ _ _ _ _ _ _ ?w1] =>
      destruct (IH n (attempt + 1) w1 ltac:(lia) ltac:(lia)) as
        (w' & evs & Hrun & Hst & Htick & Htr & Hsl & Hreq)
    end.
    + intros j Hj. simpl. specialize (Hfail (S j) ltac:(lia)).
      now replace (S (tick w + j)) with (tick w + S j)%nat by lia.
    + simpl. now replace (S (tick w + k)) with (tick w + S k)%nat by lia.
    + simpl. now replace (S (tick w + k)) with (tick w + S k)%nat by lia.
    + rewrite Hrun. simpl in Htick, Htr.
      do 2 eexists. split; [reflexivity|]. split.
      { destruct Hst as (? & ? & ?). now repeat split. }
      split; [lia|]. split.
      { rewrite Htr, <- !app_assoc. reflexivity. }
      split.
      * simpl. rewrite Hsl. now rewrite backoffDelays_S.
      * simpl. now rewrite Hreq.
Qed.


Lemma pollRetry_first_try {A : Type} (op : M A) (a current : A) (fuel : nat) (w w' : World) :
  op w = (Ok a, w') ->
  pollRetry op (S fuel) 0 current w = (Ok a, w').
Proof. intros H. cbn [pollRetry]. unfold tryCatch. now rewrite H. Qed.



End Retry.

(** ** Computations that throw *)

Section ThrowsLemmas.

Variable I : World -> World -> Prop.
Variable P : Event -> Prop.
Hypothesis F : Frame I P.

Let Irefl := frame_refl I P F.
Let Itrans := frame_trans I P F.

Lemma throwsWith_ext {A : Type} (m m' : M A) :
  (forall w, m w = m' w) -> throwsWith I m' -> throwsWith I m.
Proof. intros Hext Hm w. rewrite Hext. apply Hm. Qed.

Lemma throwsWith_bind_pure {A B : Type} (m : M A) (k : A -> M B) (a : A) :
  (forall w, m w = (Ok a, w)) -> throwsWith I (k a) -> throwsWith I (bind m k).
Proof.
  intros Hm Hk. apply (throwsWith_ext _ (k a)); [|exact Hk].
  intros w. unfold bind. now rewrite Hm.
Qed.

Lemma remote_throwsWith {A : Type} (ev : Event) (answer : nat -> Result A) :
  (forall t, exists e, answer t = Throw e) -> P ev -> throwsWith I (remote ev answer).
Proof.
  intros Hfail Hev w. destruct (Hfail (tick w)) as [e He].
  exists e, (called ev w). unfold remote. rewrite He.
  split; [reflexivity | now apply (frame_called I P F)].
Qed.

Lemma pollRetry_throwsWith {A : Type} (op : M A) (current : A) :
  throwsWith I op -> P (ESleep 2000) ->
  forall (fuel : nat) (attempt : Z),
    (1 <= fuel)%nat -> 0 <= attempt -> attempt + Z.of_nat fuel = 3 ->
    throwsWith I (pollRetry op fuel attempt current).
Proof.
  intros Hop Hsleep fuel. induction fuel as [|fuel IH]; intros attempt Hfuel Ha Hsum; [lia|].
  cbn [pollRetry]. apply throwsWith_tryCatch; [exact Itrans | exact Hop | intros err].
  destruct (Z.eqb_spec attempt 2) as [-> | Hne].
  - apply throwsWith_throw. exact Irefl.
  - apply throwsWith_bind_r; [exact Itrans | |].
    + unfold sleep. apply preserves_modify. intros w. now apply (frame_emit I P F).
    + intros _. apply IH; lia.
Qed.

End ThrowsLemmas.

(** ** One iteration of the poll *)

Section Poll.

Variable nts : number -> string.
Variable env : Env.

Lemma PublicKey_new_cases (value : string) :
  (exists e, forall w, PublicKey_new value w = (Throw e, w))
  \/ (exists pk, bs58.decodeUnsafe value = Some pk /\ length pk = 32%nat
                 /\ forall w, PublicKey_new value w = (Ok pk, w)).
Proof.
  unfold PublicKey_new, bs58_decode.
  destruct (bs58.decodeUnsafe value) as [pk|].
  - destruct (Nat.eqb_spec (length pk) 32) as [Hlen | Hlen].
    + right. exists pk. repeat split; [assumption|]. intros w. run.
      now rewrite (proj2 (Nat.eqb_eq _ _) Hlen).
    + left. eexists. intros w. run.
      now rewrite (proj2 (Nat.eqb_neq _ _) Hlen).
  - left. eexists. intros w. reflexivity.
Qed.

Lemma pollBody_throwsWith (I : World -> World -> Prop) (P : Event -> Prop)
    (B : Z) (walletData : WalletData) :
  Frame I P ->
  (forall e, readEvent e -> P e) ->
  (forall pk, bs58.decodeUnsafe (publicKey walletData) = Some pk -> fetchFails env pk) ->
  throwsWith I (pollBody nts env B walletData).
Proof.
  intros F HP Hfail.
  pose proof (frame_refl I P F) as Irefl. pose proof (frame_trans I P F) as Itrans.
  assert (Hsleep : P (ESleep 2000)) by (apply HP; exact Logic.I).
  unfold pollBody.
  apply throwsWith_bind_r; [exact Itrans | apply preserves_get; exact Irefl | intros w].
  destruct (states w !! B) as [state|]; [|apply throwsWith_throw; exact Irefl].
  destruct (PublicKey_new_cases (publicKey walletData)) as [[e He] | (pk & Hpk & _ & Hok)].
  { apply throwsWith_bind_l. intros w0. exists e, w0. split; [apply He | apply Irefl]. }
  apply (throwsWith_bind_pure I _ _ pk Hok).
  assert (HpB : preserves I (pollRetry (fetchBalance env pk) 3 0 (lastBalance state))).
  { apply (pollRetry_preserves I P F); [exact Hsleep|].
    unfold fetchBalance. apply preserves_bind; [exact Itrans | | intros ?; apply preserves_ret; exact Irefl].
    apply preserves_remote. intros w0. apply (frame_called I P F). apply HP. exact Logic.I. }
  assert (HpP : preserves I (DlmmService_getPositions env pk)).
  { unfold DlmmService_getPositions.
    apply preserves_tryCatch; [exact Itrans | | intros ?; apply preserves_throw; exact Irefl].
    apply preserves_remote. intros w0. apply (frame_called I P F). apply HP. exact Logic.I. }
  destruct (Hfail pk Hpk) as [Hb | [Hp | Hs]].
  - apply throwsWith_bind_l.
    apply (pollRetry_throwsWith I P F); try assumption; try lia.
    unfold fetchBalance. apply throwsWith_bind_l.
    apply (remote_throwsWith I P F); [exact Hb | apply HP; exact Logic.I].
  - apply throwsWith_bind_r; [exact Itrans | exact HpB | intros b].
    apply throwsWith_bind_l. unfold DlmmService_getPositions.
    apply throwsWith_tryCatch; [exact Itrans | | intros e; apply throwsWith_throw; exact Irefl].
    apply (remote_throwsWith I P F); [exact Hp | apply HP; exact Logic.I].
  - apply throwsWith_bind_r; [exact Itrans | exact HpB | intros b].
    apply throwsWith_bind_r; [exact Itrans | exact HpP | intros ps].
    apply throwsWith_bind_l.
    apply (pollRetry_throwsWith I P F); try assumption; try lia.
    apply (remote_throwsWith I P F); [exact Hs | apply HP; exact Logic.I].
Qed.

Lemma pollOwner_unfold (userId : Z) (walletData : WalletData) (w : World) :
  pollOwner nts env (userId, walletData) w
  = tryCatch (pollBody nts env userId walletData)
      (fun error => log (LogPollingError userId error)) (withInitialState userId w).
Proof.
  unfold pollOwner, withInitialState. run.
  destruct (states w !! userId); reflexivity.
Qed.

Lemma withInitialState_lookup (userId : Z) (w : World) :
  states (withInitialState userId w) !! userId = Some (pollStateSeen w userId).
Proof.
  unfold withInitialState, pollStateSeen.
  destruct (states w !! userId) as [st|] eqn:H; simpl.
  - exact H.
  - apply lookup_insert_eq.
Qed.

(** No error leaves an iteration of the loop. *)
Lemma pollOwner_Ok (entry : Z * WalletData) (w : World) :
  fst (pollOwner nts env entry w) = Ok tt.
Proof.
  destruct entry as [userId walletData]. rewrite pollOwner_unfold.
  unfold tryCatch.
  destruct (pollBody nts env userId walletData (withInitialState userId w)) as [[[] | e] w1];
    reflexivity.
Qed.

(** The owner whose fetch fails: the error is logged, no message goes to
    the owner and the registries stay as the [try] block found them. *)
Lemma pollOwner_failing (A : Z) (walletData : WalletData) (w : World) :
  (forall pk, bs58.decodeUnsafe (publicKey walletData) = Some pk -> fetchFails env pk) ->
  exists e w1 evs,
    pollOwner nts env (A, walletData) w = (Ok tt, emit (ELog (LogPollingError A e)) w1)
    /\ sameStores (withInitialState A w) w1
    /\ trace w1 = trace w ++ evs
    /\ Forall readEvent evs.
Proof.
  intros Hfail. rewrite pollOwner_unfold.
  destruct (pollBody_throwsWith sameStores anyEvent A walletData sameStores_Frame
              ltac:(intros; exact Logic.I) Hfail (withInitialState A w))
    as (e & w1 & Hrun & Hst).
  destruct (pollBody_throwsWith (traceGrows readEvent) readEvent A walletData
              (traceGrows_Frame _) ltac:(auto) Hfail (withInitialState A w))
    as (e' & w1' & Hrun' & evs & Htr & Hevs).
  rewrite Hrun in Hrun'. injection Hrun' as <- <-.
  exists e, w1, evs. unfold tryCatch. rewrite Hrun. run.
  split; [reflexivity|]. split; [exact Hst|]. split; [|exact Hevs].
  rewrite Htr. unfold withInitialState. destruct (states w !! A); reflexivity.
Qed.

(** An owner all of whose calls succeed: the snapshot is replaced by
    what was fetched. *)
Lemma pollOwner_succeeding (B : Z) (walletData : WalletData) (pk : PublicKey)
    (lamports : number) (positions : list PositionData) (signatures : list string)
    (w : World) :
  bs58.decodeUnsafe (publicKey walletData) = Some pk ->
  length pk = 32%nat ->
  (forall t, getBalance env t Primary pk = Ok lamports) ->
  (forall t, getUserPositions env t pk = Ok positions) ->
  (forall t, getSignaturesForAddress env t Primary pk 5 = Ok signatures) ->
  (forall t text, sendMessage env t B text = Ok tt) ->
  let state := pollStateSeen w B in
  let alert := alertLogic nts state (jsdiv lamports e9) positions signatures in
  exists w',
    pollOwner nts env (B, walletData) w = (Ok tt, w')
    /\ wallets w' = wallets w
    /\ states w' = <[B := mkUserState (jsdiv lamports e9) positions signatures
                           (network state) (lastFaucetTime state)]> (states w)
    /\ trace w' = trace w
                  ++ [EGetBalance Primary pk; EGetPositions pk; EGetSignatures Primary pk 5]
                  ++ (if String.eqb alert EmptyString then []
                      else [ESendMessage B (alertMessage alert)]).
Proof.
  intros Hpk Hlen Hbal Hpos Hsig Hsend state alert.
  rewrite pollOwner_unfold. unfold pollBody.
  unfold PublicKey_new, bs58_decode. rewrite Hpk. run.
  rewrite withInitialState_lookup. fold state. run.
  rewrite (proj2 (Nat.eqb_eq _ _) Hlen). run.
  rewrite (pollRetry_first_try (fetchBalance env pk) (jsdiv lamports e9) _ _ _
             (called (EGetBalance Primary pk) (withInitialState B w))).
  2:{ unfold fetchBalance. run. now rewrite Hbal. }
  unfold DlmmService_getPositions. run. rewrite Hpos.
  erewrite (pollRetry_first_try (fetchSignatures env pk) signatures).
  2:{ unfold fetchSignatures. run. now rewrite Hsig. }
  fold alert. destruct (String.eqb alert EmptyString) eqn:Halert; run.
  - eexists. split; [reflexivity|]. simpl.
    unfold withInitialState. destruct (states w !! B) eqn:HB; simpl;
      repeat split; try reflexivity;
      rewrite ?insert_insert_eq, <- ?app_assoc; reflexivity.
  - rewrite Hsend. eexists. split; [reflexivity|]. simpl.
    unfold withInitialState. destruct (states w !! B) eqn:HB; simpl;
      repeat split; try reflexivity;
      rewrite ?insert_insert_eq, <- ?app_assoc; reflexivity.
Qed.

End Poll.

(** ** The loop over the owners *)

Section ForEach.

Context {A : Type}.
Variable body : A -> M unit.
Hypothesis body_Ok : forall x w, fst (body x w) = Ok tt.

Lemma forEach_cons (x : A) (xs : list A) (w : World) :
  forEach (x :: xs) body w = forEach xs body (snd (body x w)).
Proof.
  cbn [forEach]. unfold bind. specialize (body_Ok x w).
  destruct (body x w) as [[[] | e] w1]; simpl in *; [reflexivity | discriminate].
Qed.

Lemma forEach_Ok (xs : list A) (w : World) : fst (forEach xs body w) = Ok tt.
Proof.
  revert w. induction xs as [|x xs IH]; intros w; [reflexivity|].
  rewrite forEach_cons. apply IH.
Qed.

Lemma forEach_keeps (Q : World -> Prop) (xs : list A) :
  (forall x w, In x xs -> Q w -> Q (snd (body x w))) ->
  forall w, Q w -> Q (snd (forEach xs body w)).
Proof.
  induction xs as [|x xs IH]; intros Hstep w HQ; [exact HQ|].
  rewrite forEach_cons. apply IH.
  - intros y w0 Hy. apply Hstep. now right.
  - apply Hstep; [now left | exact HQ].
Qed.

(** What one element establishes and the others keep holds at the end,
    when the others also keep what that element starts from. *)
Lemma forEach_at `{EqDecision A} (J Q : World -> Prop) (xs : list A) (x0 : A) :
  In x0 xs ->
  (forall x w, In x xs -> x <> x0 -> J w -> J (snd (body x w))) ->
  (forall w, J w -> Q (snd (body x0 w))) ->
  (forall x w, In x xs -> x <> x0 -> Q w -> Q (snd (body x w))) ->
  (forall w, Q w -> Q (snd (body x0 w))) ->
  forall w, J w -> Q (snd (forEach xs body w)).
Proof.
  induction xs as [|x xs IH]; intros Hin HJ Hat HQ HQ0 w Hw.
  - destruct Hin.
  - rewrite forEach_cons.
    assert (Hkeep : forall w0, Q w0 -> Q (snd (forEach xs body w0))).
    { apply forEach_keeps. intros y w0 Hy HQy.
      destruct (decide (y = x0)) as [-> | Hne]; [now apply HQ0|].
      apply HQ; [now right | assumption | assumption]. }
    destruct (decide (x = x0)) as [-> | Hne].
    + apply Hkeep. now apply Hat.
    + destruct Hin as [-> | Hin]; [contradiction|].
      apply IH; try assumption.
      * intros y w0 Hy. apply HJ. now right.
      * intros y w0 Hy. apply HQ. now right.
      * apply HJ; [now left | assumption | assumption].
Qed.

End ForEach.

(** ** What a throwing block leaves behind *)

Section KeepsOnThrow.

Variable I : World -> World -> Prop.
Hypothesis I_refl : forall w, I w w.
Hypothesis I_trans : forall a b c, I a b -> I b c -> I a c.

Lemma keepsOnThrow_throw {A : Type} (e : Error) : keepsOnThrow I (@throw A e).
Proof. intros w e' w' [= _ <-]. apply I_refl. Qed.

Lemma keepsOnThrow_modify (f : World -> World) : keepsOnThrow I (modify f).
Proof. intros w e w' H. discriminate. Qed.

Lemma keepsOnThrow_bind {A B : Type} (m : M A) (k : A -> M B) :
  preserves I m -> (forall a, keepsOnThrow I (k a)) -> keepsOnThrow I (bind m k).
Proof.
  intros Hm Hk w e w'. unfold bind. specialize (Hm w).
  destruct (m w) as [[a | e0] w1]; simpl in Hm.
  - intros H. eapply I_trans; [exact Hm | eapply Hk; exact H].
  - intros [= _ <-]. exact Hm.
Qed.

End KeepsOnThrow.

(** ** A whole cycle of the poll *)

Section Cycle.

Variable nts : number -> string.
Variable env : Env.

Lemma poll_unfold (w : World) :
  poll nts env w = forEach (Object_entries w) (pollOwner nts env) w.
Proof. reflexivity. Qed.

Lemma In_Object_entries (w : World) (userId : Z) (walletData : WalletData) :
  In (userId, walletData) (Object_entries w) <-> wallets w !! userId = Some walletData.
Proof. unfold Object_entries. rewrite <- list_elem_of_In. apply elem_of_map_to_list. Qed.

(** Another owner's iteration leaves the entry of [A] alone. *)
Lemma pollOwner_other (A B : Z) (walletData : WalletData) (w : World) :
  B <> A ->
  wallets (snd (pollOwner nts env (B, walletData) w)) = wallets w
  /\ states (snd (pollOwner nts env (B, walletData) w)) !! A = states w !! A.
Proof.
  intros Hne.
  assert (H : preserves (sameOthers B) (pollOwner nts env (B, walletData))).
  { apply (pollOwner_preserves nts env (sameOthers B) anyEvent (sameOthers_Frame B)).
    - intros. exact Logic.I.
    - intros st w0. split; [reflexivity|]. intros C HC. simpl.
      now apply lookup_insert_ne. }
  destruct (H w) as [Hw Hs]. split; [exact Hw | apply Hs; congruence].
Qed.

Lemma pollOwner_trace (P : Event -> Prop) (B : Z) (walletData : WalletData) (w : World) :
  (forall e, pollEvent B e -> P e) ->
  traceGrows P w (snd (pollOwner nts env (B, walletData) w)).
Proof.
  intros HP.
  apply (pollOwner_preserves nts env (traceGrows P) P (traceGrows_Frame P)); [exact HP|].
  intros st w0. now apply traceGrows_stores.
Qed.

Lemma readEvent_pollEvent (B : Z) (e : Event) : readEvent e -> pollEvent B e.
Proof.
  destruct e as [c ?|c ? ?| | | | | | | |]; try (intros []);
    try destruct c; try (intros []); try (intros _);
    (split; [discriminate | intros; exact Logic.I]).
Qed.

(** Whatever makes the [try] block of an owner throw, the registries are
    as the block found them. *)
Lemma pollBody_keepsOnThrow (B : Z) (walletData : WalletData) :
  keepsOnThrow sameStores (pollBody nts env B walletData).
Proof.
  assert (F := sameStores_Frame).
  assert (Hany : forall e, anyEvent e) by (intros; exact Logic.I).
  unfold pollBody.
  apply keepsOnThrow_bind;
    [exact sameStores_trans | apply preserves_get; exact sameStores_refl | intros w].
  destruct (states w !! B) as [state|];
    [|apply keepsOnThrow_throw; exact sameStores_refl].
  apply keepsOnThrow_bind; [exact sameStores_trans | | intros pk].
  { destruct (PublicKey_new_cases (publicKey walletData)) as [[e He] | (pk & _ & _ & Hok)];
      intros w0; rewrite ?He, ?Hok; apply sameStores_refl. }
  apply keepsOnThrow_bind; [exact sameStores_trans | | intros b].
  { apply (pollRetry_preserves sameStores anyEvent F); [apply Hany|].
    unfold fetchBalance.
    apply preserves_bind;
      [exact sameStores_trans | | intros ?; apply preserves_ret; exact sameStores_refl].
    apply preserves_remote. intros w0. apply (frame_called _ _ F). apply Hany. }
  apply keepsOnThrow_bind; [exact sameStores_trans | | intros ps].
  { unfold DlmmService_getPositions.
    apply preserves_tryCatch;
      [exact sameStores_trans | | intros ?; apply preserves_throw; exact sameStores_refl].
    apply preserves_remote. intros w0. apply (frame_called _ _ F). apply Hany. }
  apply keepsOnThrow_bind; [exact sameStores_trans | | intros sigs].
  { apply (pollRetry_preserves sameStores anyEvent F); [apply Hany|].
    apply preserves_remote. intros w0. apply (frame_called _ _ F). apply Hany. }
  apply keepsOnThrow_bind; [exact sameStores_trans | | intros _; apply keepsOnThrow_modify].
  destruct (String.eqb _ _); [apply preserves_ret; exact sameStores_refl|].
  apply preserves_remote. intros w0. apply (frame_called _ _ F). apply Hany.
Qed.

Lemma pollOwner_catches (A : Z) (walletData : WalletData) (w w1 : World) (e : Error) :
  pollBody nts env A walletData (withInitialState A w) = (Throw e, w1) ->
  pollOwner nts env (A, walletData) w = (Ok tt, emit (ELog (LogPollingError A e)) w1)
  /\ wallets w1 = wallets w
  /\ states w1 !! A = Some (pollStateSeen w A)
  /\ (is_Some (states w !! A) -> states w1 = states w).
Proof.
  intros Hrun. rewrite pollOwner_unfold. unfold tryCatch. rewrite Hrun.
  destruct (pollBody_keepsOnThrow A walletData _ _ _ Hrun) as (Hw & Hs & _).
  split; [reflexivity|]. split; [|split].
  - rewrite Hw. unfold withInitialState. destruct (states w !! A); reflexivity.
  - rewrite Hs. apply withInitialState_lookup.
  - intros [st Hst]. rewrite Hs. unfold withInitialState. now rewrite Hst.
Qed.

(** C4: a cycle of the poll never throws.  Whenever the [try] block of an
    owner throws, the error is caught and logged within that owner's
    iteration, and that owner's snapshot is as the block found it (the
    zero snapshot for an owner seen for the first time).  Within a whole
    cycle, an owner one of whose fetches fails at every attempt keeps its
    snapshot, has the failure logged and receives no message, while an
    owner whose fetches succeed gets the snapshot of the fetched values,
    wherever the two stand in the order of iteration. *)
Theorem poll_isolates_owner_failure :
  (forall w, fst (poll nts env w) = Ok tt)
  /\ (forall (w w1 : World) (A : Z) (walletData : WalletData) (e : Error),
         pollBody nts env A walletData (withInitialState A w) = (Throw e, w1) ->
         pollOwner nts env (A, walletData) w = (Ok tt, emit (ELog (LogPollingError A e)) w1)
         /\ wallets w1 = wallets w
         /\ states w1 !! A = Some (pollStateSeen w A)
         /\ (is_Some (states w !! A) -> states w1 = states w))
  /\ (forall (w : World) (A : Z) (walletData : WalletData),
         wallets w !! A = Some walletData ->
         (forall pk, bs58.decodeUnsafe (publicKey walletData) = Some pk -> fetchFails env pk) ->
         let w' := snd (poll nts env w) in
         states w' !! A = Some (pollStateSeen w A)
         /\ (is_Some (states w !! A) -> states w' !! A = states w !! A)
         /\ (exists e, In (ELog (LogPollingError A e)) (trace w'))
         /\ traceGrows (notSentTo A) w w')
  /\ (forall (w : World) (B : Z) (walletData : WalletData) (pk : PublicKey)
             (lamports : number) (positions : list PositionData) (signatures : list string),
         wallets w !! B = Some walletData ->
         bs58.decodeUnsafe (publicKey walletData) = Some pk ->
         length pk = 32%nat ->
         (forall t, getBalance env t Primary pk = Ok lamports) ->
         (forall t, getUserPositions env t pk = Ok positions) ->
         (forall t, getSignaturesForAddress env t Primary pk 5 = Ok signatures) ->
         (forall t text, sendMessage env t B text = Ok tt) ->
         let w' := snd (poll nts env w) in
         states w' !! B
         = Some (mkUserState (jsdiv lamports e9) positions signatures
                   (network (pollStateSeen w B)) (lastFaucetTime (pollStateSeen w B)))).
Proof.
  split; [|split; [|split]].
  - intros w. rewrite poll_unfold. apply forEach_Ok. intros x w0. apply pollOwner_Ok.
  - intros w w1 A walletData e. apply pollOwner_catches.
  - intros w A walletData Hwallet Hfail w'.
    assert (HA : states w' !! A = Some (pollStateSeen w A)).
    { unfold w'. rewrite poll_unfold.
      apply (forEach_at (pollOwner nts env) (pollOwner_Ok nts env)
               (fun w1 => states w1 !! A = states w !! A)
               (fun w1 => states w1 !! A = Some (pollStateSeen w A))
               (Object_entries w) (A, walletData)).
      - now apply In_Object_entries.
      - intros [B wd] w1 Hin Hne HJ.
        assert (HB : B <> A).
        { intros ->. apply Hne. f_equal. apply In_Object_entries in Hin. congruence. }
        destruct (pollOwner_other A B wd w1 HB) as [_ ->]. exact HJ.
      - intros w1 HJ.
        destruct (pollOwner_failing nts env A walletData w1 Hfail)
          as (e & w2 & evs & Hrun & (_ & Hst & _) & _).
        rewrite Hrun. simpl. rewrite Hst, withInitialState_lookup.
        unfold pollStateSeen. now rewrite HJ.
      - intros [B wd] w1 Hin Hne HQ.
        assert (HB : B <> A).
        { intros ->. apply Hne. f_equal. apply In_Object_entries in Hin. congruence. }
        destruct (pollOwner_other A B wd w1 HB) as [_ ->]. exact HQ.
      - intros w1 HQ.
        destruct (pollOwner_failing nts env A walletData w1 Hfail)
          as (e & w2 & evs & Hrun & (_ & Hst & _) & _).
        rewrite Hrun. simpl. rewrite Hst, withInitialState_lookup.
        unfold pollStateSeen at 1. now rewrite HQ.
      - reflexivity. }
    split; [exact HA|]. split; [|split].
    + intros [st Hst]. rewrite HA. unfold pollStateSeen. now rewrite Hst.
    + unfold w'. rewrite poll_unfold.
      apply (forEach_at (pollOwner nts env) (pollOwner_Ok nts env)
               (fun _ => True)
               (fun w1 => exists e, In (ELog (LogPollingError A e)) (trace w1))
               (Object_entries w) (A, walletData)).
      * now apply In_Object_entries.
      * auto.
      * intros w1 _.
        destruct (pollOwner_failing nts env A walletData w1 Hfail)
          as (e & w2 & evs & Hrun & _).
        rewrite Hrun. simpl. exists e. apply in_or_app. right. now left.
      * intros [B wd] w1 _ _ [e He].
        destruct (pollOwner_trace anyEvent B wd w1 ltac:(intros; exact Logic.I))
          as (evs & -> & _).
        exists e. apply in_or_app. now left.
      * intros w1 [e He].
        destruct (pollOwner_trace anyEvent A walletData w1 ltac:(intros; exact Logic.I))
          as (evs & -> & _).
        exists e. apply in_or_app. now left.
      * exact Logic.I.
    + unfold w'. rewrite poll_unfold.
      apply (forEach_keeps (pollOwner nts env) (pollOwner_Ok nts env)
               (fun w1 => traceGrows (notSentTo A) w w1)); [|apply traceGrows_refl].
      intros [B wd] w1 Hin Hw1. eapply traceGrows_trans; [exact Hw1|].
      destruct (decide (B = A)) as [-> | HB].
      * apply In_Object_entries in Hin.
        assert (wd = walletData) as -> by congruence.
        destruct (pollOwner_failing nts env A walletData w1 Hfail)
          as (e & w2 & evs & Hrun & _ & Htr & Hevs).
        rewrite Hrun. exists (evs ++ [ELog (LogPollingError A e)]). simpl.
        split; [rewrite Htr; now rewrite app_assoc|].
        apply Forall_app. split; [|repeat constructor].
        eapply Forall_impl; [exact Hevs|].
        intros ev Hev. destruct ev; try exact Logic.I. destruct Hev.
      * apply pollOwner_trace. intros e [_ He]. apply He. congruence.
  - intros w B walletData pk lamports positions signatures Hwallet Hpk Hlen Hbal Hpos Hsig Hsend w'.
    unfold w'. rewrite poll_unfold.
    apply (forEach_at (pollOwner nts env) (pollOwner_Ok nts env)
             (fun w1 => states w1 !! B = states w !! B)
             (fun w1 => states w1 !! B
                        = Some (mkUserState (jsdiv lamports e9) positions signatures
                                  (network (pollStateSeen w B))
                                  (lastFaucetTime (pollStateSeen w B))))
             (Object_entries w) (B, walletData)).
    + now apply In_Object_entries.
    + intros [C wd] w1 Hin Hne HJ.
      assert (HC : C <> B).
      { intros ->. apply Hne. f_equal. apply In_Object_entries in Hin. congruence. }
      destruct (pollOwner_other B C wd w1 HC) as [_ ->]. exact HJ.
    + intros w1 HJ.
      destruct (pollOwner_succeeding nts env B walletData pk lamports positions signatures
                  w1 Hpk Hlen Hbal Hpos Hsig Hsend) as (w2 & Hrun & _ & Hst & _).
      rewrite Hrun. simpl. rewrite Hst, lookup_insert_eq.
      unfold pollStateSeen. now rewrite HJ.
    + intros [C wd] w1 Hin Hne HQ.
      assert (HC : C <> B).
      { intros ->. apply Hne. f_equal. apply In_Object_entries in Hin. congruence. }
      destruct (pollOwner_other B C wd w1 HC) as [_ ->]. exact HQ.
    + intros w1 HQ.
      destruct (pollOwner_succeeding nts env B walletData pk lamports positions signatures
                  w1 Hpk Hlen Hbal Hpos Hsig Hsend) as (w2 & Hrun & _ & Hst & _).
      rewrite Hrun. simpl. rewrite Hst, lookup_insert_eq.
      assert (Hseen : pollStateSeen w1 B
                      = mkUserState (jsdiv lamports e9) positions signatures
                          (network (pollStateSeen w B)) (lastFaucetTime (pollStateSeen w B)))
        by (unfold pollStateSeen at 1; now rewrite HQ).
      rewrite Hseen. reflexivity.
    + reflexivity.
Qed.

End Cycle.

(** ** The faucet past the rate limit *)

Section FaucetRuns.
Variable env : Env.

Lemma withFaucetState_lookup (A : Z) (w : World) :
  withFaucetState A w !! A = Some (faucetStateSeen w A).
Proof.
  unfold withFaucetState, faucetStateSeen.
  destruct (states w !! A) eqn:H; simpl; [exact H | apply lookup_insert_eq].
Qed.

(** A request that passes the rate limit: the outcome of the airdrop
    decides between the success path and the handler's [catch]. *)
Lemma request_tokens_passes_limit (A : Z) (w : World) (walletData : WalletData)
    (pubkey : PublicKey) :
  A <> 0 ->
  walletSeen w A = Some walletData ->
  bs58.decodeUnsafe (publicKey walletData) = Some pubkey ->
  length pubkey = 32%nat ->
  let now := Date_now env (tick w) in
  let state := faucetStateSeen w A in
  (hourlyLimitSeconds <= timeSinceLastFaucet now state)%Q ->
  exists ss,
    wallet (default emptySession (ss !! A)) = Some walletData /\
    let w1 := mkWorld (wallets w) (withFaucetState A w) ss (tick w)
                      (trace w ++ [EReply A ReplyRequesting]) in
    request_tokens env A w
    = match airdropWithFailover env pubkey w1 with
      | (Ok signature, w2) =>
          (Ok tt, emit (EReply A (ReplyAirdropSuccess signature))
                    (setStates (insert A (withLastFaucetTime state now)) w2))
      | (Throw error, w2) =>
          (Ok tt, emit (EReply A (ReplyAirdropUnavailable error))
                    (emit (ELog (LogRequestTokensError A error)) w2))
      end.
Proof.
  intros HA Hwallet Hpk Hlen now state Hge.
  destruct (loadWallet_run A w HA) as (ss & Hload & Hss).
  exists ss. split; [congruence|]. cbv zeta.
  unfold request_tokens. unfold bind at 1. rewrite Hload. run.
  rewrite Hss, Hwallet.
  unfold requestTokensBody, PublicKey_new, bs58_decode. rewrite Hpk. run.
  assert (Hfin : forall (w1 : World),
            (let (r, w') :=
               let (r, w') :=
                 let (r, w') := requestAirdropWithRetry_default env Primary pubkey 2000000000 w1 in
                 match r with
                 | Ok a => (Ok a, w')
                 | Throw _ =>
                     requestAirdropWithRetry_default env Fallback pubkey 2000000000
                       (emit (ELog LogPrimaryFailed) w')
                 end in
               match r with
               | Ok a =>
                   (Ok tt, emit (EReply A (ReplyAirdropSuccess a))
                             (setStates <[A:=withLastFaucetTime state now]> w'))
               | Throw e => (Throw e, w')
               end in
             match r with
             | Ok a => (Ok a, w')
             | Throw e =>
                 (Ok tt, emit (EReply A (ReplyAirdropUnavailable e))
                           (emit (ELog (LogRequestTokensError A e)) w'))
             end)
            = match airdropWithFailover env pubkey w1 with
              | (Ok signature, w2) =>
                  (Ok tt, emit (EReply A (ReplyAirdropSuccess signature))
                            (setStates (insert A (withLastFaucetTime state now)) w2))
              | (Throw error, w2) =>
                  (Ok tt, emit (EReply A (ReplyAirdropUnavailable error))
                            (emit (ELog (LogRequestTokensError A error)) w2))
              end).
  { intros w1. unfold airdropWithFailover. run.
    destruct (requestAirdropWithRetry_default env Primary pubkey _ _) as [[sig | e] w2];
      [reflexivity|].
    destruct (requestAirdropWithRetry_default env Fallback pubkey _ _) as [[sig | e'] w3];
      reflexivity. }
  rewrite <- Hfin. clear Hfin.
  unfold withFaucetState, state, faucetStateSeen in *.
  destruct (states w !! A) as [st|] eqn:HsA; run.
  - rewrite HsA. fold now. simpl in Hge.
    destruct (Qlt_le_dec _ _) as [Hlt | _]; [exfalso; eapply Qlt_not_le; eassumption|].
    run. rewrite (proj2 (Nat.eqb_eq _ _) Hlen). run. reflexivity.
  - rewrite lookup_insert_eq. fold now. simpl in Hge.
    destruct (Qlt_le_dec _ _) as [Hlt | _]; [exfalso; eapply Qlt_not_le; eassumption|].
    run. rewrite (proj2 (Nat.eqb_eq _ _) Hlen). run. reflexivity.
Qed.

Lemma requestAirdropWithRetry_default_unfold (conn : Endpoint) (pk : PublicKey) (lamports : Z) :
  requestAirdropWithRetry_default env conn pk lamports
  = airdropLoop env conn pk lamports 3 2000 3 1.
Proof. reflexivity. Qed.

(** The primary endpoint fails for the whole budget and the fallback
    answers at its first attempt. *)
Lemma airdropWithFailover_fallback (pk : PublicKey) (errP : nat -> Error)
    (sigF : string) (w : World) :
  (forall t, requestAirdrop env t Primary pk 2000000000 = Throw (errP t)) ->
  requestAirdrop env (tick w + 3)%nat Fallback pk 2000000000 = Ok sigF ->
  confirmTransaction env (tick w + 4)%nat Fallback sigF = Ok None ->
  exists w' evs,
    airdropWithFailover env pk w = (Ok sigF, w')
    /\ sameStores w w'
    /\ trace w' = trace w ++ evs
    /\ airdropRequests evs = [Primary; Primary; Primary; Fallback]
    /\ sleeps evs = [2000; 4000].
Proof.
  intros HP HF HC. unfold airdropWithFailover, tryCatch.
  rewrite !requestAirdropWithRetry_default_unfold.
  destruct (airdropLoop_all_fail env Primary pk 2000000000 3 2000 errP HP 2 1 w eq_refl)
    as (w1 & evs1 & Hrun1 & Hst1 & Htick1 & Htr1 & Hsl1 & Hreq1).
  rewrite Hrun1. run.
  destruct (airdropLoop_first_success env Fallback pk 2000000000 3 2000 sigF 0 2 1
              (emit (ELog LogPrimaryFailed) w1)) as
    (w2 & evs2 & Hrun2 & Hst2 & Htick2 & Htr2 & Hsl2 & Hreq2); try lia.
  - simpl. rewrite Htick1. now replace (tick w + 3 + 0)%nat with (tick w + 3)%nat by lia.
  - simpl. rewrite Htick1. now replace (S (tick w + 3 + 0)) with (tick w + 4)%nat by lia.
  - rewrite Hrun2. exists w2, (evs1 ++ ELog LogPrimaryFailed :: evs2).
    split; [reflexivity|]. split.
    { destruct Hst1 as (? & ? & ?), Hst2 as (? & ? & ?). simpl in *.
      repeat split; congruence. }
    split.
    { rewrite Htr2. simpl. rewrite Htr1, <- !app_assoc. reflexivity. }
    split.
    + rewrite airdropRequests_app. simpl. now rewrite Hreq1, Hreq2.
    + rewrite sleeps_app. simpl. now rewrite Hsl1, Hsl2.
Qed.

(** Both endpoints fail for their whole budget. *)
Lemma airdropWithFailover_all_fail (pk : PublicKey) (err : Endpoint -> nat -> Error)
    (w : World) :
  (forall c t, requestAirdrop env t c pk 2000000000 = Throw (err c t)) ->
  exists w' evs,
    airdropWithFailover env pk w = (Throw (err Fallback (tick w + 5)%nat), w')
    /\ sameStores w w'
    /\ trace w' = trace w ++ evs
    /\ airdropRequests evs = [Primary; Primary; Primary; Fallback; Fallback; Fallback]
    /\ sleeps evs = [2000; 4000; 2000; 4000].
Proof.
  intros Hfail. unfold airdropWithFailover, tryCatch.
  rewrite !requestAirdropWithRetry_default_unfold.
  destruct (airdropLoop_all_fail env Primary pk 2000000000 3 2000 (err Primary)
              (Hfail Primary) 2 1 w eq_refl)
    as (w1 & evs1 & Hrun1 & Hst1 & Htick1 & Htr1 & Hsl1 & Hreq1).
  rewrite Hrun1. run.
  destruct (airdropLoop_all_fail env Fallback pk 2000000000 3 2000 (err Fallback)
              (Hfail Fallback) 2 1 (emit (ELog LogPrimaryFailed) w1) eq_refl)
    as (w2 & evs2 & Hrun2 & Hst2 & Htick2 & Htr2 & Hsl2 & Hreq2).
  rewrite Hrun2. exists w2, (evs1 ++ ELog LogPrimaryFailed :: evs2).
  split.
  { simpl. rewrite Htick1.
    now replace (tick w + 3 + 2)%nat with (tick w + 5)%nat by lia. }
  split.
  { destruct Hst1 as (? & ? & ?), Hst2 as (? & ? & ?). simpl in *.
    repeat split; congruence. }
  split.
  { rewrite Htr2. simpl. rewrite Htr1, <- !app_assoc. reflexivity. }
  split.
  - rewrite airdropRequests_app. simpl. now rewrite Hreq1, Hreq2.
  - rewrite sleeps_app. simpl. now rewrite Hsl1, Hsl2.
Qed.


End FaucetRuns.

(** ** Retry budget and frame *)

Lemma backoffDelays_attempts (delayMs : Z) (n : nat) :
  backoffDelays delayMs 1 n
  = map (fun attempt => delayMs * 2 ^ (attempt - 1)) (map Z.of_nat (seq 1 n)).
Proof.
  unfold backoffDelays. rewrite <- seq_shift, !map_map.
  apply map_ext. intros k. f_equal. f_equal. lia.
Qed.

Section RetryAndFrame.
Variable nts : number -> string.
Variable env : Env.


(** C10: one iteration of the poll for owner [A], and a faucet request
    by owner [A], leave the wallet registry as it is and the snapshot of
    every other owner [B] as it is. *)
Theorem other_owners_untouched (A B : Z) (walletData : WalletData) (w : World) :
  B <> A ->
  (wallets (snd (pollOwner nts env (A, walletData) w)) = wallets w
   /\ states (snd (pollOwner nts env (A, walletData) w)) !! B = states w !! B)
  /\ (wallets (snd (request_tokens env A w)) = wallets w
      /\ states (snd (request_tokens env A w)) !! B = states w !! B).
Proof.
  intros Hne. split.
  - apply pollOwner_other. congruence.
  - assert (H : preserves (sameOthers A) (request_tokens env A)).
    { apply (request_tokens_preserves env (sameOthers A) anyEvent (sameOthers_Frame A)).
      - intros. exact Logic.I.
      - intros st w0. split; [reflexivity|]. intros C HC. simpl.
        now apply lookup_insert_ne.
      - intros s w0. split; [reflexivity|]. intros; reflexivity. }
    destruct (H w) as [Hw Hs]. split; [exact Hw | now apply Hs].
Qed.

End RetryAndFrame.

(** ** Failover *)

Section FaucetAndFailover.
Variable nts : number -> string.
Variable env : Env.

Lemma poll_onPrimary (w : World) : traceGrows onPrimary w (snd (poll nts env w)).
Proof.
  rewrite poll_unfold.
  apply (forEach_keeps (pollOwner nts env) (pollOwner_Ok nts env)
           (fun w1 => traceGrows onPrimary w w1)); [|apply traceGrows_refl].
  intros [B wd] w1 _ Hw1. eapply traceGrows_trans; [exact Hw1|].
  apply pollOwner_trace. now intros e [He _].
Qed.

Lemma onText_onPrimary (A : Z) (text : string) (w : World) :
  traceGrows onPrimary w (snd (onText nts env A text w)).
Proof.
  assert (F := traceGrows_Frame onPrimary).
  assert (Hrefl := frame_refl _ _ F). assert (Htrans := frame_trans _ _ F).
  revert w. change (preserves (traceGrows onPrimary) (onText nts env A text)).
  unfold onText, importBody, loadWallet, getSession, putSession, log, reply,
    PublicKey_new, bs58_decode.
  repeat first
    [ apply preserves_bind; [exact Htrans | | intros ?]
    | apply preserves_tryCatch; [exact Htrans | | intros ?]
    | apply preserves_ret; exact Hrefl
    | apply preserves_throw; exact Hrefl
    | apply preserves_get; exact Hrefl
    | apply preserves_pure; exact Hrefl
    | apply preserves_modify; intros ?;
        first [ apply (frame_emit _ _ F); discriminate
              | now apply traceGrows_stores ]
    | apply preserves_remote; intros ?; apply (frame_called _ _ F); discriminate
    | match goal with |- preserves _ (match ?x with _ => _ end) => destruct x end ].
Qed.

(** Both endpoints down: the primary budget, then the fallback budget, then
    the error of the last fallback attempt is reported and nothing is
    recorded. *)
Lemma request_tokens_all_fail (A : Z) (w : World) (walletData : WalletData)
    (pubkey : PublicKey) (err : Endpoint -> nat -> Error) :
  A <> 0 ->
  walletSeen w A = Some walletData ->
  bs58.decodeUnsafe (publicKey walletData) = Some pubkey ->
  length pubkey = 32%nat ->
  (hourlyLimitSeconds
   <= timeSinceLastFaucet (Date_now env (tick w)) (faucetStateSeen w A))%Q ->
  (forall c t, requestAirdrop env t c pubkey 2000000000 = Throw (err c t)) ->
  exists w' evs,
    let error := err Fallback (tick w + 5)%nat in
    request_tokens env A w = (Ok tt, w')
    /\ trace w' = trace w ++ evs ++ [ELog (LogRequestTokensError A error);
                                     EReply A (ReplyAirdropUnavailable error)]
    /\ airdropRequests evs
       = [Primary; Primary; Primary; Fallback; Fallback; Fallback]
    /\ states w' !! A = Some (faucetStateSeen w A)
    /\ (is_Some (states w !! A) -> states w' = states w).
Proof.
  intros HA Hwallet Hpk Hlen Hge Hfail.
  destruct (request_tokens_passes_limit env A w walletData pubkey HA Hwallet Hpk Hlen Hge)
    as (ss & _ & Hrun).
  cbv zeta in Hrun. rewrite Hrun.
  match goal with |- context [airdropWithFailover env pubkey ?w1] =>
    destruct (airdropWithFailover_all_fail env pubkey err w1 Hfail)
      as (w2 & evs & Hair & (_ & Hst & _) & Htr & Hreq & _)
  end.
  rewrite Hair. eexists. exists (EReply A ReplyRequesting :: evs).
  cbv zeta. split; [reflexivity|]. simpl. split; [|split; [exact Hreq | split]].
  + rewrite Htr. simpl. rewrite <- !app_assoc. reflexivity.
  + rewrite Hst. simpl. apply withFaucetState_lookup.
  + intros [st Hsome]. rewrite Hst. simpl. unfold withFaucetState. now rewrite Hsome.
Qed.

(** C6: when the three attempts of the airdrop on the primary endpoint
    fail and the first on the fallback succeeds, the faucet answers with
    the fallback's signature after exactly three requests to the primary
    and one to the fallback; when the fallback fails too, it gets its
    three attempts and the primary none more.  The poll and the text
    handler, which hold all the reads, never call the fallback
    endpoint. *)
Theorem failover_only_for_airdrop :
  (forall (A : Z) (w : World) (walletData : WalletData) (pubkey : PublicKey)
          (errP : nat -> Error) (sigF : string),
      A <> 0 ->
      walletSeen w A = Some walletData ->
      bs58.decodeUnsafe (publicKey walletData) = Some pubkey ->
      length pubkey = 32%nat ->
      (hourlyLimitSeconds
       <= timeSinceLastFaucet (Date_now env (tick w)) (faucetStateSeen w A))%Q ->
      (forall t, requestAirdrop env t Primary pubkey 2000000000 = Throw (errP t)) ->
      requestAirdrop env (tick w + 3)%nat Fallback pubkey 2000000000 = Ok sigF ->
      confirmTransaction env (tick w + 4)%nat Fallback sigF = Ok None ->
      exists w' evs,
        request_tokens env A w = (Ok tt, w')
        /\ trace w' = trace w ++ evs ++ [EReply A (ReplyAirdropSuccess sigF)]
        /\ airdropRequests evs = [Primary; Primary; Primary; Fallback])
  /\ (forall (A : Z) (w : World) (walletData : WalletData) (pubkey : PublicKey)
            (err : Endpoint -> nat -> Error),
         A <> 0 ->
         walletSeen w A = Some walletData ->
         bs58.decodeUnsafe (publicKey walletData) = Some pubkey ->
         length pubkey = 32%nat ->
         (hourlyLimitSeconds
          <= timeSinceLastFaucet (Date_now env (tick w)) (faucetStateSeen w A))%Q ->
         (forall c t, requestAirdrop env t c pubkey 2000000000 = Throw (err c t)) ->
         exists w' evs,
           request_tokens env A w = (Ok tt, w')
           /\ trace w' = trace w ++ evs
           /\ airdropRequests evs
              = [Primary; Primary; Primary; Fallback; Fallback; Fallback])
  /\ (forall w, traceGrows onPrimary w (snd (poll nts env w)))
  /\ (forall A text w, traceGrows onPrimary w (snd (onText nts env A text w))).
Proof.
  split; [|split; [|split; [apply poll_onPrimary | apply onText_onPrimary]]].
  2:{ intros A w walletData pubkey err HA Hwallet Hpk Hlen Hge Hfail.
      destruct (request_tokens_all_fail A w walletData pubkey err HA Hwallet Hpk Hlen Hge Hfail)
        as (w' & evs & Hrun & Htr & Hreq & _).
      exists w', (evs ++ [ELog (LogRequestTokensError A (err Fallback (tick w + 5)%nat));
                          EReply A (ReplyAirdropUnavailable (err Fallback (tick w + 5)%nat))]).
      split; [exact Hrun|]. split; [exact Htr|].
      rewrite airdropRequests_app, Hreq. reflexivity. }
  intros A w walletData pubkey errP sigF HA Hwallet Hpk Hlen Hge HP HF HC.
  destruct (request_tokens_passes_limit env A w walletData pubkey HA Hwallet Hpk Hlen Hge)
    as (ss & _ & Hrun).
  cbv zeta in Hrun. rewrite Hrun.
  match goal with |- context [airdropWithFailover env pubkey ?w1] =>
    destruct (airdropWithFailover_fallback env pubkey errP sigF w1 HP HF HC)
      as (w2 & evs & Hair & _ & Htr & Hreq & _)
  end.
  rewrite Hair. exists (emit (EReply A (ReplyAirdropSuccess sigF))
                     (setStates (insert A (withLastFaucetTime (faucetStateSeen w A)
                                             (Date_now env (tick w)))) w2)),
                 (EReply A ReplyRequesting :: evs).
  split; [reflexivity|]. split.
  - simpl. rewrite Htr. simpl. rewrite <- !app_assoc. reflexivity.
  - simpl. exact Hreq.
Qed.

End FaucetAndFailover.

(** ** The acknowledgement of a button press *)

Section Acknowledgement.
Variable env : Env.

(** The middleware neither makes a call nor reads the count of calls:
    it commutes with a recorded call. *)
Lemma loadWallet_called (A : Z) (e : Event) (w : World) :
  loadWallet A (called e w)
  = (fst (loadWallet A w), called e (snd (loadWallet A w))).
Proof.
  unfold loadWallet. destruct (A =? 0); [reflexivity|]. run.
  destruct (wallets w !! A) as [wd|];
    destruct (wallet (default emptySession (sessions w !! A))) as [wd'|]; reflexivity.
Qed.

Lemma loadWallet_ok (A : Z) (w : World) : fst (loadWallet A w) = Ok tt.
Proof.
  unfold loadWallet. destruct (A =? 0); [reflexivity|]. run.
  destruct (wallets w !! A) as [wd|];
    destruct (wallet (default emptySession (sessions w !! A))) as [wd'|]; reflexivity.
Qed.

Lemma loadWallet_tick (A : Z) (w : World) : tick (snd (loadWallet A w)) = tick w.
Proof.
  unfold loadWallet. destruct (A =? 0); [reflexivity|]. run.
  destruct (wallets w !! A) as [wd|];
    destruct (wallet (default emptySession (sessions w !! A))) as [wd'|]; reflexivity.
Qed.

(** An acknowledged request goes on as [request_tokens] does. *)
Lemma bot_action_request_tokens_acknowledged (A : Z) (w : World) :
  answerCbQuery env (tick w) A = Ok tt ->
  bot_action_request_tokens env A w = request_tokens env A (called (EAnswerCbQuery A) w).
Proof.
  intros Hack. unfold bot_action_request_tokens, request_tokens.
  set (T := tryCatch _ _).
  unfold bind. rewrite loadWallet_called.
  pose proof (loadWallet_ok A w) as Hok. pose proof (loadWallet_tick A w) as Ht.
  destruct (loadWallet A w) as [r w0]. cbn [fst snd] in *. subst r.
  unfold ctx_answerCbQuery, remote. rewrite Ht, Hack. reflexivity.
Qed.

(** A refused acknowledgement ends the handler: the refusal is thrown
    before the [try] statement is reached. *)
Lemma bot_action_request_tokens_refused (A : Z) (w : World) (e : Error) :
  answerCbQuery env (tick w) A = Throw e ->
  bot_action_request_tokens env A w
  = (Throw e, called (EAnswerCbQuery A) (snd (loadWallet A w))).
Proof.
  intros Hack. unfold bot_action_request_tokens.
  set (T := tryCatch _ _).
  unfold bind.
  pose proof (loadWallet_ok A w) as Hok. pose proof (loadWallet_tick A w) as Ht.
  destruct (loadWallet A w) as [r w0]. cbn [fst snd] in *. subst r.
  unfold ctx_answerCbQuery, remote. rewrite Ht, Hack. reflexivity.
Qed.

End Acknowledgement.

(** ** Faucet bookkeeping *)

Section FaucetBookkeeping.
Variable env : Env.


End FaucetBookkeeping.

(** ** Wallet import *)

Section WalletImport.
Variable nts : number -> string.
Variable env : Env.

Lemma loadWallet_session (A : Z) (w : World) :
  A <> 0 ->
  loadWallet A w
  = (Ok tt, mkWorld (wallets w) (states w) (<[A := sessionSeen w A]> (sessions w))
                    (tick w) (trace w)).
Proof.
  intros HA. unfold loadWallet, sessionSeen, walletSeen.
  destruct (Z.eqb_spec A 0) as [|_]; [contradiction|]. run.
  destruct (default emptySession (sessions w !! A)) as [[wd'|] waiting] eqn:Hs;
    destruct (wallets w !! A) as [wd|] eqn:Hw; run; reflexivity.
Qed.

Lemma onText_unfold (A : Z) (text : string) (w : World) :
  A <> 0 ->
  let w0 := mkWorld (wallets w) (states w) (<[A := sessionSeen w A]> (sessions w))
                    (tick w) (trace w) in
  onText nts env A text w
  = if importGate (sessionSeen w A) text then
      tryCatch (importBody nts env A text)
        (fun error =>
           log (LogImportError A error) >>
           reply A (ReplyImportError
                      (if String.eqb (message error) EmptyString then "Invalid key or unknown error"%string
                       else message error))) w0
    else if startsWith text "/" then
      match walletSeen w A with
      | None => (Ok tt, emit (EReply A ReplyWalletMissing) w0)
      | Some _ => (Ok tt, w0)
      end
    else (Ok tt, w0).
Proof.
  intros HA w0. unfold onText. unfold bind at 1. rewrite (loadWallet_session A w HA).
  fold w0. unfold bind at 1, getSession. cbn [fst snd].
  assert (Hs : default emptySession (sessions w0 !! A) = sessionSeen w A).
  { unfold w0. cbn [sessions]. now rewrite lookup_insert_eq. }
  rewrite !Hs. unfold importGate.
  destruct (waitingForWalletImport (sessionSeen w A)
            && (startsWith text "dev" || (80 <? String.length text)%nat)); [reflexivity|].
  destruct (startsWith text "/"); [|reflexivity].
  unfold sessionSeen. cbn [wallet]. destruct (walletSeen w A); reflexivity.
Qed.

Lemma importAnswer_sameStores (A : Z) (pk : string) :
  preserves sameStores (importAnswer nts env A pk).
Proof.
  unfold importAnswer, PublicKey_new, bs58_decode, reply.
  repeat first
    [ apply preserves_bind; [exact sameStores_trans | | intros ?]
    | apply preserves_ret; exact sameStores_refl
    | apply preserves_throw; exact sameStores_refl
    | apply preserves_modify; intros ?;
        apply (frame_emit _ _ sameStores_Frame); exact Logic.I
    | apply preserves_remote; intros ?;
        apply (frame_called _ _ sameStores_Frame); exact Logic.I
    | match goal with |- preserves _ (match ?x with _ => _ end) => destruct x end ].
Qed.

Lemma importBody_rejects (A : Z) (text : string) (w : World) :
  (forall sk, bs58.decodeUnsafe (trim text) = Some sk -> length sk <> 64%nat) ->
  importBody nts env A text w
  = (Throw (match bs58.decodeUnsafe (trim text) with
            | None => mkError "Non-base58 character"
            | Some _ => mkError "Invalid private key length (must be 64 bytes)."
            end), w).
Proof.
  intros Hbad. unfold importBody, bs58_decode.
  destruct (bs58.decodeUnsafe (trim text)) as [sk|]; run; [|reflexivity].
  specialize (Hbad sk eq_refl).
  now rewrite (proj2 (Nat.eqb_neq _ _) Hbad).
Qed.

Lemma importBody_stores (A : Z) (text : string) (w : World) (sk : list Byte.byte)
    (pk : string) :
  bs58.decodeUnsafe (trim text) = Some sk ->
  length sk = 64%nat ->
  Keypair_fromSecretKey env sk = Ok pk ->
  let walletData := mkWalletData pk (trim text) in
  importBody nts env A text w
  = importAnswer nts env A pk
      (setWallets (insert A walletData)
         (setSessions (insert A (mkSession (Some walletData) false)) w)).
Proof.
  intros Hsk Hlen Hkey walletData. unfold importBody, bs58_decode. rewrite Hsk. run.
  rewrite (proj2 (Nat.eqb_eq _ _) Hlen). cbn [negb]. run. rewrite Hkey.
  reflexivity.
Qed.

Lemma importBody_key_refused (A : Z) (text : string) (w : World) (sk : list Byte.byte)
    (e : Error) :
  bs58.decodeUnsafe (trim text) = Some sk ->
  length sk = 64%nat ->
  Keypair_fromSecretKey env sk = Throw e ->
  importBody nts env A text w = (Throw e, w).
Proof.
  intros Hsk Hlen Hkey. unfold importBody, bs58_decode. rewrite Hsk. run.
  rewrite (proj2 (Nat.eqb_eq _ _) Hlen). cbn [negb]. run. now rewrite Hkey.
Qed.

Lemma walletSeen_after_insert (A : Z) (w : World) (s : Session) :
  walletSeen (setSessions (insert A s) w) A
  = match wallet s with Some wd => Some wd | None => wallets w !! A end.
Proof. unfold walletSeen. simpl. now rewrite lookup_insert_eq. Qed.

(** A text that passes the test and carries a 64-byte key that
    [Keypair.fromSecretKey] accepts: the record is stored whatever the
    balance read does afterwards. *)
Lemma onText_imports (A : Z) (text : string) (w : World) (sk : list Byte.byte) (pk : string) :
  A <> 0 ->
  importGate (sessionSeen w A) text = true ->
  bs58.decodeUnsafe (trim text) = Some sk ->
  length sk = 64%nat ->
  Keypair_fromSecretKey env sk = Ok pk ->
  let walletData := mkWalletData pk (trim text) in
  let w' := snd (onText nts env A text w) in
  fst (onText nts env A text w) = Ok tt
  /\ wallets w' = <[A := walletData]> (wallets w)
  /\ states w' = states w
  /\ sessions w' = <[A := mkSession (Some walletData) false]> (sessions w).
Proof.
  intros HA Hgate Hsk Hlen Hkey walletData w'. unfold w'.
  rewrite (onText_unfold A text w HA). cbv zeta. rewrite Hgate.
  unfold tryCatch. rewrite (importBody_stores A text _ sk pk Hsk Hlen Hkey).
  match goal with |- context [importAnswer nts env A pk ?x] =>
    pose proof (importAnswer_sameStores A pk x) as Hsame;
    destruct (importAnswer nts env A pk x) as [[[] | e] w2]
  end; unfold sameStores, setWallets, setSessions in Hsame; simpl in Hsame;
    destruct Hsame as (Hw & Hs & Hss); run; simpl;
    rewrite ?Hw, ?Hs, ?Hss, ?insert_insert_eq; repeat split; reflexivity.
Qed.

End WalletImport.

(** ** Texts and the strings of their code units *)

Lemma codeUnits_cons (c : ascii) (s : string) :
  codeUnits (String c s) = N_of_ascii c :: codeUnits s.
Proof. reflexivity. Qed.

Lemma Text_length_codeUnits (s : string) : Text_length (codeUnits s) = String.length s.
Proof.
  unfold Text_length. induction s as [|c s IH]; [reflexivity|].
  rewrite codeUnits_cons. simpl. now rewrite IH.
Qed.

Lemma N_of_ascii_eqb (a b : ascii) : (N_of_ascii a =? N_of_ascii b)%N = Ascii.eqb a b.
Proof.
  destruct (Ascii.eqb_spec a b) as [-> | Hne]; [apply N.eqb_refl|].
  apply N.eqb_neq. intros H. apply Hne.
  rewrite <- (ascii_N_embedding a), <- (ascii_N_embedding b). now rewrite H.
Qed.

Lemma Text_startsWith_codeUnits (p s : string) :
  Text_startsWith (codeUnits s) (codeUnits p) = startsWith s p.
Proof.
  unfold startsWith. revert s. induction p as [|a p IH]; intros s;
    [destruct s; reflexivity|].
  destruct s as [|b s]; [reflexivity|].
  rewrite !codeUnits_cons. simpl. rewrite N_of_ascii_eqb, IH.
  destruct (Ascii.eqb_spec a b) as [-> | Hne].
  - destruct (ascii_dec b b); [reflexivity | contradiction].
  - destruct (ascii_dec a b); [contradiction | reflexivity].
Qed.

Lemma isWhiteSpaceUnit_ascii (c : ascii) : isWhiteSpaceUnit (N_of_ascii c) = isWhiteSpace c.
Proof. destruct c as [[] [] [] [] [] [] [] []]; reflexivity. Qed.

Lemma Text_trimStart_codeUnits (s : string) :
  Text_trimStart (codeUnits s) = codeUnits (trimStart s).
Proof.
  induction s as [|c s IH]; [reflexivity|].
  rewrite codeUnits_cons. simpl. rewrite isWhiteSpaceUnit_ascii.
  destruct (isWhiteSpace c); [exact IH | reflexivity].
Qed.

Lemma Text_trimEnd_codeUnits (s : string) :
  Text_trimEnd (codeUnits s) = codeUnits (trimEnd s).
Proof.
  induction s as [|c s IH]; [reflexivity|].
  rewrite codeUnits_cons. simpl. rewrite IH, isWhiteSpaceUnit_ascii.
  destruct (trimEnd s) as [|d t]; [destruct (isWhiteSpace c); reflexivity | reflexivity].
Qed.

Lemma Text_trim_codeUnits (s : string) : Text_trim (codeUnits s) = codeUnits (trim s).
Proof. unfold Text_trim, trim. now rewrite Text_trimStart_codeUnits, Text_trimEnd_codeUnits. Qed.

Lemma asLatin1_codeUnits (s : string) : asLatin1 (codeUnits s) = Some s.
Proof.
  induction s as [|c s IH]; [reflexivity|].
  rewrite codeUnits_cons. simpl.
  rewrite (proj2 (N.ltb_lt _ _) (N_ascii_bounded c)), IH, ascii_N_embedding. reflexivity.
Qed.

Section TextsOfStrings.
Variable nts : number -> string.
Variable env : Env.

Lemma importText_codeUnits (A : Z) (s : string) (w : World) :
  importText nts env A (codeUnits s) w = importBody nts env A s w.
Proof.
  unfold importText, importBody. rewrite Text_trim_codeUnits, asLatin1_codeUnits.
  reflexivity.
Qed.

(** On a text whose code units are all below 256 the handler for every
    text does what [onText] does on the string of these code units. *)
Lemma bot_on_text_codeUnits (A : Z) (s : string) (w : World) :
  bot_on_text nts env A (codeUnits s) w = onText nts env A s w.
Proof.
  unfold bot_on_text, onText, bind.
  destruct (loadWallet A w) as [[[] | e] w0]; [|reflexivity].
  unfold getSession.
  rewrite !Text_startsWith_codeUnits, Text_length_codeUnits.
  destruct (waitingForWalletImport (default emptySession (sessions w0 !! A))
            && (startsWith s "dev" || (80 <? String.length s)%nat)); [|reflexivity].
  unfold tryCatch. rewrite importText_codeUnits. reflexivity.
Qed.

End TextsOfStrings.

(** ** Wallet import from the text of a message *)

Section TextImport.
Variable nts : number -> string.
Variable env : Env.

Lemma sessionSeen_loaded (A : Z) (w : World) (t : nat) (tr : list Event) :
  sessionSeen (mkWorld (wallets w) (states w) (<[A := sessionSeen w A]> (sessions w)) t tr) A
  = sessionSeen w A.
Proof.
  unfold sessionSeen at 1, walletSeen at 1. cbn [sessions wallets].
  rewrite lookup_insert_eq. cbn [default]. unfold sessionSeen. cbn [wallet waitingForWalletImport].
  destruct (walletSeen w A) eqn:Hw; [reflexivity|].
  unfold walletSeen in Hw.
  destruct (wallet (default emptySession (sessions w !! A))); [discriminate|].
  now rewrite Hw.
Qed.

Lemma bot_on_text_unfold (A : Z) (text : Text) (w : World) :
  A <> 0 ->
  let w0 := mkWorld (wallets w) (states w) (<[A := sessionSeen w A]> (sessions w))
                    (tick w) (trace w) in
  bot_on_text nts env A text w
  = if textGate (sessionSeen w A) text then
      tryCatch (importText nts env A text)
        (fun error =>
           log (LogImportError A error) >>
           reply A (ReplyImportError
                      (if String.eqb (message error) EmptyString then "Invalid key or unknown error"%string
                       else message error))) w0
    else if Text_startsWith text (codeUnits "/") then
      match walletSeen w A with
      | None => (Ok tt, emit (EReply A ReplyWalletMissing) w0)
      | Some _ => (Ok tt, w0)
      end
    else (Ok tt, w0).
Proof.
  intros HA w0. unfold bot_on_text. unfold bind at 1. rewrite (loadWallet_session A w HA).
  fold w0. unfold bind at 1, getSession. cbn [fst snd].
  assert (Hs : default emptySession (sessions w0 !! A) = sessionSeen w A).
  { unfold w0. cbn [sessions]. now rewrite lookup_insert_eq. }
  rewrite !Hs. unfold textGate.
  destruct (waitingForWalletImport (sessionSeen w A)
            && (Text_startsWith text (codeUnits "dev") || (80 <? Text_length text)%nat));
    [reflexivity|].
  destruct (Text_startsWith text (codeUnits "/")); [|reflexivity].
  unfold sessionSeen. cbn [wallet]. destruct (walletSeen w A); reflexivity.
Qed.


Lemma importText_rejects (A : Z) (text : Text) (w : World) :
  (forall sk, decodedKey text = Some sk -> length sk <> 64%nat) ->
  importText nts env A text w
  = (Throw (match decodedKey text with
            | None => mkError "Non-base58 character"
            | Some _ => mkError "Invalid private key length (must be 64 bytes)."
            end), w).
Proof.
  intros Hbad. unfold importText, decodedKey in *.
  destruct (asLatin1 (Text_trim text)) as [key|]; [|reflexivity].
  run. unfold bs58_decode. destruct (bs58.decodeUnsafe key) as [sk|]; run; [|reflexivity].
  specialize (Hbad sk eq_refl).
  now rewrite (proj2 (Nat.eqb_neq _ _) Hbad).
Qed.

Lemma importText_stores (A : Z) (text : Text) (w : World) (key : string)
    (sk : list Byte.byte) (pk : string) :
  asLatin1 (Text_trim text) = Some key ->
  bs58.decodeUnsafe key = Some sk ->
  length sk = 64%nat ->
  Keypair_fromSecretKey env sk = Ok pk ->
  let walletData := mkWalletData pk key in
  importText nts env A text w
  = importAnswer nts env A pk
      (setWallets (insert A walletData)
         (setSessions (insert A (mkSession (Some walletData) false)) w)).
Proof.
  intros Hkey Hsk Hlen Hpair walletData. unfold importText.
  rewrite Hkey. run. unfold bs58_decode. rewrite Hsk. run.
  rewrite (proj2 (Nat.eqb_eq _ _) Hlen). cbn [negb]. run. rewrite Hpair.
  reflexivity.
Qed.

Lemma importText_key_refused (A : Z) (text : Text) (w : World) (key : string)
    (sk : list Byte.byte) (e : Error) :
  asLatin1 (Text_trim text) = Some key ->
  bs58.decodeUnsafe key = Some sk ->
  length sk = 64%nat ->
  Keypair_fromSecretKey env sk = Throw e ->
  importText nts env A text w = (Throw e, w).
Proof.
  intros Hkey Hsk Hlen Hpair. unfold importText.
  rewrite Hkey. run. unfold bs58_decode. rewrite Hsk. run.
  rewrite (proj2 (Nat.eqb_eq _ _) Hlen). cbn [negb]. run. now rewrite Hpair.
Qed.


(** A text that passes the test and fails in the [try] block before the
    key is stored. *)
Lemma bot_on_text_thrown (A : Z) (text : Text) (w : World) (error : Error) :
  A <> 0 ->
  textGate (sessionSeen w A) text = true ->
  (forall w0, importText nts env A text w0 = (Throw error, w0)) ->
  bot_on_text nts env A text w
  = (Ok tt, mkWorld (wallets w) (states w) (<[A := sessionSeen w A]> (sessions w)) (tick w)
              (trace w ++ [ELog (LogImportError A error);
                           EReply A (ReplyImportError (importErrorText error))])).
Proof.
  intros HA Hgate Hthrow.
  rewrite (bot_on_text_unfold A text w HA). cbv zeta. rewrite Hgate.
  unfold tryCatch. rewrite Hthrow.
  run. unfold emit, importErrorText. cbn [wallets states sessions tick trace].
  rewrite <- app_assoc. reflexivity.
Qed.

(** A text that does not pass the test of the handler changes no
    registry and draws no answer of the import. *)
Lemma bot_on_text_not_import (A : Z) (text : Text) (w : World) :
  A <> 0 ->
  textGate (sessionSeen w A) text = false ->
  let w' := snd (bot_on_text nts env A text w) in
  fst (bot_on_text nts env A text w) = Ok tt
  /\ wallets w' = wallets w /\ states w' = states w
  /\ sessionSeen w' A = sessionSeen w A
  /\ tick w' = tick w
  /\ (trace w' = trace w \/ trace w' = trace w ++ [EReply A ReplyWalletMissing]).
Proof.
  intros HA Hgate w'. unfold w'.
  rewrite (bot_on_text_unfold A text w HA). cbv zeta. rewrite Hgate.
  destruct (Text_startsWith text (codeUnits "/")); [destruct (walletSeen w A) eqn:Hw|];
    cbn [fst snd]; unfold emit; cbn [wallets states sessions tick trace];
    rewrite sessionSeen_loaded; repeat split; auto.
Qed.

(** A text that passes the test and carries a 64-byte key that
    [Keypair.fromSecretKey] accepts: the record is stored whatever the
    balance read does afterwards. *)
Lemma bot_on_text_imports (A : Z) (text : Text) (w : World) (key : string)
    (sk : list Byte.byte) (pk : string) :
  A <> 0 ->
  textGate (sessionSeen w A) text = true ->
  asLatin1 (Text_trim text) = Some key ->
  bs58.decodeUnsafe key = Some sk ->
  length sk = 64%nat ->
  Keypair_fromSecretKey env sk = Ok pk ->
  let walletData := mkWalletData pk key in
  let w' := snd (bot_on_text nts env A text w) in
  fst (bot_on_text nts env A text w) = Ok tt
  /\ wallets w' = <[A := walletData]> (wallets w)
  /\ states w' = states w
  /\ sessions w' = <[A := mkSession (Some walletData) false]> (sessions w).
Proof.
  intros HA Hgate Hkey Hsk Hlen Hpair walletData w'. unfold w'.
  rewrite (bot_on_text_unfold A text w HA). cbv zeta. rewrite Hgate.
  unfold tryCatch. rewrite (importText_stores A text _ key sk pk Hkey Hsk Hlen Hpair).
  match goal with |- context [importAnswer nts env A pk ?x] =>
    pose proof (importAnswer_sameStores nts env A pk x) as Hsame;
    destruct (importAnswer nts env A pk x) as [[[] | e] w2]
  end; unfold sameStores, setWallets, setSessions in Hsame; simpl in Hsame;
    destruct Hsame as (Hw & Hs & Hss); run; simpl;
    rewrite ?Hw, ?Hs, ?Hss, ?insert_insert_eq; repeat split; reflexivity.
Qed.





End TextImport.

(** ** The first cycle of a new owner *)

Lemma rounded4_zero (b : number) :
  rounded4 b = 0 <-> (magnitude b < 5 # 100000)%Q.
Proof.
  unfold rounded4, roundHalfUp. pose proof (magnitude_nonneg b) as Hb.
  set (x := magnitude b) in *. change (inject_Z (10 ^ Z.of_nat 4)) with 10000%Q.
  pose proof (Qfloor_le (x * 10000 + (1 # 2))) as Hlo.
  pose proof (Qlt_floor (x * 10000 + (1 # 2))) as Hhi.
  split.
  - intros H0. rewrite H0 in Hhi. change (inject_Z (0 + 1)) with 1%Q in Hhi. lra.
  - intros Hx.
    assert (H1 : Qfloor (x * 10000 + (1 # 2)) < 1).
    { rewrite Zlt_Qlt. eapply Qle_lt_trans; [exact Hlo|]. change (inject_Z 1) with 1%Q. lra. }
    assert (H2 : 0 <= Qfloor (x * 10000 + (1 # 2))).
    { change 0 with (Qfloor 0). apply Qfloor_resp_le. lra. }
    lia.
Qed.

Section FirstCycle.
Variable nts : number -> string.
Variable env : Env.

Lemma alertLogic_first (b : number) :
  balanceInRange b = true ->
  alertLogic nts pollInitialState b [] []
  = if rounded4 b =? 0 then EmptyString
    else balanceLine "0.0000" (toFixed nts b 4).
Proof.
  intros Hb. unfold alertLogic.
  assert (Hp : positionsChanged nts pollInitialState [] = false) by reflexivity.
  assert (Hs : signaturesChanged pollInitialState [] = false) by reflexivity.
  rewrite Hp, Hs.
  assert (H0 : toFixed nts (lastBalance pollInitialState) 4 = "0.0000"%string)
    by (vm_compute; reflexivity).
  rewrite H0.
  assert (Hz : balanceInRange (lastBalance pollInitialState) = true) by reflexivity.
  pose proof (balanceChanged_rounded nts pollInitialState b Hz Hb) as Hiff.
  change (rounded4 (lastBalance pollInitialState)) with 0 in Hiff.
  destruct (Z.eqb_spec (rounded4 b) 0) as [Heq | Hne].
  - destruct (balanceChanged nts pollInitialState b); [|reflexivity].
    exfalso. apply (proj1 Hiff eq_refl). now rewrite Heq.
  - rewrite (proj2 Hiff ltac:(congruence)). reflexivity.
Qed.

(** C9 (as amended): the first cycle of a new owner whose positions and
    signatures are empty raises no positions or signatures alert, and
    raises the balance alert exactly when the first balance, rounded to
    4 decimals, is not 0.0000, that is from 0.00005 on. *)
Theorem first_cycle_alert :
  forall (w : World) (A : Z) (walletData : WalletData) (pk : PublicKey) (lamports : number),
    states w !! A = None ->
    bs58.decodeUnsafe (publicKey walletData) = Some pk ->
    length pk = 32%nat ->
    (forall t, getBalance env t Primary pk = Ok lamports) ->
    (forall t, getUserPositions env t pk = Ok []) ->
    (forall t, getSignaturesForAddress env t Primary pk 5 = Ok []) ->
    (forall t text, sendMessage env t A text = Ok tt) ->
    let balance := jsdiv lamports e9 in
    balanceInRange balance = true ->
    let w' := snd (pollOwner nts env (A, walletData) w) in
    let reads := [EGetBalance Primary pk; EGetPositions pk; EGetSignatures Primary pk 5] in
    states w' !! A = Some (mkUserState balance [] [] "devnet" None)
    /\ ((magnitude balance < 5 # 100000)%Q -> trace w' = trace w ++ reads)
    /\ (~ (magnitude balance < 5 # 100000)%Q ->
        trace w' = trace w ++ reads
                   ++ [ESendMessage A
                         (alertMessage (balanceLine "0.0000" (toFixed nts balance 4)))]).
Proof.
  intros w A walletData pk lamports Hnew Hpk Hlen Hbal Hpos Hsig Hsend balance Hb w' reads.
  destruct (pollOwner_succeeding nts env A walletData pk lamports [] [] w
              Hpk Hlen Hbal Hpos Hsig Hsend) as (w1 & Hrun & _ & Hst & Htr).
  unfold w'. rewrite Hrun. cbn [snd].
  assert (Hseen : pollStateSeen w A = pollInitialState)
    by (unfold pollStateSeen; now rewrite Hnew).
  rewrite Hseen in Hst, Htr. fold balance in Hst, Htr.
  rewrite (alertLogic_first balance Hb) in Htr.
  split; [rewrite Hst; apply lookup_insert_eq|].
  pose proof (rounded4_zero balance) as Hzero.
  destruct (Z.eqb_spec (rounded4 balance) 0) as [Heq | Hne].
  - split; [intros _ | intros Hn; exfalso; apply Hn; now apply Hzero].
    rewrite Htr. simpl. reflexivity.
  - split; [intros Hlt; exfalso; apply Hne; now apply Hzero | intros _].
    rewrite Htr.
    assert (Hne' : String.eqb (balanceLine "0.0000" (toFixed nts balance 4)) EmptyString = false)
      by reflexivity.
    rewrite Hne'. reflexivity.
Qed.

End FirstCycle.

(** ** Counterexamples *)

(** C9 as stated fails: one lamport is a balance other than zero, and
    the first cycle sends nothing. *)
Lemma first_cycle_dust_balance_no_alert :
  states oneOwner !! 7 = None
  /\ lastBalance <$> states (snd (poll exactToString dustEnv oneOwner)) !! 7
     = Some (jsdiv (ofZ 1) e9)
  /\ Qle_bool (magnitude (jsdiv (ofZ 1) e9)) 0 = false
  /\ lastPositions <$> states (snd (poll exactToString dustEnv oneOwner)) !! 7 = Some []
  /\ lastSignatures <$> states (snd (poll exactToString dustEnv oneOwner)) !! 7 = Some []
  /\ existsb isSendMessage (trace (snd (poll exactToString dustEnv oneOwner))) = false.
Proof. vm_compute. repeat split; reflexivity. Qed.



(** ** The theorems at concrete inputs *)

(** C3 at two orders of the same old signatures. *)
Lemma signaturesChanged_iff_newSignatures_witness :
  (forall sig, In sig ["a"; "b"]%string <-> In sig ["b"; "a"]%string)
  /\ newSignatures ["a"; "b"]%string ["c"; "a"]%string
     = newSignatures ["b"; "a"]%string ["c"; "a"]%string.
Proof.
  assert (H : forall sig, In sig ["a"; "b"]%string <-> In sig ["b"; "a"]%string)
    by (intros sig; simpl; tauto).
  split; [exact H|].
  exact (proj1 (proj2 signaturesChanged_iff_newSignatures)
               ["a"; "b"]%string ["b"; "a"]%string ["c"; "a"]%string H).
Defined.

Lemma decode_keyA (pk : PublicKey) :
  bs58.decodeUnsafe keyA = Some pk -> pk = addressOf keyA.
Proof. intros H. unfold addressOf. now rewrite H. Qed.

(** C4 at owners 7 and 8 of [twoOwners], where the balance of owner 7
    cannot be read. *)
Lemma poll_isolates_owner_failure_witness :
  wallets twoOwners !! 7 = Some walletA
  /\ (forall pk, bs58.decodeUnsafe (publicKey walletA) = Some pk -> fetchFails testEnv pk)
  /\ (let w' := snd (poll exactToString testEnv twoOwners) in
      states w' !! 7 = Some (pollStateSeen twoOwners 7)
      /\ (is_Some (states twoOwners !! 7) -> states w' !! 7 = states twoOwners !! 7)
      /\ (exists e, In (ELog (LogPollingError 7 e)) (trace w'))
      /\ traceGrows (notSentTo 7) twoOwners w').
Proof.
  assert (H1 : wallets twoOwners !! 7 = Some walletA) by (vm_compute; reflexivity).
  assert (H2 : forall pk, bs58.decodeUnsafe (publicKey walletA) = Some pk ->
                          fetchFails testEnv pk).
  { intros pk Hpk. apply decode_keyA in Hpk. subst pk.
    left. intros t. eexists. vm_compute. reflexivity. }
  split; [exact H1 | split; [exact H2|]].
  exact (proj1 (proj2 (proj2 (poll_isolates_owner_failure exactToString testEnv)))
               twoOwners 7 walletA H1 H2).
Defined.


(** C6 at owner 7 with the endpoints of [testEnv]. *)
Lemma failover_only_for_airdrop_witness :
  exists w' evs,
    request_tokens testEnv 7 oneOwner = (Ok tt, w')
    /\ trace w' = trace oneOwner ++ evs ++ [EReply 7 (ReplyAirdropSuccess "fallbackSignature")]
    /\ airdropRequests evs = [Primary; Primary; Primary; Fallback].
Proof.
  assert (H0 : 7 <> 0) by discriminate.
  assert (H1 : walletSeen oneOwner 7 = Some walletA) by (vm_compute; reflexivity).
  assert (H2 : bs58.decodeUnsafe (publicKey walletA) = Some (addressOf keyA))
    by (vm_compute; reflexivity).
  assert (H3 : length (addressOf keyA) = 32%nat) by (vm_compute; reflexivity).
  assert (H4 : (hourlyLimitSeconds
                <= timeSinceLastFaucet (Date_now testEnv (tick oneOwner))
                     (faucetStateSeen oneOwner 7))%Q)
    by (apply Qle_bool_iff; vm_compute; reflexivity).
  assert (H5 : forall t, requestAirdrop testEnv t Primary (addressOf keyA) 2000000000
                         = Throw (primaryDown t)) by (intros t; reflexivity).
  assert (H6 : requestAirdrop testEnv (tick oneOwner + 3)%nat Fallback (addressOf keyA)
                 2000000000 = Ok "fallbackSignature"%string) by reflexivity.
  assert (H7 : confirmTransaction testEnv (tick oneOwner + 4)%nat Fallback
                 "fallbackSignature" = Ok None) by reflexivity.
  exact (proj1 (failover_only_for_airdrop exactToString testEnv)
               7 oneOwner walletA (addressOf keyA) primaryDown "fallbackSignature"%string
               H0 H1 H2 H3 H4 H5 H6 H7).
Defined.



(** C9 (as amended) at a first balance of one lamport. *)
Lemma first_cycle_alert_witness :
  let balance := jsdiv (ofZ 1) e9 in
  let w' := snd (pollOwner exactToString dustEnv (7, walletA) oneOwner) in
  let reads := [EGetBalance Primary (addressOf keyA); EGetPositions (addressOf keyA);
                EGetSignatures Primary (addressOf keyA) 5] in
  states w' !! 7 = Some (mkUserState balance [] [] "devnet" None)
  /\ ((magnitude balance < 5 # 100000)%Q -> trace w' = trace oneOwner ++ reads)
  /\ (~ (magnitude balance < 5 # 100000)%Q ->
      trace w' = trace oneOwner ++ reads
                 ++ [ESendMessage 7
                       (alertMessage (balanceLine "0.0000" (toFixed exactToString balance 4)))]).
Proof.
  assert (H1 : states oneOwner !! 7 = None) by (vm_compute; reflexivity).
  assert (H2 : bs58.decodeUnsafe (publicKey walletA) = Some (addressOf keyA))
    by (vm_compute; reflexivity).
  assert (H3 : length (addressOf keyA) = 32%nat) by (vm_compute; reflexivity).
  assert (H4 : balanceInRange (jsdiv (ofZ 1) e9) = true) by (vm_compute; reflexivity).
  exact (first_cycle_alert exactToString dustEnv oneOwner 7 walletA (addressOf keyA) (ofZ 1)
           H1 H2 H3 (fun _ => eq_refl) (fun _ => eq_refl) (fun _ => eq_refl)
           (fun _ _ => eq_refl) H4).
Defined.

(** C10 at owners 7 and 8 of [twoOwners]. *)
Lemma other_owners_untouched_witness :
  (wallets (snd (pollOwner exactToString testEnv (7, walletA) twoOwners)) = wallets twoOwners
   /\ states (snd (pollOwner exactToString testEnv (7, walletA) twoOwners)) !! 8
      = states twoOwners !! 8)
  /\ (wallets (snd (request_tokens testEnv 7 twoOwners)) = wallets twoOwners
      /\ states (snd (request_tokens testEnv 7 twoOwners)) !! 8 = states twoOwners !! 8).
Proof.
  assert (H : 8 <> 7) by discriminate.
  exact (other_owners_untouched exactToString testEnv 7 8 walletA twoOwners H).
Defined.

(* ===================================================================== *)
(** * Further properties *)
(* ===================================================================== *)

(** ** The airdrop retry, whatever the endpoint answers *)

Section RetryAnyEndpoint.
Variable env : Env.
Variables (conn : Endpoint) (pk : PublicKey) (lamports retries delayMs : Z).

Lemma airdropOnce_cases (w : World) :
  (exists signature,
      airdropOnce env conn pk lamports w
      = (Ok signature, called (EConfirmTransaction conn signature)
                         (called (ERequestAirdrop conn pk lamports) w))
      /\ airdropConfirmed env conn pk lamports (tick w) signature)
  \/ (exists e w' rest,
         airdropOnce env conn pk lamports w = (Throw e, w')
         /\ airdropFailure env conn pk lamports (tick w) e
         /\ sameStores w w'
         /\ trace w' = trace w ++ ERequestAirdrop conn pk lamports :: rest
         /\ airdropRequests rest = [] /\ sleeps rest = []
         /\ (tick w < tick w' <= tick w + 2)%nat).
Proof.
  unfold airdropOnce, airdropConfirmed, airdropFailure. run.
  destruct (requestAirdrop env (tick w) conn pk lamports) as [signature | e] eqn:Hreq; run.
  - destruct (confirmTransaction env (S (tick w)) conn signature) as [[err|] | e] eqn:Hconf; run.
    + right. do 3 eexists. split; [reflexivity|].
      split; [right; exists signature; split; [reflexivity|]; right; eauto|].
      split; [now repeat split|].
      split; [simpl; rewrite <- app_assoc; reflexivity|]. simpl. repeat split; lia.
    + left. exists signature. now repeat split.
    + right. do 3 eexists. split; [reflexivity|].
      split; [right; exists signature; split; [reflexivity|]; now left|].
      split; [now repeat split|].
      split; [simpl; rewrite <- app_assoc; reflexivity|]. simpl. repeat split; lia.
  - right. exists e, (called (ERequestAirdrop conn pk lamports) w), [].
    split; [reflexivity|]. split; [now left|]. split; [now repeat split|].
    simpl. repeat split; lia.
Qed.

(** What the loop does from attempt [attempt] on, whatever the endpoint
    answers. *)
Lemma airdropLoop_outcome (n : nat) :
  forall (attempt : Z) (w : World),
    attempt + Z.of_nat n = retries ->
    exists r w' evs,
      airdropLoop env conn pk lamports retries delayMs (S n) attempt w = (r, w')
      /\ sameStores w w'
      /\ trace w' = trace w ++ evs
      /\ match r with
         | Ok signature =>
             exists (k t : nat) evs0,
               (k <= n)%nat
               /\ airdropRequests evs = repeat conn (S k)
               /\ sleeps evs = backoffDelays delayMs attempt k
               /\ (tick w <= t)%nat /\ tick w' = S (S t)
               /\ airdropConfirmed env conn pk lamports t signature
               /\ evs = evs0 ++ [ERequestAirdrop conn pk lamports;
                                 EConfirmTransaction conn signature]
         | Throw e =>
             airdropRequests evs = repeat conn (S n)
             /\ sleeps evs = backoffDelays delayMs attempt n
             /\ exists t, (tick w <= t < tick w')%nat
                          /\ airdropFailure env conn pk lamports t e
         end.
Proof.
  induction n as [|n IH]; intros attempt w Hn; rewrite airdropLoop_S; unfold tryCatch.
  - destruct (airdropOnce_cases w)
      as [(signature & -> & Hc) | (e & w1 & rest & -> & Hf & Hst & Htr & Hr & Hs & Ht)].
    + do 3 eexists. split; [reflexivity|]. split; [now repeat split|].
      split; [simpl; rewrite <- app_assoc; reflexivity|].
      exists O, (tick w), []. repeat split; try reflexivity; try lia; apply Hc.
    + run. assert ((attempt =? retries) = true) as -> by lia. run.
      do 3 eexists. split; [reflexivity|].
      split; [destruct Hst as (? & ? & ?); now repeat split|].
      split; [simpl; rewrite Htr, <- app_assoc; reflexivity|].
      simpl. rewrite airdropRequests_app, sleeps_app, Hr, Hs. simpl.
      repeat split. exists (tick w). split; [lia | exact Hf].
  - destruct (airdropOnce_cases w)
      as [(signature & -> & Hc) | (e & w1 & rest & -> & Hf & Hst & Htr & Hr & Hs & Ht)].
    + do 3 eexists. split; [reflexivity|]. split; [now repeat split|].
      split; [simpl; rewrite <- app_assoc; reflexivity|].
      exists O, (tick w), []. repeat split; try reflexivity; try lia; apply Hc.
    + run. assert ((attempt =? retries) = false) as -> by lia. run.
      match goal with |- context [airdropLoop _ _ _ _ _ _ _ _ ?w2] =>
        destruct (IH (attempt + 1) w2 ltac:(lia)) as (r & w' & evs & Hrun & Hst' & Htr' & Hout);
        set (w0 := w2) in *
      end.
      rewrite Hrun. exists r, w'.
      exists (ERequestAirdrop conn pk lamports :: rest
              ++ [ELog (LogAirdropAttempt attempt conn e);
                  ESleep (delayMs * 2 ^ (attempt - 1))] ++ evs).
      split; [reflexivity|].
      split.
      { destruct Hst as (? & ? & ?), Hst' as (? & ? & ?). unfold w0 in *. simpl in *.
        repeat split; congruence. }
      split.
      { rewrite Htr'. unfold w0. simpl. rewrite Htr, <- !app_assoc. reflexivity. }
      assert (Hreqs : forall l,
                 airdropRequests (ERequestAirdrop conn pk lamports :: rest
                                  ++ [ELog (LogAirdropAttempt attempt conn e);
                                      ESleep (delayMs * 2 ^ (attempt - 1))] ++ l)
                 = conn :: airdropRequests l).
      { intros l. simpl. rewrite airdropRequests_app, Hr. reflexivity. }
      assert (Hsleeps : forall l,
                 sleeps (ERequestAirdrop conn pk lamports :: rest
                         ++ [ELog (LogAirdropAttempt attempt conn e);
                             ESleep (delayMs * 2 ^ (attempt - 1))] ++ l)
                 = delayMs * 2 ^ (attempt - 1) :: sleeps l).
      { intros l. simpl. rewrite sleeps_app, Hs. reflexivity. }
      assert (Htick0 : tick w0 = tick w1) by reflexivity.
      destruct r as [signature | e'].
      * destruct Hout as (k & t & evs0 & Hk & Hreq & Hsl & Ht1 & Ht2 & Hc & Hevs).
        exists (S k), t,
          (ERequestAirdrop conn pk lamports :: rest
           ++ [ELog (LogAirdropAttempt attempt conn e);
               ESleep (delayMs * 2 ^ (attempt - 1))] ++ evs0).
        rewrite Hreqs, Hsleeps, Hreq, Hsl, backoffDelays_S.
        repeat split; try reflexivity; try lia; try apply Hc.
        rewrite Hevs. simpl. rewrite <- !app_assoc. reflexivity.
      * destruct Hout as (Hreq & Hsl & t & Ht1 & Hf').
        rewrite Hreqs, Hsleeps, Hreq, Hsl, backoffDelays_S.
        repeat split. exists t. split; [lia | exact Hf'].
Qed.

Lemma backoffDelays_delaysBefore (k : nat) :
  backoffDelays delayMs 1 k = delaysBefore delayMs (S k).
Proof.
  unfold delaysBefore. replace (S k - 1)%nat with k by lia. apply backoffDelays_attempts.
Qed.

Lemma requestAirdropWithRetry_no_budget (w : World) :
  retries <= 0 ->
  requestAirdropWithRetry env conn pk lamports retries delayMs w
  = (Throw (mkError "Airdrop failed after all retries."), w).
Proof.
  intros H. unfold requestAirdropWithRetry.
  replace (Z.to_nat retries) with O by lia. reflexivity.
Qed.

Lemma requestAirdropWithRetry_outcome (w : World) :
  1 <= retries ->
  exists r w' evs,
    requestAirdropWithRetry env conn pk lamports retries delayMs w = (r, w')
    /\ sameStores w w'
    /\ trace w' = trace w ++ evs
    /\ match r with
       | Ok signature =>
           exists (k t : nat) evs0,
             (S k <= Z.to_nat retries)%nat
             /\ airdropRequests evs = repeat conn (S k)
             /\ sleeps evs = delaysBefore delayMs (S k)
             /\ (tick w <= t)%nat /\ tick w' = S (S t)
             /\ airdropConfirmed env conn pk lamports t signature
             /\ evs = evs0 ++ [ERequestAirdrop conn pk lamports;
                               EConfirmTransaction conn signature]
       | Throw e =>
           airdropRequests evs = repeat conn (Z.to_nat retries)
           /\ sleeps evs = delaysBefore delayMs (Z.to_nat retries)
           /\ exists t, (tick w <= t < tick w')%nat
                        /\ airdropFailure env conn pk lamports t e
       end.
Proof.
  intros Hret. unfold requestAirdropWithRetry.
  destruct (Z.to_nat retries) as [|n] eqn:Hn; [lia|].
  destruct (airdropLoop_outcome n 1 w ltac:(lia)) as (r & w' & evs & Hrun & Hst & Htr & Hout).
  exists r, w', evs. split; [exact Hrun|]. split; [exact Hst|]. split; [exact Htr|].
  destruct r as [signature | e].
  - destruct Hout as (k & t & evs0 & Hk & Hreq & Hsl & Ht1 & Ht2 & Hc & Hevs).
    exists k, t, evs0. rewrite <- backoffDelays_delaysBefore.
    repeat split; try assumption; try lia; apply Hc.
  - destruct Hout as (Hreq & Hsl & Hf). rewrite <- backoffDelays_delaysBefore. auto.
Qed.

(** X1: whatever the endpoint answers, [requestAirdropWithRetry] makes at
    most [retries] requests, all to the endpoint it was given, sleeps the
    doubling delays between them and no other, and leaves the registries
    alone; when it throws, it has made exactly [retries] requests. *)
Theorem airdrop_attempts_bounded (w : World) :
  let run := requestAirdropWithRetry env conn pk lamports retries delayMs w in
  exists (n : nat) evs,
    trace (snd run) = trace w ++ evs
    /\ airdropRequests evs = repeat conn n
    /\ (n <= Z.to_nat retries)%nat
    /\ sleeps evs = delaysBefore delayMs n
    /\ sameStores w (snd run)
    /\ (forall e, fst run = Throw e -> n = Z.to_nat retries).
Proof.
  intros run. unfold run.
  destruct (Z_le_gt_dec retries 0) as [Hle | Hgt].
  - rewrite (requestAirdropWithRetry_no_budget w Hle). exists O, []. simpl.
    rewrite app_nil_r. repeat split; try reflexivity; try lia.
  - destruct (requestAirdropWithRetry_outcome w ltac:(lia))
      as (r & w' & evs & -> & Hst & Htr & Hout). simpl.
    destruct r as [signature | e].
    + destruct Hout as (k & t & evs0 & Hk & Hreq & Hsl & _).
      exists (S k), evs. repeat split; try assumption; try apply Hst. discriminate.
    + destruct Hout as (Hreq & Hsl & _).
      exists (Z.to_nat retries), evs. repeat split; try assumption; try apply Hst. lia.
Qed.

(** X2: a signature that [requestAirdropWithRetry] returns is the answer
    of a request of this run whose confirmation came back without an
    error; that request and that confirmation are the last two calls of
    the run. *)
Theorem airdrop_success_confirmed (w : World) (signature : string) :
  let run := requestAirdropWithRetry env conn pk lamports retries delayMs w in
  fst run = Ok signature ->
  exists (t : nat) evs,
    (tick w <= t)%nat
    /\ tick (snd run) = S (S t)
    /\ requestAirdrop env t conn pk lamports = Ok signature
    /\ confirmTransaction env (S t) conn signature = Ok None
    /\ trace (snd run) = trace w ++ evs ++ [ERequestAirdrop conn pk lamports;
                                           EConfirmTransaction conn signature].
Proof.
  intros run. unfold run.
  destruct (Z_le_gt_dec retries 0) as [Hle | Hgt].
  - rewrite (requestAirdropWithRetry_no_budget w Hle). discriminate.
  - destruct (requestAirdropWithRetry_outcome w ltac:(lia))
      as (r & w' & evs & -> & Hst & Htr & Hout). simpl.
    intros ->. destruct Hout as (k & t & evs0 & Hk & Hreq & Hsl & Ht1 & Ht2 & Hc & Hevs).
    exists t, evs0. rewrite Htr, Hevs. repeat split; try assumption; apply Hc.
Qed.

(** X3: with a budget of zero or less, [requestAirdropWithRetry] makes no
    request and throws 'Airdrop failed after all retries.'; with a budget
    of one or more, the error it throws is the error of an attempt of this
    run: a refused request, a refused confirmation, or a confirmation
    that carries an error. *)
Theorem airdrop_error_provenance (w : World) :
  let run := requestAirdropWithRetry env conn pk lamports retries delayMs w in
  (retries <= 0 -> run = (Throw (mkError "Airdrop failed after all retries."), w))
  /\ (1 <= retries ->
      forall e, fst run = Throw e ->
                exists t, (tick w <= t < tick (snd run))%nat
                          /\ airdropFailure env conn pk lamports t e).
Proof.
  intros run. unfold run. split.
  - apply requestAirdropWithRetry_no_budget.
  - intros Hret e.
    destruct (requestAirdropWithRetry_outcome w Hret)
      as (r & w' & evs & -> & Hst & Htr & Hout). simpl.
    intros ->. apply Hout.
Qed.

End RetryAnyEndpoint.

(** ** The poll, whatever the services answer *)

Lemma pollRetry_remote {A : Type} (op : M A) (ev : Event) (g : nat -> Result A)
    (current : A) (w : World) :
  (forall w0, op w0 = (g (tick w0), called ev w0)) ->
  pollRetry op 3 0 current w
  = match g (tick w) with
    | Ok v => (Ok v, called ev w)
    | Throw _ =>
        match g (S (tick w)) with
        | Ok v => (Ok v, called ev (emit (ESleep 2000) (called ev w)))
        | Throw _ =>
            (g (S (S (tick w))),
             called ev (emit (ESleep 2000) (called ev (emit (ESleep 2000) (called ev w)))))
        end
    end.
Proof.
  intros Hop. cbn [pollRetry]. unfold tryCatch. run.
  change (0 + 1 + 1 =? 2) with true. change (0 + 1 =? 2) with false.
  change (0 =? 2) with false.
  rewrite Hop. destruct (g (tick w)) as [v | e]; [reflexivity|]. run.
  rewrite Hop. cbn [tick called emit]. destruct (g (S (tick w))) as [v | e1]; [reflexivity|]. run.
  rewrite Hop. cbn [tick called emit]. destruct (g (S (S (tick w)))); reflexivity.
Qed.

(** The loop of three attempts around a remote read: the value it yields
    is an answer given during the loop, never the value held before. *)
Lemma pollRetry_remote_outcome {A : Type} (op : M A) (ev : Event) (g : nat -> Result A)
    (current : A) (w : World) :
  (forall w0, op w0 = (g (tick w0), called ev w0)) ->
  exists r w' evs,
    pollRetry op 3 0 current w = (r, w')
    /\ sameStores w w'
    /\ trace w' = trace w ++ evs
    /\ Forall (fun e => e = ev \/ e = ESleep 2000) evs
    /\ (tick w < tick w' <= tick w + 3)%nat
    /\ match r with
       | Ok v => exists t, (tick w <= t < tick w')%nat /\ g t = Ok v
       | Throw e => tick w' = (tick w + 3)%nat /\ g (tick w + 2)%nat = Throw e
                    /\ forall t, (tick w <= t < tick w')%nat -> exists e', g t = Throw e'
       end.
Proof.
  intros Hop. rewrite (pollRetry_remote op ev g current w Hop).
  destruct (g (tick w)) as [v | e0] eqn:H0.
  { exists (Ok v), (called ev w), [ev]. simpl.
    repeat split; auto; try lia. exists (tick w). split; [lia | exact H0]. }
  destruct (g (S (tick w))) as [v | e1] eqn:H1.
  { exists (Ok v), (called ev (emit (ESleep 2000) (called ev w))), [ev; ESleep 2000; ev].
    simpl. rewrite <- !app_assoc. repeat split; auto 6; try lia.
    exists (S (tick w)). split; [lia | exact H1]. }
  exists (g (S (S (tick w)))),
    (called ev (emit (ESleep 2000) (called ev (emit (ESleep 2000) (called ev w))))),
    [ev; ESleep 2000; ev; ESleep 2000; ev].
  simpl. rewrite <- !app_assoc. repeat split; auto 8; try lia.
  destruct (g (S (S (tick w)))) as [v | e2] eqn:H2.
  - exists (S (S (tick w))). split; [lia | exact H2].
  - replace (tick w + 2)%nat with (S (S (tick w))) by lia.
    repeat split; try lia; try assumption.
    intros t Ht.
    assert (t = tick w \/ t = S (tick w) \/ t = S (S (tick w))) as [-> | [-> | ->]] by lia;
      eauto.
Qed.

Section PollAnyAnswers.
Variable nts : number -> string.
Variable env : Env.

Lemma fetchBalance_run (pk : PublicKey) (w : World) :
  fetchBalance env pk w
  = (match getBalance env (tick w) Primary pk with
     | Ok lamports => Ok (jsdiv lamports e9)
     | Throw e => Throw e
     end, called (EGetBalance Primary pk) w).
Proof.
  unfold fetchBalance. run. destruct (getBalance env (tick w) Primary pk); reflexivity.
Qed.

Lemma fetchSignatures_run (pk : PublicKey) (w : World) :
  fetchSignatures env pk w
  = (getSignaturesForAddress env (tick w) Primary pk 5, called (EGetSignatures Primary pk 5) w).
Proof. reflexivity. Qed.

(** The [try] block of an owner, whatever the services answer: it throws
    and leaves the registries, or it writes a snapshot made of three
    answers of this very run. *)
Lemma pollBody_outcome (A : Z) (walletData : WalletData) (w : World) (st : UserState) :
  states w !! A = Some st ->
  exists r w',
    pollBody nts env A walletData w = (r, w')
    /\ wallets w' = wallets w /\ sessions w' = sessions w
    /\ match r with
       | Throw _ => states w' = states w
       | Ok _ =>
           exists (pk : PublicKey) (t1 t2 t3 : nat) lamports positions signatures,
             bs58.decodeUnsafe (publicKey walletData) = Some pk
             /\ (tick w <= t1 < t2)%nat /\ (t2 < t3 < tick w')%nat
             /\ getBalance env t1 Primary pk = Ok lamports
             /\ getUserPositions env t2 pk = Ok positions
             /\ getSignaturesForAddress env t3 Primary pk 5 = Ok signatures
             /\ states w'
                = <[A := mkUserState (jsdiv lamports e9) positions signatures
                          (network st) (lastFaucetTime st)]> (states w)
       end.
Proof.
  intros Hst. unfold pollBody. unfold bind at 1. unfold get at 1. cbv beta iota. rewrite Hst.
  destruct (PublicKey_new_cases (publicKey walletData)) as [[e He] | (pk & Hpk & _ & Hok)].
  { unfold bind. rewrite He. exists (Throw e), w. auto. }
  unfold bind at 1. rewrite Hok.
  destruct (pollRetry_remote_outcome (fetchBalance env pk) (EGetBalance Primary pk)
              (fun t => match getBalance env t Primary pk with
                        | Ok lamports => Ok (jsdiv lamports e9)
                        | Throw e => Throw e
                        end)
              (lastBalance st) w (fetchBalance_run pk))
    as (r1 & w1 & evs1 & Hrun1 & (Hw1 & Hs1 & Hss1) & _ & _ & Ht1 & Hout1).
  unfold bind at 1. rewrite Hrun1.
  destruct r1 as [currentBalance | e1]; [|exists (Throw e1), w1; auto].
  destruct Hout1 as (t1 & Ht1' & Hb).
  destruct (getBalance env t1 Primary pk) as [lamports|] eqn:Hbal; [|discriminate].
  injection Hb as <-.
  unfold bind at 1. unfold DlmmService_getPositions, tryCatch, remote.
  destruct (getUserPositions env (tick w1) pk) as [positions | e2] eqn:Hpos.
  2:{ eexists (Throw _), _. split; [reflexivity|]. simpl. auto. }
  set (w2 := called (EGetPositions pk) w1).
  destruct (pollRetry_remote_outcome (fetchSignatures env pk) (EGetSignatures Primary pk 5)
              (fun t => getSignaturesForAddress env t Primary pk 5)
              (lastSignatures st) w2 (fetchSignatures_run pk))
    as (r3 & w3 & evs3 & Hrun3 & (Hw3 & Hs3 & Hss3) & _ & _ & Ht3 & Hout3).
  unfold bind at 1. rewrite Hrun3.
  destruct r3 as [signatures | e3].
  2:{ exists (Throw e3), w3. split; [reflexivity|]. unfold w2 in *. simpl in *.
      repeat split; congruence. }
  destruct Hout3 as (t3 & Ht3' & Hsig).
  set (alert := alertLogic nts st (jsdiv lamports e9) positions signatures).
  assert (Hfinal : forall w4, wallets w4 = wallets w -> sessions w4 = sessions w ->
                              states w4 = states w -> (tick w3 <= tick w4)%nat ->
            let w' := setStates (insert A (mkUserState (jsdiv lamports e9) positions signatures
                                             (network st) (lastFaucetTime st))) w4 in
            wallets w' = wallets w /\ sessions w' = sessions w
            /\ exists (pk0 : PublicKey) (t1 t2 t3 : nat) lamports0 positions0 signatures0,
                 bs58.decodeUnsafe (publicKey walletData) = Some pk0
                 /\ (tick w <= t1 < t2)%nat /\ (t2 < t3 < tick w')%nat
                 /\ getBalance env t1 Primary pk0 = Ok lamports0
                 /\ getUserPositions env t2 pk0 = Ok positions0
                 /\ getSignaturesForAddress env t3 Primary pk0 5 = Ok signatures0
                 /\ states w'
                    = <[A := mkUserState (jsdiv lamports0 e9) positions0 signatures0
                              (network st) (lastFaucetTime st)]> (states w)).
  { intros w4 H4w H4ss H4s H4t w'. unfold w'. simpl.
    split; [exact H4w|]. split; [exact H4ss|].
    exists pk, t1, (tick w1), t3, lamports, positions, signatures.
    unfold w2 in *. simpl in *. rewrite H4s.
    repeat split; try assumption; try lia. }
  destruct (String.eqb alert EmptyString).
  - run. eexists (Ok tt), _. split; [reflexivity|].
    apply Hfinal; unfold w2 in *; simpl in *; try congruence; lia.
  - run. destruct (sendMessage env (tick w3) A (alertMessage alert)) as [[] | e4].
    + run. eexists (Ok tt), _. split; [reflexivity|].
      apply Hfinal; unfold w2 in *; simpl in *; try congruence; lia.
    + eexists (Throw e4), _. split; [reflexivity|]. unfold w2 in *. simpl in *.
      repeat split; congruence.
Qed.

Lemma withInitialState_tick (A : Z) (w : World) : tick (withInitialState A w) = tick w.
Proof. unfold withInitialState. destruct (states w !! A); reflexivity. Qed.

Lemma withInitialState_keeps (A : Z) (w : World) :
  wallets (withInitialState A w) = wallets w /\ sessions (withInitialState A w) = sessions w.
Proof. unfold withInitialState. destruct (states w !! A); split; reflexivity. Qed.

Lemma withInitialState_insert (A : Z) (w : World) (st : UserState) :
  <[A := st]> (states (withInitialState A w)) = <[A := st]> (states w).
Proof.
  unfold withInitialState. destruct (states w !! A); [reflexivity|].
  simpl. apply insert_insert_eq.
Qed.

(** One iteration, whatever the services answer. *)
Lemma pollOwner_outcome (A : Z) (walletData : WalletData) (w : World) :
  let w' := snd (pollOwner nts env (A, walletData) w) in
  wallets w' = wallets w /\ sessions w' = sessions w
  /\ (states w' = states (withInitialState A w)
      \/ exists pk, bs58.decodeUnsafe (publicKey walletData) = Some pk
                    /\ freshSnapshot env A pk w w').
Proof.
  intros w'. unfold w'. rewrite pollOwner_unfold. unfold tryCatch.
  destruct (pollBody_outcome A walletData (withInitialState A w) (pollStateSeen w A)
              (withInitialState_lookup A w))
    as (r & w1 & Hrun & Hw & Hss & Hout).
  destruct (withInitialState_keeps A w) as [Hw0 Hss0].
  rewrite Hrun. destruct r as [[] | e]; simpl.
  - split; [congruence|]. split; [congruence|]. right.
    destruct Hout as (pk & t1 & t2 & t3 & lamports & positions & signatures
                      & Hpk & Ht1 & Ht3 & Hb & Hp & Hs & Hst).
    exists pk. split; [exact Hpk|].
    exists t1, t2, t3, lamports, positions, signatures.
    rewrite withInitialState_tick in Ht1. rewrite withInitialState_insert in Hst.
    repeat split; try assumption; lia.
  - split; [congruence|]. split; [congruence|]. left. exact Hout.
Qed.

Lemma pollKeeps_refl (w : World) : pollKeeps w w.
Proof. repeat split. eauto. Qed.

Lemma pollKeeps_trans (a b c : World) : pollKeeps a b -> pollKeeps b c -> pollKeeps a c.
Proof.
  intros (Hw & Hss & Hst) (Hw' & Hss' & Hst'). split; [congruence|]. split; [congruence|].
  intros B st HB. destruct (Hst B st HB) as (st1 & H1 & Hn1 & Hf1).
  destruct (Hst' B st1 H1) as (st2 & H2 & Hn2 & Hf2).
  exists st2. repeat split; congruence.
Qed.

Lemma pollOwner_pollKeeps (A : Z) (walletData : WalletData) (w : World) :
  pollKeeps w (snd (pollOwner nts env (A, walletData) w)).
Proof.
  destruct (pollOwner_outcome A walletData w) as (Hw & Hss & Hout).
  split; [exact Hw|]. split; [exact Hss|]. intros B st HB.
  destruct Hout as [Hsame | (pk & _ & t1 & t2 & t3 & lamports & positions & signatures
                             & _ & _ & _ & _ & _ & Hst)].
  - rewrite Hsame. unfold withInitialState. destruct (states w !! A) eqn:HA.
    + eauto.
    + simpl. destruct (decide (B = A)) as [-> | Hne]; [congruence|].
      rewrite lookup_insert_ne by congruence. eauto.
  - rewrite Hst. destruct (decide (B = A)) as [-> | Hne].
    + rewrite lookup_insert_eq. unfold pollStateSeen. rewrite HB. simpl. eauto.
    + rewrite lookup_insert_ne by congruence. eauto.
Qed.

Lemma pollOwner_registers (A : Z) (walletData : WalletData) (w : World) :
  is_Some (states (snd (pollOwner nts env (A, walletData) w)) !! A).
Proof.
  destruct (pollOwner_outcome A walletData w) as (_ & _ & [Hsame | (pk & _ & Hfresh)]).
  - rewrite Hsame, withInitialState_lookup. eauto.
  - destruct Hfresh as (t1 & t2 & t3 & lamports & positions & signatures
                        & _ & _ & _ & _ & _ & Hst).
    rewrite Hst, lookup_insert_eq. eauto.
Qed.

Lemma poll_pollKeeps (w : World) : pollKeeps w (snd (poll nts env w)).
Proof.
  rewrite poll_unfold.
  apply (forEach_keeps (pollOwner nts env) (pollOwner_Ok nts env) (fun w1 => pollKeeps w w1));
    [|apply pollKeeps_refl].
  intros [A wd] w1 _ Hw1. eapply pollKeeps_trans; [exact Hw1|]. apply pollOwner_pollKeeps.
Qed.

(** X4: whatever the services answer, a cycle of the poll leaves the
    wallet registry and the sessions as they are, gives every registered
    owner a snapshot, leaves the snapshot of everybody who is not
    registered untouched, and keeps the network and the time of the last
    faucet grant of every snapshot that exists. *)
Theorem poll_cycle_invariants (w : World) :
  let w' := snd (poll nts env w) in
  wallets w' = wallets w
  /\ sessions w' = sessions w
  /\ (forall A, is_Some (wallets w !! A) -> is_Some (states w' !! A))
  /\ (forall B, wallets w !! B = None -> states w' !! B = states w !! B)
  /\ (forall B st, states w !! B = Some st ->
        exists st', states w' !! B = Some st'
                    /\ network st' = network st
                    /\ lastFaucetTime st' = lastFaucetTime st).
Proof.
  intros w'. unfold w'.
  destruct (poll_pollKeeps w) as (Hw & Hss & Hst).
  split; [exact Hw|]. split; [exact Hss|]. split; [|split; [|exact Hst]].
  - intros A [wd HA]. rewrite poll_unfold.
    apply (forEach_at (pollOwner nts env) (pollOwner_Ok nts env)
             (fun _ => True) (fun w1 => is_Some (states w1 !! A))
             (Object_entries w) (A, wd)); auto.
    + now apply In_Object_entries.
    + intros w0 _. apply pollOwner_registers.
    + intros [B wd'] w0 _ _ [st Hs].
      destruct (pollOwner_pollKeeps B wd' w0) as (_ & _ & Hk).
      destruct (Hk A st Hs) as (st' & -> & _). eauto.
    + intros w0 _. apply pollOwner_registers.
  - intros B HB. rewrite poll_unfold.
    apply (forEach_keeps (pollOwner nts env) (pollOwner_Ok nts env)
             (fun w1 => states w1 !! B = states w !! B)); [|reflexivity].
    intros [A wd] w1 Hin Hw1. rewrite <- Hw1.
    apply In_Object_entries in Hin.
    apply (pollOwner_other nts env B A wd w1). congruence.
Qed.

Lemma pollRetry_remote_shape {A : Type} (op : M A) (ev : Event) (g : nat -> Result A)
    (current : A) (w : World) :
  (forall w0, op w0 = (g (tick w0), called ev w0)) ->
  exists (k : nat),
    (k <= 2)%nat
    /\ fst (pollRetry op 3 0 current w) = g (tick w + k)%nat
    /\ trace (snd (pollRetry op 3 0 current w)) = trace w ++ retriedRead ev k
    /\ tick (snd (pollRetry op 3 0 current w)) = (tick w + S k)%nat
    /\ sameStores w (snd (pollRetry op 3 0 current w))
    /\ (forall j, (j < k)%nat -> exists e, g (tick w + j)%nat = Throw e)
    /\ ((k < 2)%nat -> exists v, g (tick w + k)%nat = Ok v).
Proof.
  intros Hop. rewrite (pollRetry_remote op ev g current w Hop).
  destruct (g (tick w)) as [v | e0] eqn:H0.
  { exists O. rewrite Nat.add_0_r, H0. cbn [fst snd trace tick called].
    split; [lia|]. split; [reflexivity|]. split; [reflexivity|]. split; [lia|].
    split; [now repeat split|]. split; [intros j Hj; lia | eauto]. }
  destruct (g (S (tick w))) as [v | e1] eqn:H1.
  { exists 1%nat. replace (tick w + 1)%nat with (S (tick w)) by lia. rewrite H1.
    cbn [fst snd trace tick called emit].
    split; [lia|]. split; [reflexivity|].
    split; [rewrite <- !app_assoc; reflexivity|]. split; [lia|].
    split; [now repeat split|]. split; [|eauto].
    intros j Hj. assert (j = O) as -> by lia. rewrite Nat.add_0_r. eauto. }
  exists 2%nat. replace (tick w + 2)%nat with (S (S (tick w))) by lia.
  cbn [fst snd trace tick called emit].
  split; [lia|]. split; [reflexivity|].
  split; [rewrite <- !app_assoc; reflexivity|]. split; [lia|].
  split; [now repeat split|]. split; [|lia].
  intros j Hj. assert (j = O \/ j = 1%nat) as [-> | ->] by lia.
  - rewrite Nat.add_0_r. eauto.
  - replace (tick w + 1)%nat with (S (tick w)) by lia. eauto.
Qed.

(** X5: whatever the endpoint answers, each of the two retried reads of
    the poll is made at most three times with a pause of 2000 before each
    repetition; it yields the answer of the first call that succeeds, and
    the error of the third call when all three fail.  The value the
    variable held before the loop plays no part. *)
Theorem poll_reads_retry_any_answers (pk : PublicKey) (w : World) :
  (forall current,
     let run := pollRetry (fetchBalance env pk) 3 0 current w in
     exists (k : nat),
       (k <= 2)%nat
       /\ fst run = match getBalance env (tick w + k)%nat Primary pk with
                    | Ok lamports => Ok (jsdiv lamports e9)
                    | Throw e => Throw e
                    end
       /\ trace (snd run) = trace w ++ retriedRead (EGetBalance Primary pk) k
       /\ (forall j, (j < k)%nat ->
             exists e, getBalance env (tick w + j)%nat Primary pk = Throw e)
       /\ ((k < 2)%nat -> exists v, fst run = Ok v))
  /\ (forall current,
        let run := pollRetry (fetchSignatures env pk) 3 0 current w in
        exists (k : nat),
          (k <= 2)%nat
          /\ fst run = getSignaturesForAddress env (tick w + k)%nat Primary pk 5
          /\ trace (snd run) = trace w ++ retriedRead (EGetSignatures Primary pk 5) k
          /\ (forall j, (j < k)%nat ->
                exists e, getSignaturesForAddress env (tick w + j)%nat Primary pk 5 = Throw e)
          /\ ((k < 2)%nat -> exists v, fst run = Ok v)).
Proof.
  split; intros current run; unfold run.
  - destruct (pollRetry_remote_shape (fetchBalance env pk) (EGetBalance Primary pk)
                (fun t => match getBalance env t Primary pk with
                          | Ok lamports => Ok (jsdiv lamports e9)
                          | Throw e => Throw e
                          end)
                current w (fetchBalance_run pk))
      as (k & Hk & Hres & Htr & _ & _ & Hfail & Hok).
    exists k. split; [exact Hk|]. split; [exact Hres|]. split; [exact Htr|]. split.
    + intros j Hj. destruct (Hfail j Hj) as [e He].
      destruct (getBalance env (tick w + j)%nat Primary pk); [discriminate | eauto].
    + intros Hlt. rewrite Hres. apply Hok. exact Hlt.
  - destruct (pollRetry_remote_shape (fetchSignatures env pk) (EGetSignatures Primary pk 5)
                (fun t => getSignaturesForAddress env t Primary pk 5)
                current w (fetchSignatures_run pk))
      as (k & Hk & Hres & Htr & _ & _ & Hfail & Hok).
    exists k. split; [exact Hk|]. split; [exact Hres|]. split; [exact Htr|].
    split; [exact Hfail|]. intros Hlt. rewrite Hres. apply Hok. exact Hlt.
Qed.

(** X6: after one iteration of the poll, the snapshot of the owner is
    the one the iteration found, or it is made of a balance, positions and
    signatures that were all three answered during this iteration, in
    this order; no snapshot mixes old and new readings. *)
Theorem poll_snapshot_fresh_or_kept (A : Z) (walletData : WalletData) (w : World) :
  let w' := snd (pollOwner nts env (A, walletData) w) in
  states w' !! A = Some (pollStateSeen w A)
  \/ exists (pk : PublicKey) (t1 t2 t3 : nat) lamports positions signatures,
       bs58.decodeUnsafe (publicKey walletData) = Some pk
       /\ (tick w <= t1 < t2)%nat /\ (t2 < t3 < tick w')%nat
       /\ getBalance env t1 Primary pk = Ok lamports
       /\ getUserPositions env t2 pk = Ok positions
       /\ getSignaturesForAddress env t3 Primary pk 5 = Ok signatures
       /\ states w' !! A
          = Some (mkUserState (jsdiv lamports e9) positions signatures
                    (network (pollStateSeen w A)) (lastFaucetTime (pollStateSeen w A))).
Proof.
  intros w'. unfold w'.
  destruct (pollOwner_outcome A walletData w) as (_ & _ & [Hsame | (pk & Hpk & Hfresh)]).
  - left. rewrite Hsame. apply withInitialState_lookup.
  - right. destruct Hfresh as (t1 & t2 & t3 & lamports & positions & signatures
                               & Ht1 & Ht3 & Hb & Hp & Hs & Hst).
    exists pk, t1, t2, t3, lamports, positions, signatures.
    rewrite Hst, lookup_insert_eq. repeat split; try assumption; lia.
Qed.

End PollAnyAnswers.

(** ** The faucet, whatever the endpoints answer *)

Section FaucetAnyEndpoint.
Variable env : Env.

(** The airdrop with failover, whatever the endpoints answer. *)
Lemma airdropWithFailover_outcome (pk : PublicKey) (w : World) :
  exists r w' evs (p f : nat),
    airdropWithFailover env pk w = (r, w')
    /\ sameStores w w'
    /\ trace w' = trace w ++ evs
    /\ airdropRequests evs = repeat Primary p ++ repeat Fallback f
    /\ (1 <= p <= 3)%nat /\ (f <= 3)%nat /\ (f <> O -> p = 3%nat)
    /\ match r with
       | Ok signature =>
           exists (c : Endpoint) (t : nat),
             (tick w <= t < tick w')%nat
             /\ airdropConfirmed env c pk 2000000000 t signature
             /\ (c = Fallback <-> f <> O)
       | Throw e =>
           p = 3%nat /\ f = 3%nat
           /\ exists t, (tick w <= t < tick w')%nat
                        /\ airdropFailure env Fallback pk 2000000000 t e
       end.
Proof.
  unfold airdropWithFailover, tryCatch, requestAirdropWithRetry_default.
  destruct (requestAirdropWithRetry_outcome env Primary pk 2000000000 3 2000 w ltac:(lia))
    as (r1 & w1 & evs1 & Hrun1 & Hst1 & Htr1 & Hout1).
  rewrite Hrun1. destruct r1 as [signature | e1].
  - destruct Hout1 as (k & t & evs0 & Hk & Hreq & _ & Ht1 & Ht2 & Hc & _).
    exists (Ok signature), w1, evs1, (S k), O.
    split; [reflexivity|]. split; [exact Hst1|]. split; [exact Htr1|].
    split; [rewrite Hreq, app_nil_r; reflexivity|].
    change (Z.to_nat 3) with 3%nat in Hk.
    split; [lia|]. split; [lia|]. split; [intros H; now contradiction H|].
    exists Primary, t. split; [lia|]. split; [exact Hc|].
    split; [discriminate | intros H; now contradiction H].
  - destruct Hout1 as (Hreq1 & _ & t1 & Ht1 & _).
    change (Z.to_nat 3) with 3%nat in Hreq1.
    run.
    destruct (requestAirdropWithRetry_outcome env Fallback pk 2000000000 3 2000
                (emit (ELog LogPrimaryFailed) w1) ltac:(lia))
      as (r2 & w2 & evs2 & Hrun2 & Hst2 & Htr2 & Hout2).
    rewrite Hrun2.
    assert (Hst : sameStores w w2).
    { destruct Hst1 as (? & ? & ?), Hst2 as (? & ? & ?). simpl in *.
      repeat split; congruence. }
    assert (Htr : trace w2 = trace w ++ evs1 ++ ELog LogPrimaryFailed :: evs2).
    { rewrite Htr2. simpl. rewrite Htr1, <- !app_assoc. reflexivity. }
    assert (Hreqs : airdropRequests (evs1 ++ ELog LogPrimaryFailed :: evs2)
                    = repeat Primary 3 ++ airdropRequests evs2).
    { rewrite airdropRequests_app, Hreq1. reflexivity. }
    destruct r2 as [signature | e2].
    + destruct Hout2 as (k & t & evs0 & Hk & Hreq & _ & Ht1' & Ht2' & Hc & _).
      change (Z.to_nat 3) with 3%nat in Hk. simpl in Ht1'.
      exists (Ok signature), w2, (evs1 ++ ELog LogPrimaryFailed :: evs2), 3%nat, (S k).
      split; [reflexivity|]. split; [exact Hst|]. split; [exact Htr|].
      split; [rewrite Hreqs, Hreq; reflexivity|].
      split; [lia|]. split; [lia|]. split; [reflexivity|].
      exists Fallback, t. split; [lia|]. split; [exact Hc|].
      split; [discriminate | reflexivity].
    + destruct Hout2 as (Hreq & _ & t & Ht & Hf).
      change (Z.to_nat 3) with 3%nat in Hreq. simpl in Ht.
      exists (Throw e2), w2, (evs1 ++ ELog LogPrimaryFailed :: evs2), 3%nat, 3%nat.
      split; [reflexivity|]. split; [exact Hst|]. split; [exact Htr|].
      split; [rewrite Hreqs, Hreq; reflexivity|].
      split; [lia|]. split; [lia|]. split; [reflexivity|].
      split; [reflexivity|]. split; [reflexivity|].
      exists t. split; [lia | exact Hf].
Qed.

Lemma request_tokens_no_wallet (A : Z) (w : World) :
  A <> 0 ->
  walletSeen w A = None ->
  exists ss,
    request_tokens env A w
    = (Ok tt, mkWorld (wallets w) (states w) ss (tick w)
                (trace w ++ [EReply A ReplyWalletMissing])).
Proof.
  intros HA Hwallet. unfold request_tokens.
  destruct (loadWallet_run A w HA) as (ss & Hload & Hss).
  unfold bind at 1. rewrite Hload.
  unfold tryCatch, bind at 1, getSession. run. rewrite Hss, Hwallet. run.
  exists ss. reflexivity.
Qed.

Lemma request_tokens_bad_key (A : Z) (w : World) (walletData : WalletData) (e : Error) :
  A <> 0 ->
  walletSeen w A = Some walletData ->
  (forall w0, PublicKey_new (publicKey walletData) w0 = (Throw e, w0)) ->
  (hourlyLimitSeconds
   <= timeSinceLastFaucet (Date_now env (tick w)) (faucetStateSeen w A))%Q ->
  exists ss,
    request_tokens env A w
    = (Ok tt, mkWorld (wallets w) (withFaucetState A w) ss (tick w)
                (trace w ++ [EReply A ReplyRequesting;
                             ELog (LogRequestTokensError A e);
                             EReply A (ReplyAirdropUnavailable e)])).
Proof.
  intros HA Hwallet Hkey Hge.
  destruct (loadWallet_run A w HA) as (ss & Hload & Hss).
  exists ss.
  unfold request_tokens. unfold bind at 1. rewrite Hload. run.
  rewrite Hss, Hwallet.
  unfold requestTokensBody. run.
  unfold withFaucetState, faucetStateSeen in *.
  destruct (states w !! A) as [st|] eqn:HsA; run.
  - rewrite HsA. simpl in Hge.
    destruct (Qlt_le_dec _ _) as [Hlt | _]; [exfalso; eapply Qlt_not_le; eassumption|].
    run. rewrite Hkey. run. unfold emit. simpl. rewrite <- !app_assoc. reflexivity.
  - rewrite lookup_insert_eq. simpl in Hge.
    destruct (Qlt_le_dec _ _) as [Hlt | _]; [exfalso; eapply Qlt_not_le; eassumption|].
    run. rewrite Hkey. run. unfold emit. simpl. rewrite <- !app_assoc. reflexivity.
Qed.

Lemma faucetStateSeen_withFaucetState (A : Z) (w w' : World) :
  states w' = withFaucetState A w -> faucetStateSeen w' A = faucetStateSeen w A.
Proof.
  intros H. unfold faucetStateSeen at 1. rewrite H, withFaucetState_lookup. reflexivity.
Qed.

(** What a request does once its button press is acknowledged, whatever
    the endpoints answer. *)
Lemma request_tokens_outcome (A : Z) (w : World) :
  A <> 0 ->
  exists w' evs (r : Reply) (p f : nat),
    request_tokens env A w = (Ok tt, w')
    /\ trace w' = trace w ++ evs ++ [EReply A r]
    /\ airdropRequests evs = repeat Primary p ++ repeat Fallback f
    /\ (p <= 3)%nat /\ (f <= 3)%nat /\ (f <> O -> p = 3%nat)
    /\ (isAirdropSuccess r = false ->
        lastFaucetTime (faucetStateSeen w' A) = lastFaucetTime (faucetStateSeen w A))
    /\ (forall signature, r = ReplyAirdropSuccess signature ->
          lastFaucetTime (faucetStateSeen w' A) = Some (Date_now env (tick w))
          /\ exists (c : Endpoint) (pk : PublicKey) (t : nat),
               (tick w <= t < tick w')%nat
               /\ airdropConfirmed env c pk 2000000000 t signature).
Proof.
  intros HA.
  destruct (walletSeen w A) as [walletData|] eqn:Hwallet.
  2:{ destruct (request_tokens_no_wallet A w HA Hwallet) as (ss & Hrun).
      eexists _, [], ReplyWalletMissing, O, O. split; [exact Hrun|]. simpl.
      repeat split; try lia; try discriminate. }
  destruct (Qlt_le_dec (timeSinceLastFaucet (Date_now env (tick w)) (faucetStateSeen w A))
              hourlyLimitSeconds) as [Hlt | Hge].
  { destruct (faucet_rate_limited env A w walletData HA Hwallet Hlt)
      as (w' & Hrun & Htr & _ & _ & Hs1 & _).
    exists w', [], (ReplyRateLimited
                      (remainingTime (timeSinceLastFaucet (Date_now env (tick w))
                                        (faucetStateSeen w A)))), O, O.
    split; [exact Hrun|]. split; [exact Htr|]. simpl.
    repeat split; try lia; try discriminate.
    intros _. unfold faucetStateSeen.
    destruct (states w !! A) as [st|] eqn:HsA.
    - rewrite (Hs1 ltac:(eauto)), HsA. reflexivity.
    - (* the entry was created with the initial state *)
      clear Hs1. revert Hrun. unfold request_tokens.
      destruct (loadWallet_run A w HA) as (ss & Hload & Hss).
      unfold bind at 1. rewrite Hload.
      unfold tryCatch, bind at 1, getSession. run. rewrite Hss, Hwallet.
      unfold requestTokensBody. run. rewrite HsA. run. rewrite lookup_insert_eq.
      unfold faucetStateSeen in Hlt. rewrite HsA in Hlt. simpl in Hlt.
      destruct (Qlt_le_dec _ _) as [_ | Hge]; [| exfalso; eapply Qlt_not_le; eassumption].
      run. intros [= <-]. simpl. rewrite lookup_insert_eq. reflexivity. }
  destruct (PublicKey_new_cases (publicKey walletData)) as [[e He] | (pk & Hpk & Hlen & _)].
  { destruct (request_tokens_bad_key A w walletData e HA Hwallet He Hge) as (ss & Hrun).
    eexists _, [EReply A ReplyRequesting; ELog (LogRequestTokensError A e)],
      (ReplyAirdropUnavailable e), O, O.
    split; [exact Hrun|]. simpl.
    repeat split; try lia; try discriminate.
    intros _. f_equal. now apply faucetStateSeen_withFaucetState. }
  destruct (request_tokens_passes_limit env A w walletData pk HA Hwallet Hpk Hlen Hge)
    as (ss & _ & Hrun).
  cbv zeta in Hrun. rewrite Hrun.
  match goal with |- context [airdropWithFailover env pk ?w1] =>
    destruct (airdropWithFailover_outcome pk w1)
      as (r & w2 & evs & p & f & Hair & (_ & Hst & _) & Htr & Hreq & Hp & Hf & Hpf & Hout)
  end.
  rewrite Hair. simpl in Hst, Htr, Hout.
  destruct r as [signature | e].
  - eexists _, (EReply A ReplyRequesting :: evs), (ReplyAirdropSuccess signature), p, f.
    split; [reflexivity|]. simpl. rewrite Htr, <- !app_assoc. simpl.
    split; [reflexivity|]. split; [exact Hreq|].
    split; [lia|]. split; [lia|]. split; [exact Hpf|]. split; [discriminate|].
    intros sig [= <-]. split.
    + unfold faucetStateSeen at 1. simpl. rewrite lookup_insert_eq. reflexivity.
    + destruct Hout as (c & t & Ht & Hc & _). exists c, pk, t. split; [lia | exact Hc].
  - eexists _, (EReply A ReplyRequesting :: evs ++ [ELog (LogRequestTokensError A e)]),
      (ReplyAirdropUnavailable e), p, f.
    split; [reflexivity|]. simpl. rewrite Htr, <- !app_assoc. simpl.
    split; [reflexivity|]. rewrite airdropRequests_app, Hreq. simpl. rewrite app_nil_r.
    split; [reflexivity|].
    split; [lia|]. split; [lia|]. split; [exact Hpf|]. split; [|discriminate].
    intros _. f_equal. apply faucetStateSeen_withFaucetState. exact Hst.
Qed.

Lemma faucet_wait_minutes (A : Z) (w : World) (walletData : WalletData) (last : Z) :
  A <> 0 ->
  walletSeen w A = Some walletData ->
  lastFaucetTime (faucetStateSeen w A) = Some last ->
  let now := Date_now env (tick w) in
  last <= now < last + 3600000 ->
  exists w' minutes,
    request_tokens env A w = (Ok tt, w')
    /\ trace w' = trace w ++ [EReply A (ReplyRateLimited minutes)]
    /\ tick w' = tick w
    /\ wallets w' = wallets w
    /\ (is_Some (states w !! A) -> states w' = states w)
    /\ 1 <= minutes <= 60
    /\ 60000 * (minutes - 1) < last + 3600000 - now <= 60000 * minutes.
Proof.
  intros HA Hwallet Hlast now Hnow.
  set (elapsed := timeSinceLastFaucet now (faucetStateSeen w A)).
  assert (Hel : (elapsed == inject_Z (now - last) / 1000)%Q).
  { unfold elapsed, timeSinceLastFaucet. rewrite Hlast. simpl. reflexivity. }
  assert (Hlt : (elapsed < hourlyLimitSeconds)%Q).
  { rewrite Hel. unfold hourlyLimitSeconds, Qlt, Qdiv, Qmult, Qinv. simpl. lia. }
  destruct (faucet_rate_limited env A w walletData HA Hwallet Hlt)
    as (w' & Hrun & Htr & Htick & Hw & Hs & _).
  exists w', (remainingTime elapsed).
  split; [exact Hrun|]. split; [exact Htr|]. split; [exact Htick|].
  split; [exact Hw|]. split; [exact Hs|].
  destruct (remainingTime_minutes elapsed) as [Hlo Hhi]. cbv zeta in Hlo, Hhi.
  set (m := remainingTime elapsed) in *.
  rewrite Hel in Hlo, Hhi. unfold hourlyLimitSeconds in Hlo, Hhi.
  assert (Hlo' : 60000 * (m - 1) < last + 3600000 - now).
  { unfold Qlt, Qminus, Qplus, Qopp, Qdiv, Qmult, Qinv in Hlo. simpl in Hlo. lia. }
  assert (Hhi' : last + 3600000 - now <= 60000 * m).
  { unfold Qle, Qminus, Qplus, Qopp, Qdiv, Qmult, Qinv in Hhi. simpl in Hhi. lia. }
  repeat split; lia.
Qed.

(** X9: when the clock stands at or after the last grant and less than
    one hour after it, the waiting time that the faucet announces is a
    whole number of minutes between 1 and 60, the remaining milliseconds
    divided by 60000 and rounded up. *)
Theorem faucet_wait_between_1_and_60 (A : Z) (w : World) (walletData : WalletData)
    (last : Z) :
  A <> 0 ->
  walletSeen w A = Some walletData ->
  lastFaucetTime (faucetStateSeen w A) = Some last ->
  let now := Date_now env (tick w) in
  last <= now < last + 3600000 ->
  exists minutes,
    trace (snd (request_tokens env A w)) = trace w ++ [EReply A (ReplyRateLimited minutes)]
    /\ 1 <= minutes <= 60
    /\ 60000 * (minutes - 1) < last + 3600000 - now <= 60000 * minutes.
Proof.
  intros HA Hwallet Hlast now Hnow.
  destruct (faucet_wait_minutes A w walletData last HA Hwallet Hlast Hnow)
    as (w' & minutes & Hrun & Htr & _ & _ & _ & Hm & Hbounds).
  exists minutes. rewrite Hrun. auto.
Qed.

End FaucetAnyEndpoint.

(** ** The whole faucet handler *)

Section FaucetWholeHandler.
Variable env : Env.

(** X7: a faucet request throws only when the acknowledgement of the
    button press is refused, and then throws that refusal before any
    answer and any change of the registries.  Once acknowledged, whatever
    the endpoints answer, it ends with one answer to the requester; it
    makes at most three airdrop requests to the primary endpoint and at
    most three to the fallback, the latter only after three to the
    primary.  The time of the last grant is set, to the time of the
    request, exactly when the answer reports a granted airdrop, whose
    signature was confirmed; any other answer leaves it as it was. *)
Theorem faucet_answers_within_budget (A : Z) (w : World) :
  A <> 0 ->
  (forall e,
      answerCbQuery env (tick w) A = Throw e ->
      exists w',
        bot_action_request_tokens env A w = (Throw e, w')
        /\ trace w' = trace w ++ [EAnswerCbQuery A]
        /\ wallets w' = wallets w
        /\ states w' = states w)
  /\ (answerCbQuery env (tick w) A = Ok tt ->
      exists w' evs (r : Reply) (p f : nat),
        bot_action_request_tokens env A w = (Ok tt, w')
        /\ trace w' = trace w ++ EAnswerCbQuery A :: evs ++ [EReply A r]
        /\ airdropRequests evs = repeat Primary p ++ repeat Fallback f
        /\ (p <= 3)%nat /\ (f <= 3)%nat /\ (f <> O -> p = 3%nat)
        /\ (isAirdropSuccess r = false ->
            lastFaucetTime (faucetStateSeen w' A) = lastFaucetTime (faucetStateSeen w A))
        /\ (forall signature, r = ReplyAirdropSuccess signature ->
              lastFaucetTime (faucetStateSeen w' A) = Some (Date_now env (S (tick w)))
              /\ exists (c : Endpoint) (pk : PublicKey) (t : nat),
                   (S (tick w) <= t < tick w')%nat
                   /\ airdropConfirmed env c pk 2000000000 t signature)).
Proof.
  intros HA. split.
  - intros e Hack. rewrite (bot_action_request_tokens_refused env A w e Hack).
    destruct (loadWallet_run A w HA) as (ss & -> & _).
    eexists. split; [reflexivity|]. now repeat split.
  - intros Hack. rewrite (bot_action_request_tokens_acknowledged env A w Hack).
    destruct (request_tokens_outcome env A (called (EAnswerCbQuery A) w) HA)
      as (w' & evs & r & p & f & Hrun & Htr & Hreq & Hp & Hf & Hpf & Hkeep & Hset).
    exists w', evs, r, p, f. split; [exact Hrun|]. split.
    { rewrite Htr. cbn [called trace]. rewrite <- app_assoc. reflexivity. }
    split; [exact Hreq|]. split; [exact Hp|]. split; [exact Hf|]. split; [exact Hpf|].
    split; [exact Hkeep | exact Hset].
Qed.

(** X8: a faucet request of a user without a wallet makes one remote
    call, the acknowledgement of the button press.  Acknowledged, it is
    answered with the missing-wallet message and nothing else; refused,
    it throws the refusal and answers nothing.  Either way no registry
    changes, so no snapshot is created for the user. *)
Theorem faucet_without_wallet (A : Z) (w : World) :
  A <> 0 ->
  walletSeen w A = None ->
  let run := bot_action_request_tokens env A w in
  let w' := snd run in
  tick w' = S (tick w)
  /\ wallets w' = wallets w
  /\ states w' = states w
  /\ match answerCbQuery env (tick w) A with
     | Ok _ =>
         fst run = Ok tt
         /\ trace w' = trace w ++ [EAnswerCbQuery A; EReply A ReplyWalletMissing]
     | Throw e =>
         fst run = Throw e
         /\ trace w' = trace w ++ [EAnswerCbQuery A]
     end.
Proof.
  intros HA Hwallet run w'. unfold w', run.
  destruct (answerCbQuery env (tick w) A) as [[] | e] eqn:Hack.
  - rewrite (bot_action_request_tokens_acknowledged env A w Hack).
    destruct (request_tokens_no_wallet env A (called (EAnswerCbQuery A) w) HA Hwallet)
      as (ss & ->).
    cbn [fst snd called tick wallets states trace]. rewrite <- app_assoc.
    now repeat split.
  - rewrite (bot_action_request_tokens_refused env A w e Hack).
    destruct (loadWallet_run A w HA) as (ss & -> & _). now repeat split.
Qed.

End FaucetWholeHandler.

(** ** Alerts *)

Section PollAlerts.
Variable nts : number -> string.
Variable env : Env.

Lemma alertLogic_empty (state : UserState) (currentBalance : number)
    (currentPositions : list PositionData) (currentSignatures : list string) :
  String.eqb (alertLogic nts state currentBalance currentPositions currentSignatures)
             EmptyString
  = negb (somethingChanged nts state currentBalance currentPositions currentSignatures).
Proof.
  unfold alertLogic, somethingChanged.
  destruct (balanceChanged nts state currentBalance),
    (positionsChanged nts state currentPositions),
    (signaturesChanged state currentSignatures); reflexivity.
Qed.

Lemma includes_self (arr : list string) (x : string) : In x arr -> includes arr x = true.
Proof. apply includes_In. Qed.

Lemma signaturesChanged_same_list (state : UserState) :
  signaturesChanged state (lastSignatures state) = false.
Proof.
  unfold signaturesChanged, some. apply not_true_is_false. intros H.
  apply existsb_exists in H as (sig & Hin & Hneg).
  rewrite (includes_self _ _ Hin) in Hneg. discriminate.
Qed.

Lemma nothingChanged_same (state : UserState) :
  somethingChanged nts state (lastBalance state) (lastPositions state) (lastSignatures state)
  = false.
Proof.
  unfold somethingChanged, balanceChanged, positionsChanged.
  rewrite !String.eqb_refl, signaturesChanged_same_list. reflexivity.
Qed.

(** X10: in an iteration of the poll whose reads succeed at once, one
    message goes to the owner when one of the three tests reports a
    change, and none otherwise; when the reads return what the snapshot
    holds, no message is sent and the snapshot registry stays as it
    is. *)
Theorem poll_message_iff_change (B : Z) (walletData : WalletData) (pk : PublicKey)
    (lamports : number) (positions : list PositionData) (signatures : list string)
    (w : World) :
  bs58.decodeUnsafe (publicKey walletData) = Some pk ->
  length pk = 32%nat ->
  (forall t, getBalance env t Primary pk = Ok lamports) ->
  (forall t, getUserPositions env t pk = Ok positions) ->
  (forall t, getSignaturesForAddress env t Primary pk 5 = Ok signatures) ->
  (forall t text, sendMessage env t B text = Ok tt) ->
  let state := pollStateSeen w B in
  let balance := jsdiv lamports e9 in
  let w' := snd (pollOwner nts env (B, walletData) w) in
  trace w'
  = trace w ++ pollReads pk
    ++ (if somethingChanged nts state balance positions signatures
        then [ESendMessage B (alertMessage (alertLogic nts state balance positions signatures))]
        else [])
  /\ (states w !! B = Some state ->
      balance = lastBalance state ->
      positions = lastPositions state ->
      signatures = lastSignatures state ->
      trace w' = trace w ++ pollReads pk /\ states w' = states w).
Proof.
  intros Hpk Hlen Hbal Hpos Hsig Hsend state balance w'.
  destruct (pollOwner_succeeding nts env B walletData pk lamports positions signatures w
              Hpk Hlen Hbal Hpos Hsig Hsend) as (w1 & Hrun & _ & Hst & Htr).
  fold state balance in Hst, Htr. rewrite alertLogic_empty in Htr.
  unfold w'. rewrite Hrun. cbn [snd].
  assert (Htrace : trace w1
            = trace w ++ pollReads pk
              ++ (if somethingChanged nts state balance positions signatures
                  then [ESendMessage B
                          (alertMessage (alertLogic nts state balance positions signatures))]
                  else [])).
  { rewrite Htr. unfold pollReads.
    destruct (somethingChanged nts state balance positions signatures); reflexivity. }
  split; [exact Htrace|].
  intros HB -> -> ->. rewrite Htrace, nothingChanged_same, app_nil_r.
  split; [reflexivity|]. rewrite Hst.
  apply insert_id. rewrite HB. destruct state; reflexivity.
Qed.

(** An iteration whose reads succeed and whose message is refused. *)
Lemma pollOwner_undelivered (B : Z) (walletData : WalletData) (pk : PublicKey)
    (lamports : number) (positions : list PositionData) (signatures : list string)
    (err : nat -> Error) (w : World) :
  bs58.decodeUnsafe (publicKey walletData) = Some pk ->
  length pk = 32%nat ->
  (forall t, getBalance env t Primary pk = Ok lamports) ->
  (forall t, getUserPositions env t pk = Ok positions) ->
  (forall t, getSignaturesForAddress env t Primary pk 5 = Ok signatures) ->
  (forall t text, sendMessage env t B text = Throw (err t)) ->
  let state := pollStateSeen w B in
  let alert := alertLogic nts state (jsdiv lamports e9) positions signatures in
  somethingChanged nts state (jsdiv lamports e9) positions signatures = true ->
  exists w',
    pollOwner nts env (B, walletData) w = (Ok tt, w')
    /\ states w' = states (withInitialState B w)
    /\ tick w' = (tick w + 4)%nat
    /\ trace w' = trace w ++ pollReads pk
                  ++ [ESendMessage B (alertMessage alert);
                      ELog (LogPollingError B (err (tick w + 3)%nat))].
Proof.
  intros Hpk Hlen Hbal Hpos Hsig Hsend state alert Hchanged.
  rewrite pollOwner_unfold. unfold pollBody.
  unfold PublicKey_new, bs58_decode. rewrite Hpk. run.
  rewrite withInitialState_lookup. fold state. run.
  rewrite (proj2 (Nat.eqb_eq _ _) Hlen). run.
  rewrite (pollRetry_first_try (fetchBalance env pk) (jsdiv lamports e9) _ _ _
             (called (EGetBalance Primary pk) (withInitialState B w))).
  2:{ unfold fetchBalance. run. now rewrite Hbal. }
  unfold DlmmService_getPositions. run. rewrite Hpos.
  erewrite (pollRetry_first_try (fetchSignatures env pk) signatures).
  2:{ unfold fetchSignatures. run. now rewrite Hsig. }
  assert (Hne : String.eqb (alertLogic nts state (jsdiv lamports e9) positions signatures)
                          EmptyString = false)
    by (rewrite alertLogic_empty, Hchanged; reflexivity).
  rewrite Hne. fold alert. cbv beta. cbn [tick called]. rewrite Hsend. run.
  eexists. split; [reflexivity|]. simpl.
  rewrite withInitialState_tick.
  split; [reflexivity|]. split; [lia|].
  replace (S (S (S (tick w)))) with (tick w + 3)%nat by lia.
  assert (Htr0 : trace (withInitialState B w) = trace w).
  { unfold withInitialState. destruct (states w !! B); reflexivity. }
  rewrite Htr0, <- !app_assoc. reflexivity.
Qed.

(** X11: when the alert cannot be delivered, the error is logged and the
    snapshot is not advanced, so the next iteration finds the same
    changes and sends the same alert again. *)
Theorem poll_undelivered_alert_repeats (B : Z) (walletData : WalletData) (pk : PublicKey)
    (lamports : number) (positions : list PositionData) (signatures : list string)
    (err : nat -> Error) (w : World) :
  bs58.decodeUnsafe (publicKey walletData) = Some pk ->
  length pk = 32%nat ->
  (forall t, getBalance env t Primary pk = Ok lamports) ->
  (forall t, getUserPositions env t pk = Ok positions) ->
  (forall t, getSignaturesForAddress env t Primary pk 5 = Ok signatures) ->
  (forall t text, sendMessage env t B text = Throw (err t)) ->
  let state := pollStateSeen w B in
  let alert := alertLogic nts state (jsdiv lamports e9) positions signatures in
  somethingChanged nts state (jsdiv lamports e9) positions signatures = true ->
  let w1 := snd (pollOwner nts env (B, walletData) w) in
  let w2 := snd (pollOwner nts env (B, walletData) w1) in
  states w1 !! B = Some state
  /\ trace w1 = trace w ++ pollReads pk
                ++ [ESendMessage B (alertMessage alert);
                    ELog (LogPollingError B (err (tick w + 3)%nat))]
  /\ states w2 !! B = Some state
  /\ trace w2 = trace w1 ++ pollReads pk
                ++ [ESendMessage B (alertMessage alert);
                    ELog (LogPollingError B (err (tick w + 7)%nat))].
Proof.
  intros Hpk Hlen Hbal Hpos Hsig Hsend state alert Hchanged w1 w2.
  destruct (pollOwner_undelivered B walletData pk lamports positions signatures err w
              Hpk Hlen Hbal Hpos Hsig Hsend Hchanged) as (w1' & Hrun1 & Hst1 & Htick1 & Htr1).
  assert (Hw1 : w1 = w1') by (unfold w1; now rewrite Hrun1). rewrite <- Hw1 in *.
  assert (Hseen : states w1 !! B = Some state).
  { rewrite Hst1. apply withInitialState_lookup. }
  assert (Hstate1 : pollStateSeen w1 B = state).
  { unfold pollStateSeen at 1. now rewrite Hseen. }
  destruct (pollOwner_undelivered B walletData pk lamports positions signatures err w1
              Hpk Hlen Hbal Hpos Hsig Hsend) as (w2' & Hrun2 & Hst2 & Htick2 & Htr2).
  { rewrite Hstate1. exact Hchanged. }
  assert (Hw2 : w2 = w2') by (unfold w2; now rewrite Hrun2). rewrite <- Hw2 in *.
  rewrite Hstate1 in Htr2.
  split; [exact Hseen|]. split; [exact Htr1|]. split.
  - rewrite Hst2, withInitialState_lookup. now f_equal.
  - rewrite Htr2. replace (tick w1 + 3)%nat with (tick w + 7)%nat by lia. reflexivity.
Qed.

(** X12: a cycle of the poll between two faucet requests does not reopen
    the faucet: less than an hour after a grant, the request that follows
    the cycle makes no remote call but the acknowledgement of its button
    press and leaves the time of the grant; acknowledged, it is answered
    with the waiting time, and refused, it throws the refusal. *)
Theorem poll_keeps_rate_limit (A : Z) (walletData : WalletData) (w : World) (last : Z) :
  A <> 0 ->
  walletSeen w A = Some walletData ->
  lastFaucetTime <$> states w !! A = Some (Some last) ->
  let w1 := snd (poll nts env w) in
  last <= Date_now env (S (tick w1)) < last + 3600000 ->
  let run := bot_action_request_tokens env A w1 in
  let w2 := snd run in
  lastFaucetTime <$> states w1 !! A = Some (Some last)
  /\ lastFaucetTime <$> states w2 !! A = Some (Some last)
  /\ tick w2 = S (tick w1)
  /\ match answerCbQuery env (tick w1) A with
     | Ok _ =>
         exists minutes,
           fst run = Ok tt
           /\ trace w2 = trace w1 ++ [EAnswerCbQuery A; EReply A (ReplyRateLimited minutes)]
           /\ 1 <= minutes <= 60
     | Throw e =>
         fst run = Throw e
         /\ trace w2 = trace w1 ++ [EAnswerCbQuery A]
     end.
Proof.
  intros HA Hwallet Hlast w1 Hnow run w2.
  destruct (poll_pollKeeps nts env w) as (Hw & Hss & Hkeep).
  fold w1 in Hw, Hss, Hkeep.
  destruct (states w !! A) as [st|] eqn:Hst; [|discriminate].
  injection Hlast as Hlast.
  destruct (Hkeep A st Hst) as (st' & Hst' & _ & Hf).
  assert (Hkept : lastFaucetTime <$> states w1 !! A = Some (Some last)).
  { rewrite Hst'. simpl. congruence. }
  split; [exact Hkept|]. unfold w2, run.
  destruct (answerCbQuery env (tick w1) A) as [[] | e] eqn:Hack.
  - rewrite (bot_action_request_tokens_acknowledged env A w1 Hack).
    set (w1' := called (EAnswerCbQuery A) w1).
    assert (Hwallet1 : walletSeen w1' A = Some walletData).
    { unfold walletSeen in *. unfold w1'. cbn [called sessions wallets]. now rewrite Hss, Hw. }
    assert (Hlast1 : lastFaucetTime (faucetStateSeen w1' A) = Some last).
    { unfold faucetStateSeen, w1'. cbn [called states]. rewrite Hst'. simpl. congruence. }
    destruct (faucet_wait_minutes env A w1' walletData last HA Hwallet1 Hlast1 Hnow)
      as (w3 & minutes & Hrun & Htr & Htick & _ & Hs & Hm & _).
    rewrite Hrun. cbn [fst snd]. split; [|split].
    + rewrite (Hs ltac:(unfold w1'; cbn [called states]; eauto)).
      unfold w1'. cbn [called states]. exact Hkept.
    + rewrite Htick. reflexivity.
    + exists minutes. split; [reflexivity|]. split; [|exact Hm].
      rewrite Htr. unfold w1'. cbn [called trace]. rewrite <- app_assoc. reflexivity.
  - rewrite (bot_action_request_tokens_refused env A w1 e Hack).
    destruct (loadWallet_run A w1 HA) as (ss & -> & _).
    cbn [fst snd called tick states trace]. now repeat split.
Qed.

End PollAlerts.

(** ** The life of an import *)

Section ImportLifecycle.
Variable nts : number -> string.
Variable env : Env.

(** X13: the flag that makes the text handler read a text as a key
    stays set after an import that fails on the key (a text that does not
    decode to 64 bytes, or a key that [Keypair.fromSecretKey] refuses),
    so the next text is read as a key again; it is cleared by an import
    that stores a key, after which no text changes the wallet registry or
    draws an answer of the import. *)
Theorem import_flag_lifecycle (A : Z) (text : Text) (w : World) :
  A <> 0 ->
  textGate (sessionSeen w A) text = true ->
  let w' := snd (bot_on_text nts env A text w) in
  ((forall sk, decodedKey text = Some sk -> length sk <> 64%nat) ->
   waitingForWalletImport (sessionSeen w' A) = true
   /\ textGate (sessionSeen w' A) text = true
   /\ wallets w' = wallets w)
  /\ (forall sk e,
        decodedKey text = Some sk ->
        length sk = 64%nat ->
        Keypair_fromSecretKey env sk = Throw e ->
        waitingForWalletImport (sessionSeen w' A) = true
        /\ textGate (sessionSeen w' A) text = true
        /\ wallets w' = wallets w)
  /\ (forall sk pk,
        decodedKey text = Some sk ->
        length sk = 64%nat ->
        Keypair_fromSecretKey env sk = Ok pk ->
        waitingForWalletImport (sessionSeen w' A) = false
        /\ forall text2,
             let w2 := snd (bot_on_text nts env A text2 w') in
             wallets w2 = wallets w'
             /\ (trace w2 = trace w' \/ trace w2 = trace w' ++ [EReply A ReplyWalletMissing])).
Proof.
  intros HA Hgate w'.
  assert (Hflag : waitingForWalletImport (sessionSeen w A) = true).
  { unfold textGate in Hgate. now apply andb_prop in Hgate as [H _]. }
  assert (Hkept : forall error,
             (forall w0, importText nts env A text w0 = (Throw error, w0)) ->
             waitingForWalletImport (sessionSeen w' A) = true
             /\ textGate (sessionSeen w' A) text = true
             /\ wallets w' = wallets w).
  { intros error Hthrow. unfold w'.
    rewrite (bot_on_text_thrown nts env A text w error HA Hgate Hthrow). cbn [snd].
    rewrite sessionSeen_loaded. now repeat split. }
  split; [|split].
  - intros Hbad. eapply Hkept. intros w0. apply importText_rejects. exact Hbad.
  - intros sk e Hsk Hlen Hpair. unfold decodedKey in Hsk.
    destruct (asLatin1 (Text_trim text)) as [key|] eqn:Hkey; [|discriminate].
    apply (Hkept e). intros w0.
    exact (importText_key_refused nts env A text w0 key sk e Hkey Hsk Hlen Hpair).
  - intros sk pk Hsk Hlen Hpair. unfold decodedKey in Hsk.
    destruct (asLatin1 (Text_trim text)) as [key|] eqn:Hkey; [|discriminate].
    destruct (bot_on_text_imports nts env A text w key sk pk HA Hgate Hkey Hsk Hlen Hpair)
      as (_ & Hw1 & _ & Hss1). fold w' in Hw1, Hss1.
    assert (Hseen : sessionSeen w' A = mkSession (Some (mkWalletData pk key)) false).
    { unfold sessionSeen, walletSeen. rewrite Hss1, lookup_insert_eq. reflexivity. }
    split; [now rewrite Hseen|].
    intros text2 w2. unfold w2.
    assert (Hgate2 : textGate (sessionSeen w' A) text2 = false).
    { rewrite Hseen. reflexivity. }
    destruct (bot_on_text_not_import nts env A text2 w' HA Hgate2)
      as (_ & Hw2 & _ & _ & _ & Htr).
    split; assumption.
Qed.

(** X14: when the key is accepted and the balance cannot be read, the
    user is answered with the error of the read, yet the wallet has been
    stored in the registry and in the session, and the session no longer
    waits for a key. *)
Theorem import_survives_balance_failure (A : Z) (text : string) (w : World)
    (sk : list Byte.byte) (pk : string) (address : PublicKey) (e : Error) :
  A <> 0 ->
  importGate (sessionSeen w A) text = true ->
  bs58.decodeUnsafe (trim text) = Some sk ->
  length sk = 64%nat ->
  Keypair_fromSecretKey env sk = Ok pk ->
  bs58.decodeUnsafe pk = Some address ->
  length address = 32%nat ->
  getBalance env (tick w) Primary address = Throw e ->
  let w' := snd (onText nts env A text w) in
  let walletData := mkWalletData pk (trim text) in
  trace w' = trace w ++ [EGetBalance Primary address;
                         ELog (LogImportError A e);
                         EReply A (ReplyImportError (importErrorText e))]
  /\ wallets w' !! A = Some walletData
  /\ sessionSeen w' A = mkSession (Some walletData) false.
Proof.
  intros HA Hgate Hsk Hlen Hkey Hpk Hlen' Hbal w' walletData. unfold w'.
  destruct (onText_imports nts env A text w sk pk HA Hgate Hsk Hlen Hkey)
    as (_ & Hw1 & _ & Hss1).
  split; [|split].
  - rewrite (onText_unfold nts env A text w HA). cbv zeta. rewrite Hgate.
    unfold tryCatch. rewrite (importBody_stores nts env A text _ sk pk Hsk Hlen Hkey).
    unfold importAnswer, PublicKey_new, bs58_decode. rewrite Hpk. run.
    rewrite (proj2 (Nat.eqb_eq _ _) Hlen'). run. rewrite Hbal. run.
    unfold importErrorText. unfold emit. simpl. rewrite <- !app_assoc. reflexivity.
  - rewrite Hw1. apply lookup_insert_eq.
  - unfold sessionSeen, walletSeen. rewrite Hss1, lookup_insert_eq. reflexivity.
Qed.

(** X15: the wallet loading middleware gives a session without wallet
    the wallet of the registry, keeps the wallet of a session that has
    one, touches no other session, no registry and no trace, and running
    it again changes nothing. *)
Theorem loadWallet_restores (A : Z) (w : World) :
  A <> 0 ->
  let w' := snd (loadWallet A w) in
  fst (loadWallet A w) = Ok tt
  /\ wallets w' = wallets w /\ states w' = states w /\ trace w' = trace w
  /\ wallet (default emptySession (sessions w' !! A))
     = match wallet (default emptySession (sessions w !! A)) with
       | Some walletData => Some walletData
       | None => wallets w !! A
       end
  /\ waitingForWalletImport (default emptySession (sessions w' !! A))
     = waitingForWalletImport (default emptySession (sessions w !! A))
  /\ (forall B, B <> A -> sessions w' !! B = sessions w !! B)
  /\ loadWallet A w' = (Ok tt, w').
Proof.
  intros HA w'. unfold w'. rewrite (loadWallet_session A w HA). simpl.
  repeat split; try reflexivity.
  - rewrite lookup_insert_eq. reflexivity.
  - rewrite lookup_insert_eq. reflexivity.
  - intros B HB. now apply lookup_insert_ne.
  - rewrite (loadWallet_session A _ HA). cbn [wallets states sessions tick trace].
    rewrite sessionSeen_loaded, insert_insert_eq. reflexivity.
Qed.

End ImportLifecycle.

(** ** [escapeMarkdownV2] *)

Lemma backslash_reserved : memChar backslash reservedMarkdownV2 = true.
Proof. reflexivity. Qed.

Lemma not_reserved_not_backslash (c : ascii) :
  memChar c reservedMarkdownV2 = false -> Ascii.eqb c backslash = false.
Proof.
  intros H. destruct (Ascii.eqb_spec c backslash) as [-> | _]; [|reflexivity].
  rewrite backslash_reserved in H. discriminate.
Qed.

Lemma escapeMarkdownV2_cons (c : ascii) (rest : string) :
  escapeMarkdownV2 (String c rest)
  = if memChar c reservedMarkdownV2
    then String backslash (String c (escapeMarkdownV2 rest))
    else String c (escapeMarkdownV2 rest).
Proof. reflexivity. Qed.

Lemma wellEscaped_escape (text : string) : wellEscaped (escapeMarkdownV2 text) = true.
Proof.
  induction text as [|c rest IH]; [reflexivity|].
  rewrite escapeMarkdownV2_cons.
  destruct (memChar c reservedMarkdownV2) eqn:Hc.
  - cbn [wellEscaped]. rewrite Ascii.eqb_refl, Hc, IH. reflexivity.
  - cbn [wellEscaped]. rewrite (not_reserved_not_backslash c Hc), Hc, IH. reflexivity.
Qed.

Lemma unescape_escape (text : string) : unescapeMarkdownV2 (escapeMarkdownV2 text) = text.
Proof.
  induction text as [|c rest IH]; [reflexivity|].
  rewrite escapeMarkdownV2_cons.
  destruct (memChar c reservedMarkdownV2) eqn:Hc.
  - cbn [unescapeMarkdownV2]. rewrite Ascii.eqb_refl, IH. reflexivity.
  - cbn [unescapeMarkdownV2]. rewrite (not_reserved_not_backslash c Hc), IH. reflexivity.
Qed.

Lemma escapeMarkdownV2_append (a b : string) :
  escapeMarkdownV2 (a +:+ b) = (escapeMarkdownV2 a +:+ escapeMarkdownV2 b)%string.
Proof.
  induction a as [|c a IH]; [now rewrite !append_nil_l|].
  rewrite append_cons, !escapeMarkdownV2_cons, IH.
  destruct (memChar c reservedMarkdownV2); rewrite ?append_cons; reflexivity.
Qed.

Lemma escapeMarkdownV2_length (text : string) :
  String.length (escapeMarkdownV2 text) = (String.length text + countReserved text)%nat.
Proof.
  induction text as [|c rest IH]; [reflexivity|].
  rewrite escapeMarkdownV2_cons. cbn [countReserved String.length].
  destruct (memChar c reservedMarkdownV2); cbn [String.length]; rewrite IH; lia.
Qed.

Lemma escapeMarkdownV2_id (text : string) :
  escapeMarkdownV2 text = text <-> countReserved text = O.
Proof.
  split.
  - intros H. pose proof (escapeMarkdownV2_length text) as Hlen. rewrite H in Hlen. lia.
  - induction text as [|c rest IH]; [reflexivity|].
    cbn [countReserved]. rewrite escapeMarkdownV2_cons.
    destruct (memChar c reservedMarkdownV2); [discriminate|].
    intros H. now rewrite IH.
Qed.

Lemma countReserved_escape (text : string) :
  countReserved (escapeMarkdownV2 text) = (2 * countReserved text)%nat.
Proof.
  induction text as [|c rest IH]; [reflexivity|].
  rewrite escapeMarkdownV2_cons. cbn [countReserved].
  destruct (memChar c reservedMarkdownV2) eqn:Hc; cbn [countReserved];
    rewrite ?backslash_reserved, ?Hc, IH; lia.
Qed.

(** X16: in the text [escapeMarkdownV2] returns every reserved character
    stands behind a backslash and every backslash in front of a reserved
    character; removing the backslashes gives the text back, so two
    texts with the same escaped text are the same text. *)
Theorem escapeMarkdownV2_sound :
  (forall text, wellEscaped (escapeMarkdownV2 text) = true)
  /\ (forall text, unescapeMarkdownV2 (escapeMarkdownV2 text) = text)
  /\ (forall a b, escapeMarkdownV2 a = escapeMarkdownV2 b -> a = b).
Proof.
  split; [exact wellEscaped_escape|]. split; [exact unescape_escape|].
  intros a b H. rewrite <- (unescape_escape a), <- (unescape_escape b). now rewrite H.
Qed.

(** X17: escaping a concatenation is concatenating the escaped parts; the
    escaped text is longer than the text by the number of its reserved
    characters, and equal to it exactly when it has none. *)
Theorem escapeMarkdownV2_pieces :
  (forall a b, escapeMarkdownV2 (a +:+ b) = (escapeMarkdownV2 a +:+ escapeMarkdownV2 b)%string)
  /\ (forall text,
        String.length (escapeMarkdownV2 text)
        = (String.length text + countReserved text)%nat)
  /\ (forall text, escapeMarkdownV2 text = text <-> countReserved text = O).
Proof.
  split; [exact escapeMarkdownV2_append|]. split; [exact escapeMarkdownV2_length|].
  exact escapeMarkdownV2_id.
Qed.

(** X18: escaping an escaped text adds two more backslashes per reserved
    character; it is the same as escaping once exactly when the text has
    no reserved character, and a reader of the text escaped twice sees
    the text escaped once. *)
Theorem escapeMarkdownV2_twice (text : string) :
  String.length (escapeMarkdownV2 (escapeMarkdownV2 text))
  = (String.length text + 3 * countReserved text)%nat
  /\ (escapeMarkdownV2 (escapeMarkdownV2 text) = escapeMarkdownV2 text
      <-> countReserved text = O)
  /\ unescapeMarkdownV2 (escapeMarkdownV2 (escapeMarkdownV2 text)) = escapeMarkdownV2 text.
Proof.
  split; [|split].
  - rewrite !escapeMarkdownV2_length, countReserved_escape. lia.
  - rewrite escapeMarkdownV2_id, countReserved_escape. lia.
  - apply unescape_escape.
Qed.

(** ** The texts of the helpers *)

Lemma countReserved_append (a b : string) :
  countReserved (a +:+ b) = (countReserved a + countReserved b)%nat.
Proof.
  induction a as [|c a IH]; [now rewrite append_nil_l|].
  rewrite append_cons. cbn [countReserved]. rewrite IH. lia.
Qed.

Lemma countReserved_digits (s : string) :
  allChars isDigitChar s = true -> countReserved s = O.
Proof.
  induction s as [|c s IH]; [reflexivity|].
  cbn [allChars countReserved]. intros H. apply andb_prop in H as [Hc Hs].
  rewrite (IH Hs).
  assert (memChar c reservedMarkdownV2 = false) as ->; [|reflexivity].
  unfold isDigitChar in Hc. cbn [memChar] in Hc.
  repeat (apply orb_prop in Hc as [Hc | Hc];
          [apply Ascii.eqb_eq in Hc; subst c; reflexivity|]).
  discriminate.
Qed.

Lemma zeros_S (k : nat) : zeros (S k) = String "0" (zeros k).
Proof.
  unfold zeros. cbn [repeat]. destruct k; reflexivity.
Qed.

Lemma allChars_zeros (k : nat) : allChars isDigitChar (zeros k) = true.
Proof.
  induction k as [|k IH]; [reflexivity|]. rewrite zeros_S. cbn [allChars]. now rewrite IH.
Qed.

Lemma allChars_paddedDigits (f : nat) (n : Z) :
  allChars isDigitChar (paddedDigits f n) = true.
Proof.
  unfold paddedDigits. destruct (_ <=? _)%nat.
  - rewrite allChars_append, allChars_zeros, allChars_pretty_N. reflexivity.
  - apply allChars_pretty_N.
Qed.

(** The text of a number with [f] decimals has one reserved character,
    its point. *)
Lemma countReserved_fixedDigits (f : nat) (n : Z) :
  f <> O -> countReserved (fixedDigits f n) = 1%nat.
Proof.
  intros Hf. rewrite (fixedDigits_padded f n Hf). cbv zeta.
  pose proof (paddedDigits_length f n) as Hlen.
  set (m := paddedDigits f n) in *.
  rewrite !countReserved_append.
  assert (Hsplit : (substring 0 (String.length m - f) m
                    +:+ substring (String.length m - f) f m)%string = m)
    by (apply substring_split; lia).
  pose proof (countReserved_digits m (allChars_paddedDigits f n)) as Hm.
  rewrite <- Hsplit, countReserved_append in Hm.
  change (countReserved ".") with 1%nat. lia.
Qed.

Section HelperProperties.

Variable nts : number -> string.
Variable PublicKey_toString : PublicKey -> string.
Variable env : Env.

Lemma errorMessageOr_wrapped (prefix : string) (e : Error) :
  errorMessageOr (mkError (String "F" prefix +:+ message e)) = (String "F" prefix +:+ message e)%string.
Proof. unfold errorMessageOr. cbn [message]. rewrite append_cons. reflexivity. Qed.

Lemma DlmmService_getPositions_run (pk : PublicKey) (w : World) :
  DlmmService_getPositions env pk w
  = (match getUserPositions env (tick w) pk with
     | Ok positions => Ok positions
     | Throw error => Throw (mkError ("Failed to fetch positions: " +:+ message error))
     end, called (EGetPositions pk) w).
Proof.
  unfold DlmmService_getPositions, tryCatch, remote.
  destruct (getUserPositions env (tick w) pk); reflexivity.
Qed.

(** X19: [getPositions], [getRebalanceSuggestion] and [getWalletOverview]
    never throw: every failure of the position service or of the balance
    read becomes a text.  An error of the position source reaches the
    user behind 'Failed to fetch positions: '.  The texts of
    [getRebalanceSuggestion] and [getWalletOverview] are well-formed
    MarkdownV2, and the calls made are the read of the positions and,
    for the overview, the read of the balance before it. *)
Theorem helpers_answer_with_a_text (pk : PublicKey) (w : World) :
  (exists text,
      getPositions nts env pk w = (Ok text, called (EGetPositions pk) w)
      /\ (forall e, getUserPositions env (tick w) pk = Throw e ->
            text = escapeMarkdownV2
                     ("Sorry, we couldn’t check your positions right now. Error: "
                      +:+ "Failed to fetch positions: " +:+ message e
                      +:+ ". Try again later.")))
  /\ (exists text,
         getRebalanceSuggestion env pk w = (Ok text, called (EGetPositions pk) w)
         /\ wellEscaped text = true
         /\ (forall p rest, getUserPositions env (tick w) pk = Ok (p :: rest) ->
               text = suggestRebalance))
  /\ (exists text w',
         getWalletOverview nts PublicKey_toString env pk w = (Ok text, w')
         /\ wellEscaped text = true
         /\ sameStores w w'
         /\ (w' = called (EGetBalance Primary pk) w
             \/ w' = called (EGetPositions pk) (called (EGetBalance Primary pk) w))).
Proof.
  split; [|split].
  - unfold getPositions, tryCatch. unfold bind. rewrite DlmmService_getPositions_run.
    destruct (getUserPositions env (tick w) pk) as [[|p rest] | e].
    + eexists. split; [reflexivity|]. discriminate.
    + eexists. split; [reflexivity|]. discriminate.
    + eexists. split; [reflexivity|]. intros e' [= <-].
      unfold ret. rewrite errorMessageOr_wrapped. reflexivity.
  - unfold getRebalanceSuggestion, tryCatch. unfold bind. rewrite DlmmService_getPositions_run.
    destruct (getUserPositions env (tick w) pk) as [[|p rest] | e].
    + eexists. split; [reflexivity|]. split; [apply wellEscaped_escape | discriminate].
    + eexists. split; [reflexivity|]. split; [reflexivity | reflexivity].
    + eexists. split; [reflexivity|]. split; [apply wellEscaped_escape | discriminate].
  - unfold getWalletOverview, tryCatch. unfold bind at 1. unfold remote at 1.
    destruct (getBalance env (tick w) Primary pk) as [lamports | e].
    + unfold bind. rewrite DlmmService_getPositions_run.
      destruct (getUserPositions env _ pk) as [positions | e].
      * do 2 eexists. split; [reflexivity|]. split; [apply wellEscaped_escape|].
        split; [now repeat split | now right].
      * do 2 eexists. split; [reflexivity|]. split; [apply wellEscaped_escape|].
        split; [now repeat split | now right].
    + do 2 eexists. split; [reflexivity|]. split; [apply wellEscaped_escape|].
      split; [now repeat split | now left].
Qed.

(** X20: [getWalletOverview] escapes the balance and then the whole text,
    so what a reader of MarkdownV2 sees is the template filled with the
    escaped balance: for a balance that [toFixed] writes with digits, the
    figure shown carries a backslash in front of its point. *)
Theorem wallet_overview_shows_escapes (pk : PublicKey) (w : World) (lamports : number)
    (positions : list PositionData) :
  getBalance env (tick w) Primary pk = Ok lamports ->
  getUserPositions env (S (tick w)) pk = Ok positions ->
  balanceInRange (jsdiv lamports e9) = true ->
  let shown := toFixed nts (jsdiv lamports e9) 4 in
  exists text,
    fst (getWalletOverview nts PublicKey_toString env pk w) = Ok text
    /\ unescapeMarkdownV2 text
       = overviewBody (escapeMarkdownV2 (PublicKey_toString pk)) (escapeMarkdownV2 shown)
           (poolDetails nts positions)
    /\ countReserved shown = 1%nat
    /\ String.length (escapeMarkdownV2 shown) = S (String.length shown)
    /\ unescapeMarkdownV2 (escapeMarkdownV2 shown) = shown.
Proof.
  intros Hbal Hpos Hrange shown.
  unfold getWalletOverview, tryCatch. unfold bind at 1. unfold remote at 1. rewrite Hbal.
  unfold bind. rewrite DlmmService_getPositions_run. cbn [tick called]. rewrite Hpos.
  eexists. split; [reflexivity|]. split; [apply unescape_escape|].
  assert (Hcount : countReserved shown = 1%nat).
  { unfold shown. rewrite (toFixed_inRange nts _ 4 Hrange).
    apply countReserved_fixedDigits. discriminate. }
  split; [exact Hcount|]. split; [|apply unescape_escape].
  rewrite escapeMarkdownV2_length, Hcount. lia.
Qed.

End HelperProperties.

(** ** The launch of the bot *)

Section LaunchProperties.
Variable launch : nat -> Result unit.
Variables (maxRetries delayMs : Z).

Lemma launchLoop_S (fuel : nat) (attempt : Z) :
  launchLoop launch maxRetries delayMs (S fuel) attempt
  = tryCatch (launchOnce launch)
      (fun error =>
         if attempt =? maxRetries then throw error
         else sleep delayMs >> launchLoop launch maxRetries delayMs fuel (attempt + 1)).
Proof. reflexivity. Qed.

Lemma launchLoop_outcome (n : nat) :
  forall (attempt : Z) (w : World),
    attempt + Z.of_nat n = maxRetries ->
    exists (k : nat),
      (k <= n)%nat
      /\ launchLoop launch maxRetries delayMs (S n) attempt w
         = (launch (tick w + k)%nat,
            mkWorld (wallets w) (states w) (sessions w) (tick w + S k)
                    (trace w ++ repeat (ESleep delayMs) k))
      /\ (forall j, (j < k)%nat -> exists e, launch (tick w + j)%nat = Throw e)
      /\ ((k < n)%nat -> launch (tick w + k)%nat = Ok tt).
Proof.
  induction n as [|n IH]; intros attempt w Hn; rewrite launchLoop_S; unfold tryCatch, launchOnce.
  - exists O. rewrite Nat.add_0_r. split; [lia|]. split.
    + destruct (launch (tick w)) as [[] | e] eqn:Hl.
      * simpl. rewrite app_nil_r. do 2 f_equal. lia.
      * assert ((attempt =? maxRetries) = true) as -> by lia.
        unfold throw. simpl. rewrite app_nil_r. do 2 f_equal. lia.
    + split; [intros j Hj; lia | lia].
  - destruct (launch (tick w)) as [[] | e] eqn:Hl.
    + exists O. rewrite Nat.add_0_r, Hl. split; [lia|]. split.
      * simpl. rewrite app_nil_r. do 2 f_equal. lia.
      * split; [intros j Hj; lia | reflexivity].
    + assert ((attempt =? maxRetries) = false) as -> by lia.
      unfold bind, sleep, modify, emit. cbn [tick trace wallets states sessions].
      match goal with |- context [launchLoop _ _ _ _ _ ?w1] =>
        destruct (IH (attempt + 1) w1 ltac:(lia)) as (k & Hk & Hrun & Hfail & Hok)
      end.
      cbn [tick trace wallets states sessions] in Hrun, Hfail, Hok.
      exists (S k). split; [lia|]. split.
      * rewrite Hrun. replace (S (tick w) + k)%nat with (tick w + S k)%nat by lia.
        f_equal. f_equal; [lia|]. rewrite <- app_assoc. reflexivity.
      * split.
        -- intros j Hj. destruct j as [|j].
           ++ rewrite Nat.add_0_r. eauto.
           ++ replace (tick w + S j)%nat with (S (tick w) + j)%nat by lia.
              apply Hfail. lia.
        -- intros Hlt. replace (tick w + S k)%nat with (S (tick w) + k)%nat by lia.
           apply Hok. lia.
Qed.

(** X21: with a budget of zero or less, the loop of [launchBotWithRetry]
    launches nothing and throws 'Bot launch failed after all retries.';
    with a budget of one or more it launches at most [maxRetries] times,
    sleeps the same [delayMs] between two launches, stops at the first
    launch that succeeds and otherwise throws the error of the last. *)
Theorem launch_attempts_bounded (w : World) :
  (maxRetries <= 0 ->
   launchBotWithRetry launch maxRetries delayMs w
   = (Throw (mkError "Bot launch failed after all retries."), w))
  /\ (1 <= maxRetries ->
      exists (n : nat),
        (1 <= n <= Z.to_nat maxRetries)%nat
        /\ launchBotWithRetry launch maxRetries delayMs w
           = (launch (tick w + (n - 1))%nat,
              mkWorld (wallets w) (states w) (sessions w) (tick w + n)
                      (trace w ++ repeat (ESleep delayMs) (n - 1)))
        /\ (forall j, (j < n - 1)%nat -> exists e, launch (tick w + j)%nat = Throw e)
        /\ ((n < Z.to_nat maxRetries)%nat -> launch (tick w + (n - 1))%nat = Ok tt)).
Proof.
  unfold launchBotWithRetry. split.
  - intros H. replace (Z.to_nat maxRetries) with O by lia. reflexivity.
  - intros H. destruct (Z.to_nat maxRetries) as [|m] eqn:Hm; [lia|].
    destruct (launchLoop_outcome m 1 w ltac:(lia)) as (k & Hk & Hrun & Hfail & Hok).
    exists (S k). replace (S k - 1)%nat with k by lia.
    split; [lia|]. split; [exact Hrun|]. split; [exact Hfail|].
    intros Hlt. apply Hok. lia.
Qed.

End LaunchProperties.

(** ** The cost of a cycle *)

Lemma sentMessages_app (a b : list Event) :
  sentMessages (a ++ b) = sentMessages a ++ sentMessages b.
Proof.
  induction a as [|e a IH]; [reflexivity|].
  destruct e; simpl; rewrite ?IH; reflexivity.
Qed.

Lemma sleeps_retriedRead (ev : Event) (k : nat) :
  sleeps [ev] = [] -> sleeps (retriedRead ev k) = repeat 2000 k.
Proof.
  intros Hev. unfold retriedRead.
  change (ev :: concat (repeat [ESleep 2000; ev] k))
    with ([ev] ++ concat (repeat [ESleep 2000; ev] k)).
  rewrite sleeps_app, Hev. simpl.
  induction k as [|k IH]; [reflexivity|].
  cbn [repeat concat]. change ([ESleep 2000; ev] ++ ?l) with (ESleep 2000 :: [ev] ++ l).
  cbn [sleeps]. rewrite sleeps_app, Hev, IH. reflexivity.
Qed.

Lemma sentMessages_retriedRead (ev : Event) (k : nat) :
  sentMessages [ev] = [] -> sentMessages (retriedRead ev k) = [].
Proof.
  intros Hev. unfold retriedRead.
  change (ev :: concat (repeat [ESleep 2000; ev] k))
    with ([ev] ++ concat (repeat [ESleep 2000; ev] k)).
  rewrite sentMessages_app, Hev. simpl.
  induction k as [|k IH]; [reflexivity|].
  cbn [repeat concat]. change ([ESleep 2000; ev] ++ ?l) with (ESleep 2000 :: [ev] ++ l).
  cbn [sentMessages]. rewrite sentMessages_app, Hev, IH. reflexivity.
Qed.

Section PollBounds.
Variable nts : number -> string.
Variable env : Env.

Lemma pollBody_bounds (A : Z) (walletData : WalletData) (w : World) (st : UserState) :
  states w !! A = Some st ->
  exists evs, iterationBounds A w (snd (pollBody nts env A walletData w)) evs.
Proof.
  intros Hst. unfold pollBody. unfold bind at 1. unfold get at 1. cbv beta iota. rewrite Hst.
  destruct (PublicKey_new_cases (publicKey walletData)) as [[e He] | (pk & Hpk & _ & Hok)].
  { unfold bind. rewrite He. exists []. cbn [snd].
    split; [now rewrite app_nil_r|]. split; [lia|]. split; [exists O; split; [lia | reflexivity]|].
    now left. }
  unfold bind at 1. rewrite Hok.
  destruct (pollRetry_remote_shape (fetchBalance env pk) (EGetBalance Primary pk)
              (fun t => match getBalance env t Primary pk with
                        | Ok lamports => Ok (jsdiv lamports e9)
                        | Throw e => Throw e
                        end)
              (lastBalance st) w (fetchBalance_run env pk))
    as (k1 & Hk1 & Hres1 & Htr1 & Htick1 & _ & _ & _).
  unfold bind at 1.
  destruct (pollRetry (fetchBalance env pk) 3 0 (lastBalance st) w) as [r1 w1].
  cbn [fst snd] in Hres1, Htr1, Htick1.
  assert (Hs1 : sleeps (retriedRead (EGetBalance Primary pk) k1) = repeat 2000 k1)
    by (now apply sleeps_retriedRead).
  assert (Hm1 : sentMessages (retriedRead (EGetBalance Primary pk) k1) = [])
    by (now apply sentMessages_retriedRead).
  destruct r1 as [currentBalance | e1].
  2:{ exists (retriedRead (EGetBalance Primary pk) k1). cbn [snd].
      split; [exact Htr1|]. split; [lia|].
      split; [exists k1; split; [lia | exact Hs1]|]. now left. }
  unfold bind at 1. unfold DlmmService_getPositions, tryCatch, remote.
  destruct (getUserPositions env (tick w1) pk) as [positions | e2].
  2:{ exists (retriedRead (EGetBalance Primary pk) k1 ++ [EGetPositions pk]).
      unfold throw. cbv beta iota. unfold iterationBounds.
      cbn [snd trace tick called emit].
      split; [rewrite Htr1, <- app_assoc; reflexivity|]. split; [lia|].
      rewrite sleeps_app, sentMessages_app, Hs1, Hm1. simpl. rewrite app_nil_r.
      split; [exists k1; split; [lia | reflexivity]|]. now left. }
  set (w2 := called (EGetPositions pk) w1).
  destruct (pollRetry_remote_shape (fetchSignatures env pk) (EGetSignatures Primary pk 5)
              (fun t => getSignaturesForAddress env t Primary pk 5)
              (lastSignatures st) w2 (fetchSignatures_run env pk))
    as (k3 & Hk3 & Hres3 & Htr3 & Htick3 & _ & _ & _).
  unfold bind at 1.
  destruct (pollRetry (fetchSignatures env pk) 3 0 (lastSignatures st) w2) as [r3 w3].
  cbn [fst snd] in Hres3, Htr3, Htick3.
  assert (Hs3 : sleeps (retriedRead (EGetSignatures Primary pk 5) k3) = repeat 2000 k3)
    by (now apply sleeps_retriedRead).
  assert (Hm3 : sentMessages (retriedRead (EGetSignatures Primary pk 5) k3) = [])
    by (now apply sentMessages_retriedRead).
  set (reads := retriedRead (EGetBalance Primary pk) k1 ++ [EGetPositions pk]
                ++ retriedRead (EGetSignatures Primary pk 5) k3).
  assert (Htr : trace w3 = trace w ++ reads).
  { rewrite Htr3. unfold w2. cbn [trace called]. rewrite Htr1. unfold reads.
    rewrite <- !app_assoc. reflexivity. }
  assert (Hticks : tick w3 = (tick w + S k1 + 1 + S k3)%nat).
  { rewrite Htick3. unfold w2. cbn [tick called]. lia. }
  assert (Hsl : sleeps reads = repeat 2000 (k1 + k3)).
  { unfold reads. rewrite !sleeps_app, Hs1, Hs3. simpl. now rewrite repeat_app. }
  assert (Hms : sentMessages reads = []).
  { unfold reads. rewrite !sentMessages_app, Hm1, Hm3. reflexivity. }
  destruct r3 as [signatures | e3].
  2:{ exists reads. cbn [snd].
      split; [exact Htr|]. split; [lia|].
      split; [exists (k1 + k3)%nat; split; [lia | exact Hsl]|]. now left. }
  set (alert := alertLogic nts st currentBalance positions signatures).
  destruct (String.eqb alert EmptyString).
  - run. exists reads.
    split; [exact Htr|]. split; [simpl; lia|].
    split; [exists (k1 + k3)%nat; split; [lia | exact Hsl]|]. now left.
  - run. exists (reads ++ [ESendMessage A (alertMessage alert)]).
    assert (Hshape : forall w4,
              trace w4 = trace w3 ++ [ESendMessage A (alertMessage alert)] ->
              tick w4 = S (tick w3) ->
              iterationBounds A w w4 (reads ++ [ESendMessage A (alertMessage alert)])).
    { intros w4 H4 H4t. split; [rewrite H4, Htr, <- app_assoc; reflexivity|].
      split; [lia|]. rewrite sleeps_app, sentMessages_app, Hsl, Hms. simpl.
      rewrite app_nil_r. split; [exists (k1 + k3)%nat; split; [lia | reflexivity]|].
      right. eauto. }
    destruct (sendMessage env (tick w3) A (alertMessage alert)) as [[] | e4]; run;
      apply Hshape; reflexivity.
Qed.

Lemma pollOwner_bounds (A : Z) (walletData : WalletData) (w : World) :
  exists evs, iterationBounds A w (snd (pollOwner nts env (A, walletData) w)) evs.
Proof.
  rewrite pollOwner_unfold. unfold tryCatch.
  destruct (pollBody_bounds A walletData (withInitialState A w) (pollStateSeen w A)
              (withInitialState_lookup A w)) as (evs & Htr & Htick & Hsl & Hms).
  rewrite withInitialState_tick in Htick.
  assert (Htr0 : trace (withInitialState A w) = trace w).
  { unfold withInitialState. destruct (states w !! A); reflexivity. }
  rewrite Htr0 in Htr.
  destruct (pollBody nts env A walletData (withInitialState A w)) as [[[] | e] w1];
    cbn [snd] in *.
  - exists evs. split; [exact Htr|]. split; [exact Htick|]. split; assumption.
  - exists (evs ++ [ELog (LogPollingError A e)]). unfold log, modify, emit. cbn [snd trace tick].
    split; [rewrite Htr, <- app_assoc; reflexivity|]. split; [exact Htick|].
    rewrite sleeps_app, sentMessages_app. simpl. rewrite !app_nil_r. split; assumption.
Qed.

(** What a loop over [xs] may cost. *)
Lemma forEach_pollOwner_bounds (xs : list (Z * WalletData)) :
  forall (w : World),
    exists evs,
      trace (snd (forEach xs (pollOwner nts env) w)) = trace w ++ evs
      /\ (tick w <= tick (snd (forEach xs (pollOwner nts env) w))
          <= tick w + 8 * length xs)%nat
      /\ (exists n, (n <= 4 * length xs)%nat /\ sleeps evs = repeat 2000 n)
      /\ (length (sentMessages evs) <= length xs)%nat
      /\ (forall userId text, In (userId, text) (sentMessages evs) ->
            exists walletData, In (userId, walletData) xs).
Proof.
  induction xs as [|[A wd] xs IH]; intros w.
  - exists []. cbn [forEach ret snd length]. rewrite app_nil_r.
    split; [reflexivity|]. split; [lia|]. split; [exists O; split; [lia | reflexivity]|].
    split; [simpl; lia|]. intros userId text [].
  - rewrite (forEach_cons (pollOwner nts env) (pollOwner_Ok nts env)).
    destruct (pollOwner_bounds A wd w) as (evs1 & Htr1 & Htick1 & (n1 & Hn1 & Hsl1) & Hms1).
    destruct (IH (snd (pollOwner nts env (A, wd) w)))
      as (evs2 & Htr2 & Htick2 & (n2 & Hn2 & Hsl2) & Hlen2 & Hto2).
    exists (evs1 ++ evs2).
    split; [rewrite Htr2, Htr1, <- app_assoc; reflexivity|].
    split; [cbn [length]; lia|].
    split.
    { exists (n1 + n2)%nat. split; [cbn [length]; lia|].
      rewrite sleeps_app, Hsl1, Hsl2, repeat_app. reflexivity. }
    rewrite sentMessages_app, length_app.
    split.
    { cbn [length]. destruct Hms1 as [-> | [text ->]]; simpl; lia. }
    intros userId text Hin. apply in_app_or in Hin as [Hin | Hin].
    + destruct Hms1 as [Hnil | [text' Hone]].
      * rewrite Hnil in Hin. destruct Hin.
      * rewrite Hone in Hin. destruct Hin as [[= <- <-] | []]. exists wd. now left.
    + destruct (Hto2 userId text Hin) as [wd' Hwd']. exists wd'. now right.
Qed.

(** X22: whatever the services answer, a cycle of the poll makes at most
    8 remote calls and 4 pauses of 2000 per registered owner, and sends at
    most one message per registered owner, to registered owners only. *)
Theorem poll_cycle_bounds (w : World) :
  let w' := snd (poll nts env w) in
  let owners := size (wallets w) in
  exists evs,
    trace w' = trace w ++ evs
    /\ (tick w <= tick w' <= tick w + 8 * owners)%nat
    /\ (exists n, (n <= 4 * owners)%nat /\ sleeps evs = repeat 2000 n)
    /\ (length (sentMessages evs) <= owners)%nat
    /\ (forall userId text, In (userId, text) (sentMessages evs) ->
          is_Some (wallets w !! userId)).
Proof.
  intros w' owners. unfold w', owners. rewrite poll_unfold.
  destruct (forEach_pollOwner_bounds (Object_entries w) w)
    as (evs & Htr & Htick & Hsl & Hlen & Hto).
  assert (Hsize : length (Object_entries w) = size (wallets w)).
  { unfold Object_entries. apply length_map_to_list. }
  rewrite Hsize in *.
  exists evs. split; [exact Htr|]. split; [exact Htick|]. split; [exact Hsl|].
  split; [exact Hlen|].
  intros userId text Hin. destruct (Hto userId text Hin) as [wd Hwd].
  apply In_Object_entries in Hwd. eauto.
Qed.

End PollBounds.

(** ** First positions *)

Section FirstPositions.
Variable nts : number -> string.
Variable env : Env.

Lemma positionsChanged_from_none (state : UserState) (p : PositionData)
    (ps : list PositionData) :
  lastPositions state = [] -> positionsChanged nts state (p :: ps) = true.
Proof.
  intros Hlast. unfold positionsChanged. rewrite Hlast, !stringify_positions.
  cbn [itemsText].
  destruct (itemText_head nts p (match ps with
                                 | [] => "]"%string
                                 | _ => String "," (itemsText nts ps)
                                 end)) as [t ->].
  reflexivity.
Qed.

Lemma positionsChanged_same_list (state : UserState) :
  positionsChanged nts state (lastPositions state) = false.
Proof. unfold positionsChanged. now rewrite String.eqb_refl. Qed.

(** X23: going from no position to some position is always a change,
    whatever the numbers are written like.  So the first iteration for a
    new owner for whom the position source answers with a position sends
    an alert, and the next one, with the same answers, sends none and
    leaves the snapshot. *)
Theorem first_positions_always_alert (B : Z) (walletData : WalletData) (pk : PublicKey)
    (lamports : number) (signatures : list string) (p : PositionData)
    (ps : list PositionData) (w : World) :
  states w !! B = None ->
  bs58.decodeUnsafe (publicKey walletData) = Some pk ->
  length pk = 32%nat ->
  (forall t, getBalance env t Primary pk = Ok lamports) ->
  (forall t, getUserPositions env t pk = Ok (p :: ps)) ->
  (forall t, getSignaturesForAddress env t Primary pk 5 = Ok signatures) ->
  (forall t text, sendMessage env t B text = Ok tt) ->
  let w1 := snd (pollOwner nts env (B, walletData) w) in
  let w2 := snd (pollOwner nts env (B, walletData) w1) in
  positionsChanged nts pollInitialState (p :: ps) = true
  /\ (exists text, trace w1 = trace w ++ pollReads pk ++ [ESendMessage B text])
  /\ trace w2 = trace w1 ++ pollReads pk
  /\ states w2 = states w1.
Proof.
  intros Hnew Hpk Hlen Hbal Hpos Hsig Hsend w1 w2.
  assert (Hchanged : positionsChanged nts pollInitialState (p :: ps) = true)
    by (now apply positionsChanged_from_none).
  split; [exact Hchanged|].
  destruct (pollOwner_succeeding nts env B walletData pk lamports (p :: ps) signatures w
              Hpk Hlen Hbal Hpos Hsig Hsend) as (w1' & Hrun1 & _ & Hst1 & Htr1).
  assert (Hseen : pollStateSeen w B = pollInitialState)
    by (unfold pollStateSeen; now rewrite Hnew).
  rewrite Hseen in Hst1, Htr1. rewrite alertLogic_empty in Htr1.
  unfold somethingChanged in Htr1. rewrite Hchanged, orb_true_r in Htr1. simpl in Htr1.
  assert (Hw1 : w1 = w1') by (unfold w1; now rewrite Hrun1).
  rewrite <- Hw1 in *. clear Hrun1.
  split; [eexists; exact Htr1|].
  destruct (pollOwner_succeeding nts env B walletData pk lamports (p :: ps) signatures w1
              Hpk Hlen Hbal Hpos Hsig Hsend) as (w2' & Hrun2 & _ & Hst2 & Htr2).
  assert (Hw2 : w2 = w2') by (unfold w2; now rewrite Hrun2).
  rewrite <- Hw2 in *. clear Hrun2.
  assert (Hseen1 : pollStateSeen w1 B
                   = mkUserState (jsdiv lamports e9) (p :: ps) signatures
                       (network pollInitialState) (lastFaucetTime pollInitialState)).
  { unfold pollStateSeen. rewrite Hst1, lookup_insert_eq. reflexivity. }
  rewrite Hseen1 in Hst2, Htr2. rewrite alertLogic_empty in Htr2.
  match type of Htr2 with
  | context [somethingChanged nts ?st ?b ?qs ?ss] =>
      pose proof (nothingChanged_same nts st) as Hsame; cbn [lastBalance lastPositions
        lastSignatures] in Hsame; rewrite Hsame in Htr2
  end.
  simpl in Htr2. split; [exact Htr2|].
  rewrite Hst2, Hst1. cbn [network lastFaucetTime]. apply insert_insert_eq.
Qed.

End FirstPositions.

(** ** The further theorems at concrete inputs *)

(** X1 at the primary endpoint of [testEnv], which refuses airdrops. *)
Lemma airdrop_attempts_bounded_witness :
  let run := requestAirdropWithRetry testEnv Primary (addressOf keyA) 2000000000 3 2000
               emptyWorld in
  exists (n : nat) evs,
    trace (snd run) = trace emptyWorld ++ evs
    /\ airdropRequests evs = repeat Primary n
    /\ (n <= Z.to_nat 3)%nat
    /\ sleeps evs = delaysBefore 2000 n
    /\ sameStores emptyWorld (snd run)
    /\ (forall e, fst run = Throw e -> n = Z.to_nat 3).
Proof.
  exact (airdrop_attempts_bounded testEnv Primary (addressOf keyA) 2000000000 3 2000
           emptyWorld).
Defined.

(** X2 at the primary endpoint of [dustEnv], which grants at once. *)
Lemma airdrop_success_confirmed_witness :
  let run := requestAirdropWithRetry dustEnv Primary (addressOf keyA) 2000000000 3 2000
               emptyWorld in
  fst run = Ok "primarySignature"%string
  /\ exists (t : nat) evs,
       (tick emptyWorld <= t)%nat
       /\ tick (snd run) = S (S t)
       /\ requestAirdrop dustEnv t Primary (addressOf keyA) 2000000000
          = Ok "primarySignature"%string
       /\ confirmTransaction dustEnv (S t) Primary "primarySignature" = Ok None
       /\ trace (snd run)
          = trace emptyWorld ++ evs
            ++ [ERequestAirdrop Primary (addressOf keyA) 2000000000;
                EConfirmTransaction Primary "primarySignature"].
Proof.
  assert (H : fst (requestAirdropWithRetry dustEnv Primary (addressOf keyA) 2000000000 3 2000
                     emptyWorld) = Ok "primarySignature"%string) by reflexivity.
  split; [exact H|].
  exact (airdrop_success_confirmed dustEnv Primary (addressOf keyA) 2000000000 3 2000
           emptyWorld "primarySignature"%string H).
Defined.

(** X3 at the primary endpoint of [testEnv], with the default budget. *)
Lemma airdrop_error_provenance_witness :
  let run := requestAirdropWithRetry testEnv Primary (addressOf keyA) 2000000000 3 2000
               emptyWorld in
  1 <= 3
  /\ fst run = Throw (mkError "primary down")
  /\ exists t, (tick emptyWorld <= t < tick (snd run))%nat
               /\ airdropFailure testEnv Primary (addressOf keyA) 2000000000 t
                    (mkError "primary down").
Proof.
  assert (H1 : 1 <= 3) by lia.
  assert (H2 : fst (requestAirdropWithRetry testEnv Primary (addressOf keyA) 2000000000 3 2000
                      emptyWorld) = Throw (mkError "primary down")) by reflexivity.
  split; [exact H1|]. split; [exact H2|].
  exact (proj2 (airdrop_error_provenance testEnv Primary (addressOf keyA) 2000000000 3 2000
                  emptyWorld) H1 (mkError "primary down") H2).
Defined.

(** X4 at owner 8 of [twoOwners]. *)
Lemma poll_cycle_invariants_witness :
  is_Some (wallets twoOwners !! 8)
  /\ is_Some (states (snd (poll exactToString testEnv twoOwners)) !! 8).
Proof.
  assert (H : is_Some (wallets twoOwners !! 8)) by (eexists; vm_compute; reflexivity).
  split; [exact H|].
  exact (proj1 (proj2 (proj2 (poll_cycle_invariants exactToString testEnv twoOwners))) 8 H).
Defined.

(** X5 at the balance of [keyA] in [testEnv]. *)
Lemma poll_reads_retry_any_answers_witness :
  let run := pollRetry (fetchBalance testEnv (addressOf keyA)) 3 0 (ofZ 0) emptyWorld in
  exists (k : nat),
    (k <= 2)%nat
    /\ fst run = match getBalance testEnv (tick emptyWorld + k)%nat Primary (addressOf keyA) with
                 | Ok lamports => Ok (jsdiv lamports e9)
                 | Throw e => Throw e
                 end
    /\ trace (snd run)
       = trace emptyWorld ++ retriedRead (EGetBalance Primary (addressOf keyA)) k
    /\ (forall j, (j < k)%nat ->
          exists e, getBalance testEnv (tick emptyWorld + j)%nat Primary (addressOf keyA)
                    = Throw e)
    /\ ((k < 2)%nat -> exists v, fst run = Ok v).
Proof.
  exact (proj1 (poll_reads_retry_any_answers testEnv (addressOf keyA) emptyWorld) (ofZ 0)).
Defined.

(** X6 at owner 8 of [twoOwners]. *)
Lemma poll_snapshot_fresh_or_kept_witness :
  let w' := snd (pollOwner exactToString testEnv (8, mkWalletData keyB "secretB") twoOwners) in
  states w' !! 8 = Some (pollStateSeen twoOwners 8)
  \/ exists (pk : PublicKey) (t1 t2 t3 : nat) lamports positions signatures,
       bs58.decodeUnsafe (publicKey (mkWalletData keyB "secretB")) = Some pk
       /\ (tick twoOwners <= t1 < t2)%nat /\ (t2 < t3 < tick w')%nat
       /\ getBalance testEnv t1 Primary pk = Ok lamports
       /\ getUserPositions testEnv t2 pk = Ok positions
       /\ getSignaturesForAddress testEnv t3 Primary pk 5 = Ok signatures
       /\ states w' !! 8
          = Some (mkUserState (jsdiv lamports e9) positions signatures
                    (network (pollStateSeen twoOwners 8))
                    (lastFaucetTime (pollStateSeen twoOwners 8))).
Proof.
  exact (poll_snapshot_fresh_or_kept exactToString testEnv 8 (mkWalletData keyB "secretB")
           twoOwners).
Defined.

(** X7 at owner 7: refused by [staleQueryEnv], acknowledged by
    [testEnv]. *)
Lemma faucet_answers_within_budget_witness :
  (exists w',
      bot_action_request_tokens staleQueryEnv 7 oneOwner
      = (Throw (mkError "query is too old"), w')
      /\ trace w' = trace oneOwner ++ [EAnswerCbQuery 7]
      /\ wallets w' = wallets oneOwner
      /\ states w' = states oneOwner)
  /\ exists w' evs (r : Reply) (p f : nat),
       bot_action_request_tokens testEnv 7 oneOwner = (Ok tt, w')
       /\ trace w' = trace oneOwner ++ EAnswerCbQuery 7 :: evs ++ [EReply 7 r]
       /\ airdropRequests evs = repeat Primary p ++ repeat Fallback f
       /\ (p <= 3)%nat /\ (f <= 3)%nat /\ (f <> O -> p = 3%nat)
       /\ (isAirdropSuccess r = false ->
           lastFaucetTime (faucetStateSeen w' 7) = lastFaucetTime (faucetStateSeen oneOwner 7))
       /\ (forall signature, r = ReplyAirdropSuccess signature ->
             lastFaucetTime (faucetStateSeen w' 7)
             = Some (Date_now testEnv (S (tick oneOwner)))
             /\ exists (c : Endpoint) (pk : PublicKey) (t : nat),
                  (S (tick oneOwner) <= t < tick w')%nat
                  /\ airdropConfirmed testEnv c pk 2000000000 t signature).
Proof.
  assert (H : 7 <> 0) by discriminate.
  assert (Hno : answerCbQuery staleQueryEnv (tick oneOwner) 7
                = Throw (mkError "query is too old")) by reflexivity.
  assert (Hack : answerCbQuery testEnv (tick oneOwner) 7 = Ok tt) by reflexivity.
  split.
  - exact (proj1 (faucet_answers_within_budget staleQueryEnv 7 oneOwner H)
             (mkError "query is too old") Hno).
  - exact (proj2 (faucet_answers_within_budget testEnv 7 oneOwner H) Hack).
Defined.

(** X8 at user 7 of the empty world. *)
Lemma faucet_without_wallet_witness :
  let run := bot_action_request_tokens testEnv 7 emptyWorld in
  let w' := snd run in
  tick w' = S (tick emptyWorld)
  /\ wallets w' = wallets emptyWorld
  /\ states w' = states emptyWorld
  /\ match answerCbQuery testEnv (tick emptyWorld) 7 with
     | Ok _ =>
         fst run = Ok tt
         /\ trace w' = trace emptyWorld ++ [EAnswerCbQuery 7; EReply 7 ReplyWalletMissing]
     | Throw e =>
         fst run = Throw e
         /\ trace w' = trace emptyWorld ++ [EAnswerCbQuery 7]
     end.
Proof.
  assert (H0 : 7 <> 0) by discriminate.
  assert (H1 : walletSeen emptyWorld 7 = None) by reflexivity.
  exact (faucet_without_wallet testEnv 7 emptyWorld H0 H1).
Defined.

(** X9 at owner 7 of [justFunded], one second after the grant. *)
Lemma faucet_wait_between_1_and_60_witness :
  exists minutes,
    trace (snd (request_tokens testEnv 7 justFunded))
    = trace justFunded ++ [EReply 7 (ReplyRateLimited minutes)]
    /\ 1 <= minutes <= 60
    /\ 60000 * (minutes - 1)
       < 1699999999000 + 3600000 - Date_now testEnv (tick justFunded)
       <= 60000 * minutes.
Proof.
  assert (H0 : 7 <> 0) by discriminate.
  assert (H1 : walletSeen justFunded 7 = Some walletA) by (vm_compute; reflexivity).
  assert (H2 : lastFaucetTime (faucetStateSeen justFunded 7) = Some 1699999999000)
    by (vm_compute; reflexivity).
  assert (H3 : 1699999999000 <= Date_now testEnv (tick justFunded)
               < 1699999999000 + 3600000) by (simpl; lia).
  exact (faucet_wait_between_1_and_60 testEnv 7 justFunded walletA 1699999999000
           H0 H1 H2 H3).
Defined.

(** X10 at owner 7 with one lamport and neither positions nor signatures. *)
Lemma poll_message_iff_change_witness :
  let state := pollStateSeen oneOwner 7 in
  let balance := jsdiv (ofZ 1) e9 in
  let w' := snd (pollOwner exactToString dustEnv (7, walletA) oneOwner) in
  trace w'
  = trace oneOwner ++ pollReads (addressOf keyA)
    ++ (if somethingChanged exactToString state balance [] []
        then [ESendMessage 7 (alertMessage (alertLogic exactToString state balance [] []))]
        else [])
  /\ (states oneOwner !! 7 = Some state ->
      balance = lastBalance state ->
      [] = lastPositions state ->
      [] = lastSignatures state ->
      trace w' = trace oneOwner ++ pollReads (addressOf keyA)
      /\ states w' = states oneOwner).
Proof.
  assert (H2 : bs58.decodeUnsafe (publicKey walletA) = Some (addressOf keyA))
    by (vm_compute; reflexivity).
  assert (H3 : length (addressOf keyA) = 32%nat) by (vm_compute; reflexivity).
  exact (poll_message_iff_change exactToString dustEnv 7 walletA (addressOf keyA) (ofZ 1)
           [] [] oneOwner H2 H3 (fun _ => eq_refl) (fun _ => eq_refl) (fun _ => eq_refl)
           (fun _ _ => eq_refl)).
Defined.

(** X11 at owner 7 in [mutedEnv]. *)
Lemma poll_undelivered_alert_repeats_witness :
  let state := pollStateSeen oneOwner 7 in
  let alert := alertLogic exactToString state (jsdiv (ofZ 1500000000) e9) [mockPosition]
                 ["5sig"%string] in
  let w1 := snd (pollOwner exactToString mutedEnv (7, walletA) oneOwner) in
  let w2 := snd (pollOwner exactToString mutedEnv (7, walletA) w1) in
  states w1 !! 7 = Some state
  /\ trace w1 = trace oneOwner ++ pollReads (addressOf keyA)
                ++ [ESendMessage 7 (alertMessage alert);
                    ELog (LogPollingError 7 (chatNotFound (tick oneOwner + 3)%nat))]
  /\ states w2 !! 7 = Some state
  /\ trace w2 = trace w1 ++ pollReads (addressOf keyA)
                ++ [ESendMessage 7 (alertMessage alert);
                    ELog (LogPollingError 7 (chatNotFound (tick oneOwner + 7)%nat))].
Proof.
  assert (H2 : bs58.decodeUnsafe (publicKey walletA) = Some (addressOf keyA))
    by (vm_compute; reflexivity).
  assert (H3 : length (addressOf keyA) = 32%nat) by (vm_compute; reflexivity).
  assert (H4 : somethingChanged exactToString (pollStateSeen oneOwner 7)
                 (jsdiv (ofZ 1500000000) e9) [mockPosition] ["5sig"%string] = true)
    by (vm_compute; reflexivity).
  exact (poll_undelivered_alert_repeats exactToString mutedEnv 7 walletA (addressOf keyA)
           (ofZ 1500000000) [mockPosition] ["5sig"%string] chatNotFound oneOwner
           H2 H3 (fun _ => eq_refl) (fun _ => eq_refl) (fun _ => eq_refl)
           (fun _ _ => eq_refl) H4).
Defined.

(** X12 at owner 7 of [justFunded]. *)
Lemma poll_keeps_rate_limit_witness :
  let w1 := snd (poll exactToString testEnv justFunded) in
  let run := bot_action_request_tokens testEnv 7 w1 in
  let w2 := snd run in
  lastFaucetTime <$> states w1 !! 7 = Some (Some 1699999999000)
  /\ lastFaucetTime <$> states w2 !! 7 = Some (Some 1699999999000)
  /\ tick w2 = S (tick w1)
  /\ match answerCbQuery testEnv (tick w1) 7 with
     | Ok _ =>
         exists minutes,
           fst run = Ok tt
           /\ trace w2 = trace w1 ++ [EAnswerCbQuery 7; EReply 7 (ReplyRateLimited minutes)]
           /\ 1 <= minutes <= 60
     | Throw e =>
         fst run = Throw e
         /\ trace w2 = trace w1 ++ [EAnswerCbQuery 7]
     end.
Proof.
  assert (H0 : 7 <> 0) by discriminate.
  assert (H1 : walletSeen justFunded 7 = Some walletA) by (vm_compute; reflexivity).
  assert (H2 : lastFaucetTime <$> states justFunded !! 7 = Some (Some 1699999999000))
    by (vm_compute; reflexivity).
  assert (H3 : 1699999999000
               <= Date_now testEnv (S (tick (snd (poll exactToString testEnv justFunded))))
               < 1699999999000 + 3600000)
    by (vm_compute; split; [discriminate | reflexivity]).
  exact (poll_keeps_rate_limit exactToString testEnv 7 walletA justFunded 1699999999000
           H0 H1 H2 H3).
Defined.

(** X13 at a text that is no key and at [key64] followed by a no-break
    space. *)
Lemma import_flag_lifecycle_witness :
  (let w' := snd (bot_on_text exactToString testEnv 7 (codeUnits "devil") awaitingImport) in
   waitingForWalletImport (sessionSeen w' 7) = true
   /\ textGate (sessionSeen w' 7) (codeUnits "devil") = true
   /\ wallets w' = wallets awaitingImport)
  /\ (let w' := snd (bot_on_text exactToString testEnv 7 key64nbsp awaitingImport) in
      waitingForWalletImport (sessionSeen w' 7) = false
      /\ forall text2,
           let w2 := snd (bot_on_text exactToString testEnv 7 text2 w') in
           wallets w2 = wallets w'
           /\ (trace w2 = trace w' \/ trace w2 = trace w' ++ [EReply 7 ReplyWalletMissing])).
Proof.
  assert (H0 : 7 <> 0) by discriminate.
  assert (G1 : textGate (sessionSeen awaitingImport 7) (codeUnits "devil") = true)
    by (vm_compute; reflexivity).
  assert (B1 : forall sk, decodedKey (codeUnits "devil") = Some sk -> length sk <> 64%nat)
    by (intros sk Hsk; vm_compute in Hsk; discriminate).
  assert (H1 : textGate (sessionSeen awaitingImport 7) key64nbsp = true)
    by (vm_compute; reflexivity).
  assert (H2 : decodedKey key64nbsp = Some (addressOf key64)) by (vm_compute; reflexivity).
  assert (H3 : length (addressOf key64) = 64%nat) by (vm_compute; reflexivity).
  assert (H4 : Keypair_fromSecretKey testEnv (addressOf key64) = Ok keyB) by reflexivity.
  split.
  - exact (proj1 (import_flag_lifecycle exactToString testEnv 7 (codeUnits "devil")
                    awaitingImport H0 G1) B1).
  - exact (proj2 (proj2 (import_flag_lifecycle exactToString testEnv 7 key64nbsp
                           awaitingImport H0 H1))
             (addressOf key64) keyB H2 H3 H4).
Defined.

(** X14 at the 64-byte key [key64] in [offlineEnv]. *)
Lemma import_survives_balance_failure_witness :
  let w' := snd (onText exactToString offlineEnv 7 key64 awaitingImport) in
  let walletData := mkWalletData keyA (trim key64) in
  trace w' = trace awaitingImport
             ++ [EGetBalance Primary (addressOf keyA);
                 ELog (LogImportError 7 (mkError "fetch failed"));
                 EReply 7 (ReplyImportError (importErrorText (mkError "fetch failed")))]
  /\ wallets w' !! 7 = Some walletData
  /\ sessionSeen w' 7 = mkSession (Some walletData) false.
Proof.
  assert (H0 : 7 <> 0) by discriminate.
  assert (H1 : importGate (sessionSeen awaitingImport 7) key64 = true)
    by (vm_compute; reflexivity).
  assert (H2 : bs58.decodeUnsafe (trim key64) = Some (addressOf key64))
    by (vm_compute; reflexivity).
  assert (H3 : length (addressOf key64) = 64%nat) by (vm_compute; reflexivity).
  assert (H4 : Keypair_fromSecretKey offlineEnv (addressOf key64) = Ok keyA) by reflexivity.
  assert (H5 : bs58.decodeUnsafe keyA = Some (addressOf keyA)) by (vm_compute; reflexivity).
  assert (H6 : length (addressOf keyA) = 32%nat) by (vm_compute; reflexivity).
  assert (H7 : getBalance offlineEnv (tick awaitingImport) Primary (addressOf keyA)
               = Throw (mkError "fetch failed")) by reflexivity.
  exact (import_survives_balance_failure exactToString offlineEnv 7 key64 awaitingImport
           (addressOf key64) keyA (addressOf keyA) (mkError "fetch failed")
           H0 H1 H2 H3 H4 H5 H6 H7).
Defined.

(** X15 at owner 7 of [twoOwners], who has no session yet. *)
Lemma loadWallet_restores_witness :
  let w' := snd (loadWallet 7 twoOwners) in
  fst (loadWallet 7 twoOwners) = Ok tt
  /\ wallets w' = wallets twoOwners /\ states w' = states twoOwners
  /\ trace w' = trace twoOwners
  /\ wallet (default emptySession (sessions w' !! 7))
     = match wallet (default emptySession (sessions twoOwners !! 7)) with
       | Some walletData => Some walletData
       | None => wallets twoOwners !! 7
       end
  /\ waitingForWalletImport (default emptySession (sessions w' !! 7))
     = waitingForWalletImport (default emptySession (sessions twoOwners !! 7))
  /\ (forall B, B <> 7 -> sessions w' !! B = sessions twoOwners !! B)
  /\ loadWallet 7 w' = (Ok tt, w').
Proof.
  assert (H0 : 7 <> 0) by discriminate.
  exact (loadWallet_restores 7 twoOwners H0).
Defined.

(** X16 at the text 1.5. *)
Lemma escapeMarkdownV2_sound_witness :
  wellEscaped (escapeMarkdownV2 "1.5") = true
  /\ unescapeMarkdownV2 (escapeMarkdownV2 "1.5") = "1.5"%string
  /\ "1.5"%string = "1.5"%string.
Proof.
  assert (H : escapeMarkdownV2 "1.5" = escapeMarkdownV2 "1.5") by reflexivity.
  split; [exact (proj1 escapeMarkdownV2_sound "1.5"%string)|].
  split; [exact (proj1 (proj2 escapeMarkdownV2_sound) "1.5"%string)|].
  exact (proj2 (proj2 escapeMarkdownV2_sound) "1.5"%string "1.5"%string H).
Defined.

(** X17 at the text abc. *)
Lemma escapeMarkdownV2_pieces_witness :
  escapeMarkdownV2 "abc" = "abc"%string <-> countReserved "abc" = O.
Proof.
  exact (proj2 (proj2 escapeMarkdownV2_pieces) "abc"%string).
Defined.

(** X18 at the text 1.5000. *)
Lemma escapeMarkdownV2_twice_witness :
  String.length (escapeMarkdownV2 (escapeMarkdownV2 "1.5000"))
  = (String.length "1.5000" + 3 * countReserved "1.5000")%nat
  /\ (escapeMarkdownV2 (escapeMarkdownV2 "1.5000") = escapeMarkdownV2 "1.5000"
      <-> countReserved "1.5000" = O)
  /\ unescapeMarkdownV2 (escapeMarkdownV2 (escapeMarkdownV2 "1.5000"))
     = escapeMarkdownV2 "1.5000".
Proof.
  exact (escapeMarkdownV2_twice "1.5000"%string).
Defined.

(** X19 at the rebalance suggestion for the address of [keyB]. *)
Lemma helpers_answer_with_a_text_witness :
  exists text,
    getRebalanceSuggestion testEnv (addressOf keyB) emptyWorld
    = (Ok text, called (EGetPositions (addressOf keyB)) emptyWorld)
    /\ wellEscaped text = true
    /\ (forall p rest,
          getUserPositions testEnv (tick emptyWorld) (addressOf keyB) = Ok (p :: rest) ->
          text = suggestRebalance).
Proof.
  exact (proj1 (proj2 (helpers_answer_with_a_text exactToString (fun _ => keyB) testEnv
                         (addressOf keyB) emptyWorld))).
Defined.

(** X20 at a balance of 1.5 SOL. *)
Lemma wallet_overview_shows_escapes_witness :
  let shown := toFixed exactToString (jsdiv (ofZ 1500000000) e9) 4 in
  exists text,
    fst (getWalletOverview exactToString (fun _ => keyB) testEnv (addressOf keyB) emptyWorld)
    = Ok text
    /\ unescapeMarkdownV2 text
       = overviewBody (escapeMarkdownV2 keyB) (escapeMarkdownV2 shown)
           (poolDetails exactToString [mockPosition])
    /\ countReserved shown = 1%nat
    /\ String.length (escapeMarkdownV2 shown) = S (String.length shown)
    /\ unescapeMarkdownV2 (escapeMarkdownV2 shown) = shown.
Proof.
  assert (H1 : getBalance testEnv (tick emptyWorld) Primary (addressOf keyB)
               = Ok (ofZ 1500000000)) by (vm_compute; reflexivity).
  assert (H2 : getUserPositions testEnv (S (tick emptyWorld)) (addressOf keyB)
               = Ok [mockPosition]) by reflexivity.
  assert (H3 : balanceInRange (jsdiv (ofZ 1500000000) e9) = true)
    by (vm_compute; reflexivity).
  exact (wallet_overview_shows_escapes exactToString (fun _ => keyB) testEnv (addressOf keyB)
           emptyWorld (ofZ 1500000000) [mockPosition] H1 H2 H3).
Defined.

(** X21 at a launch that succeeds at the third attempt, with the default budget. *)
Lemma launch_attempts_bounded_witness :
  1 <= 5
  /\ exists (n : nat),
       (1 <= n <= Z.to_nat 5)%nat
       /\ launchBotWithRetry_default launchAfterTwo emptyWorld
          = (launchAfterTwo (tick emptyWorld + (n - 1))%nat,
             mkWorld (wallets emptyWorld) (states emptyWorld) (sessions emptyWorld)
                     (tick emptyWorld + n)
                     (trace emptyWorld ++ repeat (ESleep 5000) (n - 1)))
       /\ (forall j, (j < n - 1)%nat ->
             exists e, launchAfterTwo (tick emptyWorld + j)%nat = Throw e)
       /\ ((n < Z.to_nat 5)%nat -> launchAfterTwo (tick emptyWorld + (n - 1))%nat = Ok tt).
Proof.
  assert (H : 1 <= 5) by lia.
  split; [exact H|].
  exact (proj2 (launch_attempts_bounded launchAfterTwo 5 5000 emptyWorld) H).
Defined.

(** X22 at the two owners of [twoOwners]. *)
Lemma poll_cycle_bounds_witness :
  let w' := snd (poll exactToString testEnv twoOwners) in
  let owners := size (wallets twoOwners) in
  exists evs,
    trace w' = trace twoOwners ++ evs
    /\ (tick twoOwners <= tick w' <= tick twoOwners + 8 * owners)%nat
    /\ (exists n, (n <= 4 * owners)%nat /\ sleeps evs = repeat 2000 n)
    /\ (length (sentMessages evs) <= owners)%nat
    /\ (forall userId text, In (userId, text) (sentMessages evs) ->
          is_Some (wallets twoOwners !! userId)).
Proof.
  exact (poll_cycle_bounds exactToString testEnv twoOwners).
Defined.

(** X23 at owner 8 of [twoOwners] and the position of the mock. *)
Lemma first_positions_always_alert_witness :
  let w1 := snd (pollOwner exactToString testEnv (8, mkWalletData keyB "secretB") twoOwners) in
  let w2 := snd (pollOwner exactToString testEnv (8, mkWalletData keyB "secretB") w1) in
  positionsChanged exactToString pollInitialState [mockPosition] = true
  /\ (exists text,
         trace w1 = trace twoOwners ++ pollReads (addressOf keyB) ++ [ESendMessage 8 text])
  /\ trace w2 = trace w1 ++ pollReads (addressOf keyB)
  /\ states w2 = states w1.
Proof.
  assert (H1 : states twoOwners !! 8 = None) by reflexivity.
  assert (H2 : bs58.decodeUnsafe (publicKey (mkWalletData keyB "secretB"))
               = Some (addressOf keyB)) by (vm_compute; reflexivity).
  assert (H3 : length (addressOf keyB) = 32%nat) by (vm_compute; reflexivity).
  assert (H4 : forall t, getBalance testEnv t Primary (addressOf keyB) = Ok (ofZ 1500000000))
    by (intros t; vm_compute; reflexivity).
  exact (first_positions_always_alert exactToString testEnv 8 (mkWalletData keyB "secretB")
           (addressOf keyB) (ofZ 1500000000) ["5sig"%string] mockPosition [] twoOwners
           H1 H2 H3 H4 (fun _ => eq_refl) (fun _ => eq_refl) (fun _ _ => eq_refl)).
Defined.
